(** * ragfin: the ingestion pipeline of the financial RAG corpus

    A shallow embedding of the Python sources

    - [cdbvecstore.py]        (class [FinVecStore]: text normaliser, flattening of
                               the scraped record, chunk filter, deduplication,
                               orchestration),
    - [fintastic.py]          (class [FinDataExtractor], the extractor the vector
                               store imports),
    - [fin_data_extractor.py] (the earlier, requests-only [FinDataExtractor]),

    and the properties of them that the design document states.

    Python values are modelled as follows.  A [str] is the list of its Unicode
    code points ([N]); a [bytes] object is the list of its octets.  A raised
    exception is the [Raise] branch of [result].  A [dict] is an association
    list in insertion order with unique keys (Python dictionaries iterate in
    insertion order, and the code iterates them).  The run-scoped [set] of
    digests is a [gset].  Library code the sources call but do not contain
    (BeautifulSoup, the LangChain loaders and splitters, Chroma, [hashlib], the
    Unicode character database) is a parameter of the development. *)

From Stdlib Require Import NArith ZArith Ascii String.
From stdpp Require Import base option list gmap strings.

Set Warnings "-register-all".
Local Open Scope N_scope.

(** ** Python values *)

Module Py.

(** Python [str] and [bytes]. *)
Definition pystr := list N.
Definition bytes := list N.

(** A Rocq string literal read as a Python [str] (one code point per octet). *)
Definition lit (s : string) : pystr :=
  map N_of_ascii (list_ascii_of_string s).

(** The exceptions the modelled code can raise. [External] stands for an
    exception raised inside a library or the network. *)
Inductive exn :=
| UnicodeEncodeError
| UnicodeDecodeError
| AttributeError
| IndexError
| TypeError
| External (what : pystr).

Inductive result (A : Type) :=
| Ok (a : A)
| Raise (e : exn).
Arguments Ok {A} a.
Arguments Raise {A} e.

Definition bind {A B} (r : result A) (k : A -> result B) : result B :=
  match r with
  | Ok a => k a
  | Raise e => Raise e
  end.

Definition returns {A} (r : result A) : Prop := exists a, r = Ok a.
Definition raises {A} (r : result A) : Prop := exists e, r = Raise e.

(** [str.isspace] on one code point: CPython's [_PyUnicode_IsWhitespace]. *)
Definition isspace (c : N) : bool :=
  ((0x09 <=? c) && (c <=? 0x0D)) || ((0x1C <=? c) && (c <=? 0x20))
  || (c =? 0x85) || (c =? 0xA0) || (c =? 0x1680)
  || ((0x2000 <=? c) && (c <=? 0x200A))
  || (c =? 0x2028) || (c =? 0x2029) || (c =? 0x202F) || (c =? 0x205F)
  || (c =? 0x3000).

(** The line boundaries of [str.splitlines]: CPython's [_PyUnicode_IsLinebreak]. *)
Definition islinebreak (c : N) : bool :=
  ((0x0A <=? c) && (c <=? 0x0D)) || ((0x1C <=? c) && (c <=? 0x1E))
  || (c =? 0x85) || (c =? 0x2028) || (c =? 0x2029).

Fixpoint lstrip (s : pystr) : pystr :=
  match s with
  | [] => []
  | c :: rest => if isspace c then lstrip rest else s
  end.
Definition rstrip (s : pystr) : pystr := reverse (lstrip (reverse s)).
(** [s.strip()] *)
Definition strip (s : pystr) : pystr := rstrip (lstrip s).

(** [s.splitlines()]: a line ends at a line boundary, [\r\n] counts as one
    boundary, and no empty line follows the last boundary.
    [after_cr] records that the previous code point was a carriage return. *)
Fixpoint splitlines_from (after_cr : bool) (s : pystr) : list pystr :=
  match s with
  | [] => []
  | c :: rest =>
      if after_cr && (c =? 0x0A) then splitlines_from false rest
      else if islinebreak c then [] :: splitlines_from (c =? 0x0D) rest
      else match splitlines_from false rest with
           | [] => [[c]]
           | l :: ls => (c :: l) :: ls
           end
  end.
Definition splitlines (s : pystr) : list pystr := splitlines_from false s.

(** [sep.join(parts)] *)
Fixpoint join (sep : pystr) (parts : list pystr) : pystr :=
  match parts with
  | [] => []
  | [p] => p
  | p :: ps => p ++ sep ++ join sep ps
  end.

(** [s.split()]: the maximal runs of code points that are not whitespace. *)
Fixpoint words (s : pystr) : list pystr :=
  match s with
  | [] => []
  | c :: rest =>
      if isspace c then words rest
      else match rest with
           | d :: _ =>
               if isspace d then [c] :: words rest
               else match words rest with
                    | w :: ws => (c :: w) :: ws
                    | [] => [[c]]
                    end
           | [] => [[c]]
           end
  end.

(** [s.split(sep)] for a separator of one code point. *)
Fixpoint split_char (sep : N) (s : pystr) : list pystr :=
  match s with
  | [] => [[]]
  | c :: rest =>
      if c =? sep then [] :: split_char sep rest
      else match split_char sep rest with
           | [] => [[c]]
           | part :: parts => (c :: part) :: parts
           end
  end.

(** [s.encode] to UTF-8: lone surrogates cannot be encoded. *)
Definition utf8_encode_char (c : N) : result bytes :=
  if c <? 0x80 then Ok [c]
  else if c <? 0x800 then
    Ok [N.lor 0xC0 (N.shiftr c 6); N.lor 0x80 (N.land c 0x3F)]
  else if c <? 0x10000 then
    if (0xD800 <=? c) && (c <=? 0xDFFF) then Raise UnicodeEncodeError
    else Ok [N.lor 0xE0 (N.shiftr c 12);
             N.lor 0x80 (N.land (N.shiftr c 6) 0x3F);
             N.lor 0x80 (N.land c 0x3F)]
  else
    Ok [N.lor 0xF0 (N.shiftr c 18);
        N.lor 0x80 (N.land (N.shiftr c 12) 0x3F);
        N.lor 0x80 (N.land (N.shiftr c 6) 0x3F);
        N.lor 0x80 (N.land c 0x3F)].

Fixpoint utf8_encode (s : pystr) : result bytes :=
  match s with
  | [] => Ok []
  | c :: rest =>
      bind (utf8_encode_char c) (fun bs =>
      bind (utf8_encode rest) (fun bs' => Ok (bs ++ bs')))
  end.

(** What the modelled code takes from the Unicode character database: the
    code point of a character name (for a named escape sequence), and
    [str.isalnum] outside ASCII. *)
Class UnicodeData := {
  ucd_getcode : bytes -> option N;
  ucd_isalnum : N -> bool
}.

(** [c.isalnum()] for a one-character string. *)
Definition isalnum `{UnicodeData} (c : N) : bool :=
  if c <? 0x80 then
    ((0x30 <=? c) && (c <=? 0x39)) || ((0x41 <=? c) && (c <=? 0x5A))
    || ((0x61 <=? c) && (c <=? 0x7A))
  else ucd_isalnum c.

(** *** The [unicode_escape] codec with strict error handling

    CPython's decoder reads the bytes left to right.  A byte other than a
    backslash is the Latin-1 character of that value.  After a backslash:
    a newline is dropped; a backslash, a single or a double quote stand for
    themselves; the letters a, b, f, n, r, t, v give BEL, BS, FF, LF, CR, TAB
    and VT; one to three octal digits, x and two hexadecimal digits, u and
    four, U and eight, and N with a name in braces give the character of that
    number or name; any other byte is kept together with the backslash.
    A backslash at the end, a hexadecimal escape that is short or has a digit
    that is none, a number above [0x10FFFF], and a missing, empty or unknown
    name raise [UnicodeDecodeError].  (The deprecation warnings for unknown
    escapes are not modelled.) *)
Inductive escape_state :=
| Plain                         (* outside an escape *)
| Backslash                     (* just after a backslash *)
| Octal (digits : nat) (v : N)  (* after a backslash and [digits] octal digits *)
| Hex (more : nat) (v : N)      (* in a hexadecimal escape, [S more] digits to go *)
| NameOpen                      (* after [\N] *)
| Name (acc : bytes).           (* after [\N{], the name so far, reversed *)

Definition is_octal (b : N) : bool := (0x30 <=? b) && (b <=? 0x37).

Definition hex_value (b : N) : option N :=
  if (0x30 <=? b) && (b <=? 0x39) then Some (b - 0x30)
  else if (0x61 <=? b) && (b <=? 0x66) then Some (b - 0x61 + 10)
  else if (0x41 <=? b) && (b <=? 0x46) then Some (b - 0x41 + 10)
  else None.

Definition MAX_UNICODE : N := 0x10FFFF.

Definition emit (c : N) (r : result pystr) : result pystr :=
  bind r (fun s => Ok (c :: s)).

Fixpoint unicode_escape_from `{UnicodeData} (st : escape_state) (bs : bytes)
  : result pystr :=
  match bs with
  | [] =>
      match st with
      | Plain => Ok []
      | Octal _ v => Ok [v]
      | _ => Raise UnicodeDecodeError
      end
  | b :: rest =>
      match st with
      | Plain =>
          if b =? 0x5C then unicode_escape_from Backslash rest
          else emit b (unicode_escape_from Plain rest)
      | Backslash =>
          if b =? 0x0A then unicode_escape_from Plain rest
          else if b =? 0x5C then emit 0x5C (unicode_escape_from Plain rest)
          else if b =? 0x27 then emit 0x27 (unicode_escape_from Plain rest)
          else if b =? 0x22 then emit 0x22 (unicode_escape_from Plain rest)
          else if b =? 0x62 then emit 0x08 (unicode_escape_from Plain rest)
          else if b =? 0x66 then emit 0x0C (unicode_escape_from Plain rest)
          else if b =? 0x74 then emit 0x09 (unicode_escape_from Plain rest)
          else if b =? 0x6E then emit 0x0A (unicode_escape_from Plain rest)
          else if b =? 0x72 then emit 0x0D (unicode_escape_from Plain rest)
          else if b =? 0x76 then emit 0x0B (unicode_escape_from Plain rest)
          else if b =? 0x61 then emit 0x07 (unicode_escape_from Plain rest)
          else if is_octal b then unicode_escape_from (Octal 1 (b - 0x30)) rest
          else if b =? 0x78 then unicode_escape_from (Hex 1 0) rest
          else if b =? 0x75 then unicode_escape_from (Hex 3 0) rest
          else if b =? 0x55 then unicode_escape_from (Hex 7 0) rest
          else if b =? 0x4E then unicode_escape_from NameOpen rest
          else emit 0x5C (emit b (unicode_escape_from Plain rest))
      | Octal digits v =>
          if is_octal b then
            let v' := N.shiftl v 3 + (b - 0x30) in
            match digits with
            | 1%nat => unicode_escape_from (Octal 2 v') rest
            | _ => emit v' (unicode_escape_from Plain rest)
            end
          else if b =? 0x5C then emit v (unicode_escape_from Backslash rest)
          else emit v (emit b (unicode_escape_from Plain rest))
      | Hex more v =>
          match hex_value b with
          | None => Raise UnicodeDecodeError
          | Some d =>
              let v' := N.shiftl v 4 + d in
              match more with
              | O => if MAX_UNICODE <? v' then Raise UnicodeDecodeError
                     else emit v' (unicode_escape_from Plain rest)
              | S more' => unicode_escape_from (Hex more' v') rest
              end
          end
      | NameOpen =>
          if b =? 0x7B then unicode_escape_from (Name []) rest
          else Raise UnicodeDecodeError
      | Name acc =>
          if b =? 0x7D then
            match acc with
            | [] => Raise UnicodeDecodeError
            | _ => match ucd_getcode (reverse acc) with
                   | Some c => emit c (unicode_escape_from Plain rest)
                   | None => Raise UnicodeDecodeError
                   end
            end
          else unicode_escape_from (Name (b :: acc)) rest
      end
  end.

(** [bs.decode] with the codec [unicode_escape] *)
Definition unicode_escape_decode `{UnicodeData} (bs : bytes) : result pystr :=
  unicode_escape_from Plain bs.

(** [re.sub] of the pattern [p+] by [r], where [p] matches one code point:
    every maximal run of code points satisfying [p] becomes [r]. *)
Fixpoint sub_runs (p : N -> bool) (r : N) (in_run : bool) (s : pystr) : pystr :=
  match s with
  | [] => []
  | c :: rest =>
      if p c then
        if in_run then sub_runs p r true rest else r :: sub_runs p r true rest
      else c :: sub_runs p r false rest
  end.

End Py.

(** ** [cdbvecstore.py]: the text normaliser *)

Module Normalizer.
Import Py.

(** The first substitution of [_clean_content]: every maximal run of the
    two-character sequence backslash, n becomes one newline. *)
Fixpoint sub_escaped_newlines (in_run : bool) (s : pystr) : pystr :=
  match s with
  | [] => []
  | c :: t =>
      match t with
      | d :: rest =>
          if (c =? 0x5C) && (d =? 0x6E) then
            if in_run then sub_escaped_newlines true rest
            else 0x0A :: sub_escaped_newlines true rest
          else c :: sub_escaped_newlines false t
      | [] => [c]
      end
  end.

Definition is_newline (c : N) : bool := c =? 0x0A.
Definition is_blank (c : N) : bool := (c =? 0x20) || (c =? 0x09).
Definition NBSP : N := 0xA0.
(** The replacement of every no-break space by a space. *)
Definition replace_nbsp (s : pystr) : pystr :=
  map (fun c => if c =? NBSP then 0x20 else c) s.

(** The steps of [_clean_content] after the escape decoding. *)
Definition tidy (text : pystr) : pystr :=
  let text := sub_runs is_newline 0x0A false text in
  let text := sub_runs is_blank 0x20 false text in
  let text := replace_nbsp text in
  let lines := splitlines text in
  let lines := map strip (filter (fun line => strip line <> []) lines) in
  join [0x20] lines.

(** [FinVecStore._clean_content] *)
Definition _clean_content `{UnicodeData} (text : pystr) : result pystr :=
  let text := sub_escaped_newlines false text in
  bind (utf8_encode text) (fun encoded =>
  bind (unicode_escape_decode encoded) (fun text =>
  Ok (tidy text))).

(** Code points by kind: ASCII other than the backslash; anything other
    than a backslash or a surrogate. *)
Definition plain (c : N) : bool := (c <? 0x80) && negb (c =? 0x5C).
(** Plain characters that are not whitespace. *)
Definition solid (c : N) : bool := plain c && negb (isspace c).
Definition is_surrogate (c : N) : bool := (0xD800 <=? c) && (c <=? 0xDFFF).
Definition escape_free (c : N) : bool := negb (c =? 0x5C) && negb (is_surrogate c).

(** Shapes of texts: no line boundary; no tab and no two blanks in a row
    ([prev] tells whether a blank precedes the text); no no-break space;
    and, for a text that is not empty, no whitespace at either end. *)
Definition unbroken (s : pystr) : bool := forallb (fun c => negb (islinebreak c)) s.

Fixpoint single_spaced (prev : bool) (s : pystr) : bool :=
  match s with
  | [] => true
  | c :: rest =>
      if is_blank c then negb prev && (c =? 0x20) && single_spaced true rest
      else single_spaced false rest
  end.

Definition nbsp_free (s : pystr) : bool := forallb (fun c => negb (c =? NBSP)) s.

Definition trimmed (s : pystr) : bool :=
  match s, reverse s with
  | c :: _, d :: _ => negb (isspace c) && negb (isspace d)
  | _, _ => true
  end.

(** The texts [tidy] leaves unchanged. *)
Definition tidied (s : pystr) : bool :=
  unbroken s && single_spaced false s && nbsp_free s && trimmed s.

(** Whether a text that follows a blank or not ([prev]) ends in a blank. *)
Fixpoint ends_blank (prev : bool) (s : pystr) : bool :=
  match s with
  | [] => prev
  | c :: rest => ends_blank (is_blank c) rest
  end.

(** Single-spaced texts of plain characters. *)
Definition spaced_plain (s : pystr) : Prop :=
  single_spaced false s = true /\ forallb plain s = true.

(** A line as [tidy] joins it. *)
Definition tidy_line (e : pystr) : Prop :=
  e <> [] /\ unbroken e = true /\ spaced_plain e /\ trimmed e = true.

(** Boolean tests on code points, turned into arithmetic. *)
Ltac codepoints :=
  unfold plain, escape_free, is_surrogate, is_blank, is_newline, NBSP,
         isspace, islinebreak in *;
  repeat match goal with
         | H : _ && _ = true |- _ => apply andb_true_iff in H; destruct H
         | H : _ || _ = false |- _ => apply orb_false_iff in H; destruct H
         | H : _ && _ = false |- _ => apply andb_false_iff in H; destruct H
         | H : _ || _ = true |- _ => apply orb_true_iff in H; destruct H
         | H : negb _ = true |- _ => apply negb_true_iff in H
         | H : negb _ = false |- _ => apply negb_false_iff in H
         | H : (_ =? _) = true |- _ => apply N.eqb_eq in H
         | H : (_ =? _) = false |- _ => apply N.eqb_neq in H
         | H : (_ <=? _) = true |- _ => apply N.leb_le in H
         | H : (_ <=? _) = false |- _ => apply N.leb_gt in H
         | H : (_ <? _) = true |- _ => apply N.ltb_lt in H
         | H : (_ <? _) = false |- _ => apply N.ltb_ge in H
         end;
  repeat match goal with
         | |- context [?a =? ?b] => destruct (N.eqb_spec a b)
         | |- context [?a <=? ?b] => destruct (N.leb_spec a b)
         | |- context [?a <? ?b] => destruct (N.ltb_spec a b)
         end;
  simpl; try reflexivity; try discriminate; try lia.

End Normalizer.

(** ** Scraped records *)

Module Record_.
Import Py.

(** The Python objects a scraped record holds.  [VTag] is a BeautifulSoup
    tag object, kept as its markup. *)
Inductive value :=
| VNone
| VBool (b : bool)
| VInt (z : Z)
| VStr (s : pystr)
| VList (items : list value)
| VDict (entries : list (pystr * value))
| VTag (markup : pystr).

(** A [dict] with [str] keys. *)
Definition dict (V : Type) := list (pystr * V).

(** [d[k] = v]: an existing key keeps its place and takes the new value,
    a new key goes last. *)
Fixpoint dict_set {V} (k : pystr) (v : V) (d : dict V) : dict V :=
  match d with
  | [] => [(k, v)]
  | (k', v') :: d' =>
      if decide (k = k') then (k, v) :: d' else (k', v') :: dict_set k v d'
  end.

(** [d.get(k)] *)
Fixpoint dict_get {V} (k : pystr) (d : dict V) : option V :=
  match d with
  | [] => None
  | (k', v') :: d' => if decide (k = k') then Some v' else dict_get k d'
  end.

(** [dict(pairs)] *)
Definition dict_of {V} (pairs : list (pystr * V)) : dict V :=
  foldl (fun d kv => dict_set kv.1 kv.2 d) [] pairs.

(** [dict(zip(keys, values))] with string values. *)
Definition dict_zip (keys values : list pystr) : dict value :=
  dict_of (zip keys (map VStr values)).

End Record_.

(** ** The BeautifulSoup interface the extractors are written against *)

Module Bs4.
Import Py.

(** A compound CSS selector: an optional tag name, classes, an optional id. *)
Record compound := {
  c_name : option pystr;
  c_classes : list pystr;
  c_id : option pystr
}.

(** The selectors the extractors use: compounds joined by the descendant
    combinator (a space) or the child combinator. *)
Inductive selector :=
| Sel (c : compound)
| Descendant (s : selector) (c : compound)
| Child (s : selector) (c : compound).

(** The [string=] argument of [find]: a string to equal, or a pattern
    compiled with [re.I] to search for. *)
Inductive string_test :=
| StringIs (s : pystr)
| StringSearchI (s : pystr).

(** The arguments of [find_all] and its relatives: tag names (none: any tag),
    [class_], [id] and [string]. *)
Record criteria := {
  names : list pystr;
  class_ : option pystr;
  id_ : option pystr;
  string_ : option string_test
}.

Definition by_name (n : pystr) : criteria :=
  {| names := [n]; class_ := None; id_ := None; string_ := None |}.
Definition by_names (ns : list pystr) : criteria :=
  {| names := ns; class_ := None; id_ := None; string_ := None |}.
Definition by_class (n c : pystr) : criteria :=
  {| names := [n]; class_ := Some c; id_ := None; string_ := None |}.
Definition by_id (n i : pystr) : criteria :=
  {| names := [n]; class_ := None; id_ := Some i; string_ := None |}.
Definition by_string (n : pystr) (t : string_test) : criteria :=
  {| names := [n]; class_ := None; id_ := None; string_ := Some t |}.
Definition any_tag : criteria :=
  {| names := []; class_ := None; id_ := None; string_ := None |}.

(** The operations of a parsed page that the extractors call.  [tag] is the
    type of tag objects (the soup itself is one). *)
Class Soup (tag : Type) := {
  (** [BeautifulSoup(html, "html.parser")] *)
  parse : pystr -> result tag;
  (** [t.select(selector)], in document order *)
  select : tag -> selector -> list tag;
  (** [t.find_all(...)], in document order *)
  find_all : tag -> criteria -> list tag;
  (** [t.find_previous(...)]: the nearest match before [t] in document order *)
  find_previous : tag -> criteria -> option tag;
  (** [t.find_next(...)]: the first match after the start of [t] *)
  find_next : tag -> criteria -> option tag;
  (** [t.find_next_sibling(...)] *)
  find_next_sibling : tag -> criteria -> option tag;
  (** [t.get_text(separator, strip)] *)
  get_text : tag -> pystr -> bool -> pystr;
  (** [t.get(attribute)] *)
  get : tag -> pystr -> option pystr;
  (** [t.contents]: the children, each a string or a tag *)
  contents : tag -> list (pystr + tag);
  (** [str(t)] *)
  markup : tag -> pystr
}.

Section Derived.
Context {tag : Type} `{Soup tag}.

(** [t.select_one(selector)] *)
Definition select_one (t : tag) (s : selector) : option tag := head (select t s).
(** [t.find(...)] *)
Definition find (t : tag) (c : criteria) : option tag := head (find_all t c).
(** [t.text] *)
Definition text (t : tag) : pystr := get_text t [] false.
(** [t.get_text(strip=True, separator=sep)] *)
Definition stripped_text (t : tag) (sep : pystr) : pystr := get_text t sep true.

End Derived.

(** Selector syntax. *)
Definition tag_ (n : string) : compound :=
  {| c_name := Some (lit n); c_classes := []; c_id := None |}.
Definition cls (c : string) : compound :=
  {| c_name := None; c_classes := [lit c]; c_id := None |}.
Definition ident (i : string) : compound :=
  {| c_name := None; c_classes := []; c_id := Some (lit i) |}.
Definition tag_cls (n : string) (cs : list string) : compound :=
  {| c_name := Some (lit n); c_classes := map lit cs; c_id := None |}.

End Bs4.

(** ** The network, as the extractors use it *)

Module Web.
Import Py.

Class Network := {
  (** [requests.get(url, headers=...)] followed by [raise_for_status()],
      giving [response.text] *)
  requests_get : pystr -> result pystr;
  (** the Playwright session of [fetch_html], giving [page.content()] *)
  playwright_content : pystr -> result pystr;
  (** whether [playwright] could be imported *)
  PLAYWRIGHT_AVAILABLE : bool
}.

End Web.

(** ** [fintastic.py]: class [FinDataExtractor] *)

Module Fintastic.
Import Py Record_ Bs4 Web.

(** The constructor's arguments. *)
Record FinDataExtractor := {
  url : option pystr;
  html : option pystr;
  use_browser : bool
}.

(** Truth value of an optional string. *)
Definition truthy (s : option pystr) : bool :=
  match s with
  | Some (_ :: _) => true
  | _ => false
  end.

Section Extractor.
Context {tag : Type} `{Soup tag} `{Network}.

(** [_fetch_html_requests] *)
Definition _fetch_html_requests (u : pystr) : result pystr := requests_get u.

(** [fetch_html]: the page text, or [None] when there is no URL. *)
Definition fetch_html (self : FinDataExtractor) : result (option pystr) :=
  match url self with
  | Some ((_ :: _) as u) =>
      if use_browser self && PLAYWRIGHT_AVAILABLE then
        match playwright_content u with
        | Ok page => Ok (Some page)
        | Raise _ => bind (_fetch_html_requests u) (fun t => Ok (Some t))
        end
      else bind (_fetch_html_requests u) (fun t => Ok (Some t))
  | _ => Ok (html self)
  end.

(** [parse_html]: the soup.  Parsing [None] raises [TypeError]. *)
Definition parse_html (self : FinDataExtractor) : result tag :=
  bind (if truthy (html self) then Ok (html self) else fetch_html self)
       (fun h => match h with
                 | Some page => parse page
                 | None => Raise TypeError
                 end).

(** [extract_text_list] *)
Definition extract_text_list (soup : tag) (s : selector) : list value :=
  map (fun el => VStr (stripped_text el (lit " "))) (select soup s).

(** [extract_company_name] *)
Definition extract_company_name (soup : tag) (data : dict value) : dict value :=
  match select_one soup (Sel (tag_ "h1")) with
  | Some title => dict_set (lit "company_name") (VStr (strip (text title))) data
  | None => data
  end.

(** The loop over the links of the company-links block. *)
Definition external_links_of (links_block : tag) : dict value :=
  foldl (fun links a =>
           let label := stripped_text a (lit " ") in
           match label, get a (lit "href") with
           | _ :: _, Some ((_ :: _) as href) => dict_set label (VStr href) links
           | _, _ => links
           end)
        [] (find_all links_block (by_name (lit "a"))).

(** The loop over the items of the top-ratios list. *)
Definition top_ratios_of (company_info : tag) : dict value :=
  foldl (fun ratios li =>
           match select_one li (Sel (cls "name")), select_one li (Sel (cls "value")) with
           | Some key, Some val =>
               dict_set (strip (text key)) (VStr (stripped_text val (lit " "))) ratios
           | _, _ => ratios
           end)
        [] (select company_info (Descendant (Sel (ident "top-ratios")) (tag_ "li"))).

(** [extract_company_info] *)
Definition extract_company_info (soup : tag) (data : dict value) : dict value :=
  match select_one soup (Sel (cls "company-info")) with
  | None => dict_set (lit "company_info") (VDict []) data
  | Some company_info =>
      let info : dict value := [] in
      let info :=
        match select_one company_info (Descendant (Sel (cls "company-profile")) (cls "about")) with
        | Some about => dict_set (lit "about") (VStr (stripped_text about (lit " "))) info
        | None => info
        end in
      let info :=
        match select_one company_info (Descendant (Sel (cls "company-profile")) (cls "commentary")) with
        | Some key_points =>
            dict_set (lit "key_points") (VStr (get_text key_points [0x0A] true)) info
        | None => info
        end in
      let external_links :=
        match select_one company_info (Sel (cls "company-links")) with
        | Some links_block => external_links_of links_block
        | None => []
        end in
      let info :=
        match external_links with
        | [] => info
        | _ => dict_set (lit "external_links") (VDict external_links) info
        end in
      let ratios := top_ratios_of company_info in
      let info :=
        match ratios with
        | [] => info
        | _ => dict_set (lit "top_ratios") (VDict ratios) info
        end in
      dict_set (lit "company_info") (VDict info) data
  end.

(** [extract_pros_cons] *)
Definition extract_pros_cons (soup : tag) (data : dict value) : dict value :=
  let pros := extract_text_list soup (Descendant (Sel (cls "pros")) (tag_ "li")) in
  let cons := extract_text_list soup (Descendant (Sel (cls "cons")) (tag_ "li")) in
  dict_set (lit "cons") (VList cons) (dict_set (lit "pros") (VList pros) data).

(** The cell texts of one table row. *)
Definition row_cells (tr : tag) : list pystr :=
  map (fun td => strip (text td)) (find_all tr (by_name (lit "td"))).

(** The header texts of a table. *)
Definition table_headers (table : tag) : list pystr :=
  map (fun th => strip (text th)) (find_all table (by_name (lit "th"))).

(** The rows built from a table: every [tr] but the first, those without
    cells left out, each zipped with the headers. *)
Definition table_rows (table : tag) : list value :=
  let headers := table_headers table in
  omap (fun tr =>
          match row_cells tr with
          | [] => None
          | cells => Some (VDict (dict_zip headers cells))
          end)
       (drop 1 (find_all table (by_name (lit "tr")))).

(** The body of the loop of [extract_tables] for one table. *)
Definition extract_table (data : dict value) (table : tag) : dict value :=
  match find_previous table (by_names [lit "h2"; lit "h3"]) with
  | Some header => dict_set (strip (text header)) (VList (table_rows table)) data
  | None => data
  end.

(** The key a table is stored under: the stripped text of the nearest
    second- or third-level heading before it, if there is one. *)
Definition table_key (table : tag) : option pystr :=
  match find_previous table (by_names [lit "h2"; lit "h3"]) with
  | Some header => Some (strip (text header))
  | None => None
  end.

(** The data tables of the page. *)
Definition data_tables (soup : tag) : list tag :=
  find_all soup (by_class (lit "table") (lit "data-table")).

(** [extract_tables] *)
Definition extract_tables (soup : tag) (data : dict value) : dict value :=
  foldl extract_table data (data_tables soup).

(** [extract_shareholding_pattern] *)
Definition extract_shareholding_pattern (soup : tag) (data : dict value) : dict value :=
  match find soup (by_string (lit "h2") (StringSearchI (lit "Shareholding Pattern"))) with
  | Some header =>
      match find_next_sibling header (by_name (lit "table")) with
      | Some table => dict_set (lit "Shareholding Pattern") (VList (table_rows table)) data
      | None => data
      end
  | None => data
  end.

(** The value of an attribute that may be missing. *)
Definition attr_value (v : option pystr) : value :=
  match v with
  | Some s => VStr s
  | None => VNone
  end.

(** The announcements under the heading Documents. *)
Definition announcements_of (soup : tag) : list value :=
  match find soup (by_string (lit "h2") (StringIs (lit "Documents"))) with
  | Some doc_section =>
      match find_next doc_section (by_name (lit "ul")) with
      | Some parent =>
          omap (fun li =>
                  match find li (by_name (lit "a")) with
                  | Some a_tag =>
                      Some (VDict [(lit "title", VStr (strip (text a_tag)));
                                   (lit "url", attr_value (get a_tag (lit "href")))])
                  | None => None
                  end)
               (find_all parent (by_name (lit "li")))
      | None => []
      end
  | None => []
  end.

(** [a_tag.contents[0].strip()]: an anchor without children raises
    [IndexError]; a first child that is a tag has no method [strip] but is
    asked for a child tag of that name, and calling the answer raises
    [TypeError] when there is none and lists the tags below it otherwise. *)
Definition first_text_node (a_tag : tag) : result value :=
  match contents a_tag with
  | [] => Raise IndexError
  | inl s :: _ => Ok (VStr (strip s))
  | inr child :: _ =>
      match find child (by_name (lit "strip")) with
      | None => Raise TypeError
      | Some found => Ok (VList (map (fun t => VTag (markup t)) (find_all found any_tag)))
      end
  end.

(** The loop over the items of the annual reports list. *)
Fixpoint annual_reports_loop (items : list tag) (acc : list value) : result (list value) :=
  match items with
  | [] => Ok acc
  | li :: rest =>
      match find li (by_name (lit "a")) with
      | Some a_tag =>
          bind (first_text_node a_tag) (fun title =>
          annual_reports_loop rest
            (acc ++ [VDict [(lit "title", title);
                            (lit "url", attr_value (get a_tag (lit "href")))]]))
      | None => annual_reports_loop rest acc
      end
  end.

Definition annual_reports_of (soup : tag) : result (list value) :=
  match select_one soup (Descendant (Sel (tag_cls "div" ["documents"; "annual-reports"]))
                                    (tag_cls "ul" ["list-links"])) with
  | Some ar_section => annual_reports_loop (find_all ar_section (by_name (lit "li"))) []
  | None => Ok []
  end.

(** The site origin that button URLs are appended to. *)
Definition SCREENER_ORIGIN : pystr := lit "https://www.screener.in".

(** One concall link entry. *)
Definition link_entry (label url_ : pystr) : value :=
  VDict [(lit "type", VStr label); (lit "url", VStr url_)].

(** The entries of one concall item that come from anchors. *)
Definition anchor_entries (li : tag) : list value :=
  omap (fun link =>
          let label := stripped_text link (lit " ") in
          match label, get link (lit "href") with
          | _ :: _, Some ((_ :: _) as u) => Some (link_entry label u)
          | _, _ => None
          end)
       (find_all li (by_class (lit "a") (lit "concall-link"))).

(** The entries of one concall item that come from buttons. *)
Definition button_entries (li : tag) : list value :=
  omap (fun button =>
          let label := stripped_text button (lit " ") in
          let full_url :=
            match get button (lit "data-url") with
            | Some ((_ :: _) as modal_url) => Some (SCREENER_ORIGIN ++ modal_url)
            | _ => None
            end in
          match label, full_url with
          | _ :: _, Some ((_ :: _) as u) => Some (link_entry label u)
          | _, _ => None
          end)
       (find_all li (by_class (lit "button") (lit "concall-link"))).

(** The concall items of the page. *)
Definition concall_items (soup : tag) : list tag :=
  select soup (Child (Descendant (Sel (tag_cls "div" ["documents"; "concalls"]))
                                 (tag_cls "ul" ["list-links"]))
                     (tag_ "li")).

(** The body of the concall loop for one item. *)
Definition concall_of (li : tag) : option value :=
  let date :=
    match find li (by_name (lit "div")) with
    | Some date_div => strip (text date_div)
    | None => lit "Unknown Date"
    end in
  match anchor_entries li ++ button_entries li with
  | [] => None
  | entries => Some (VDict [(lit "date", VStr date); (lit "links", VList entries)])
  end.

Definition concalls_of (soup : tag) : list value := omap concall_of (concall_items soup).

(** [extract_documents_links] *)
Definition extract_documents_links (soup : tag) (data : dict value) : result (dict value) :=
  let announcements := announcements_of soup in
  bind (annual_reports_of soup) (fun annual_reports =>
  let concalls := concalls_of soup in
  Ok (dict_set (lit "documents")
        (VDict [(lit "announcements", VList announcements);
                (lit "annual_reports", VList annual_reports);
                (lit "concalls", VList concalls)])
        data)).

(** The extraction steps of [extract_all] on a parsed page. *)
Definition extract_from (soup : tag) : result (dict value) :=
  let data := extract_company_name soup [] in
  let data := extract_company_info soup data in
  let data := extract_pros_cons soup data in
  let data := extract_tables soup data in
  let data := extract_shareholding_pattern soup data in
  extract_documents_links soup data.

(** [extract_all] *)
Definition extract_all (self : FinDataExtractor) : result (dict value) :=
  bind (parse_html self) extract_from.

End Extractor.
End Fintastic.

(** ** [fin_data_extractor.py]: the requests-only [FinDataExtractor] *)

Module FinDataExtractorStatic.
Import Py Record_ Bs4 Web.

Record FinDataExtractor := {
  url : option pystr;
  html : option pystr
}.

Section Extractor.
Context {tag : Type} `{Soup tag} `{Network}.

(** [fetch_html] *)
Definition fetch_html (self : FinDataExtractor) : result (option pystr) :=
  match url self with
  | Some ((_ :: _) as u) => bind (requests_get u) (fun t => Ok (Some t))
  | _ => Ok (html self)
  end.

(** [parse_html] *)
Definition parse_html (self : FinDataExtractor) : result tag :=
  bind (if Fintastic.truthy (html self) then Ok (html self) else fetch_html self)
       (fun h => match h with
                 | Some page => parse page
                 | None => Raise TypeError
                 end).

(** [extract_text_list] *)
Definition extract_text_list (soup : tag) (s : selector) : list value :=
  map (fun el => VStr (stripped_text el [])) (select soup s).

(** [extract_company_name]: the attribute [text] of [None] raises. *)
Definition extract_company_name (soup : tag) (data : dict value) : result (dict value) :=
  match select_one soup (Sel (tag_ "h1")) with
  | Some title => Ok (dict_set (lit "company_name") (VStr (strip (text title))) data)
  | None => Raise AttributeError
  end.

(** [extract_info_box] *)
Definition extract_info_box (soup : tag) (data : dict value) : dict value :=
  let info :=
    foldl (fun info li =>
             match split_char 0x3A (get_text li [0x3A] true) with
             | [key; val] => dict_set (strip key) (VStr (strip val)) info
             | _ => info
             end)
          [] (select soup (Descendant (Sel (tag_cls "ul" ["info-list"])) (tag_ "li"))) in
  dict_set (lit "company_info") (VDict info) data.

(** [extract_pros_cons] *)
Definition extract_pros_cons (soup : tag) (data : dict value) : dict value :=
  let pros := extract_text_list soup (Descendant (Sel (cls "pros")) (tag_ "li")) in
  let cons := extract_text_list soup (Descendant (Sel (cls "cons")) (tag_ "li")) in
  dict_set (lit "cons") (VList cons) (dict_set (lit "pros") (VList pros) data).

(** [extract_peer_info] *)
Definition extract_peer_info (soup : tag) (data : dict value) : dict value :=
  match find soup (by_id (lit "section") (lit "peers")) with
  | None => data
  | Some peer_section =>
      let peer_data : dict value := [] in
      let peer_data :=
        match find peer_section (by_class (lit "p") (lit "sub")) with
        | Some sub_text =>
            let links := find_all sub_text (by_name (lit "a")) in
            let peer_data :=
              match links with
              | l0 :: _ => dict_set (lit "sector") (VStr (strip (text l0))) peer_data
              | _ => peer_data
              end in
            match links with
            | _ :: l1 :: _ => dict_set (lit "industry") (VStr (strip (text l1))) peer_data
            | _ => peer_data
            end
        | None => peer_data
        end in
      let benchmark_tags :=
        select peer_section (Descendant (Sel (ident "benchmarks")) (tag_cls "a" ["tag"])) in
      let peer_data :=
        dict_set (lit "benchmarks")
                 (VList (map (fun t => VStr (strip (text t))) benchmark_tags)) peer_data in
      dict_set (lit "peer_info") (VDict peer_data) data
  end.

(** The body of the loop of [extract_tables] for one table: the heading is
    the nearest [h2] before the table. *)
Definition extract_table (data : dict value) (table : tag) : dict value :=
  match find_previous table (by_name (lit "h2")) with
  | Some header =>
      dict_set (strip (text header)) (VList (Fintastic.table_rows table)) data
  | None => data
  end.

(** The key a table is stored under: the nearest second-level heading. *)
Definition table_key (table : tag) : option pystr :=
  match find_previous table (by_name (lit "h2")) with
  | Some header => Some (strip (text header))
  | None => None
  end.

(** [extract_tables] *)
Definition extract_tables (soup : tag) (data : dict value) : dict value :=
  foldl extract_table data (Fintastic.data_tables soup).

(** [extract_shareholding_pattern]: as in [fintastic.py]. *)
Definition extract_shareholding_pattern (soup : tag) (data : dict value) : dict value :=
  Fintastic.extract_shareholding_pattern soup data.

(** [extract_documents_links] *)
Definition extract_documents_links (soup : tag) (data : dict value) : dict value :=
  dict_set (lit "documents") (VList (Fintastic.announcements_of soup)) data.

(** The extraction steps of [extract_all] on a parsed page. *)
Definition extract_from (soup : tag) : result (dict value) :=
  bind (extract_company_name soup []) (fun data =>
  let data := extract_info_box soup data in
  let data := extract_pros_cons soup data in
  let data := extract_peer_info soup data in
  let data := extract_tables soup data in
  let data := extract_shareholding_pattern soup data in
  Ok (extract_documents_links soup data)).

(** [extract_all] *)
Definition extract_all (self : FinDataExtractor) : result (dict value) :=
  bind (parse_html self) extract_from.

End Extractor.
End FinDataExtractorStatic.

(** ** A document tree that implements the BeautifulSoup interface *)

Module Html.
Import Py Bs4.

Inductive node :=
| Text (s : pystr)
| Comment (s : pystr)
| Element (name : pystr) (attrs : list (pystr * pystr)) (children : list node).

(** A tag object: a place in a document. *)
Record tag := { doc : node; path : list nat }.

Definition children_of (n : node) : list node :=
  match n with
  | Element _ _ cs => cs
  | _ => []
  end.

Fixpoint node_at (n : node) (p : list nat) : option node :=
  match p with
  | [] => Some n
  | i :: p' =>
      match children_of n !! i with
      | Some c => node_at c p'
      | None => None
      end
  end.

(** The nodes below [n] in document order, each with its path from [n]. *)
Fixpoint descendants (n : node) : list (list nat * node) :=
  match n with
  | Element _ _ cs =>
      (fix go (i : nat) (cs : list node) : list (list nat * node) :=
         match cs with
         | [] => []
         | c :: cs' =>
             ([i], c) :: map (fun qn => (i :: qn.1, qn.2)) (descendants c) ++ go (S i) cs'
         end) 0%nat cs
  | _ => []
  end.

Definition is_element (n : node) : bool :=
  match n with
  | Element _ _ _ => true
  | _ => false
  end.

Definition attr (n : node) (a : pystr) : option pystr :=
  match n with
  | Element _ attrs _ => snd <$> List.find (fun kv => bool_decide (kv.1 = a)) attrs
  | _ => None
  end.

Definition classes (n : node) : list pystr :=
  match attr n (lit "class") with
  | Some v => words v
  | None => []
  end.

Definition has_class (n : node) (c : pystr) : bool :=
  bool_decide (c ∈ classes n) || bool_decide (c = join (lit " ") (classes n) ∧ classes n ≠ []).

(** [n.string] *)
Fixpoint string_of (n : node) : option pystr :=
  match n with
  | Text s => Some s
  | Comment s => Some s
  | Element _ _ [c] => string_of c
  | Element _ _ _ => None
  end.

Definition ascii_lower (c : N) : N :=
  if (0x41 <=? c) && (c <=? 0x5A) then c + 0x20 else c.

Fixpoint starts_with (p s : pystr) : bool :=
  match p, s with
  | [], _ => true
  | a :: p', b :: s' => (a =? b) && starts_with p' s'
  | _ :: _, [] => false
  end.

Fixpoint contains (p s : pystr) : bool :=
  starts_with p s ||
  match s with
  | [] => false
  | _ :: s' => contains p s'
  end.

(** The [string=] test; the case-insensitive search is the ASCII one. *)
Definition string_ok (t : string_test) (n : node) : bool :=
  match string_of n with
  | None => false
  | Some s =>
      match t with
      | StringIs x => bool_decide (s = x)
      | StringSearchI x => contains (map ascii_lower x) (map ascii_lower s)
      end
  end.

Definition name_of (n : node) : pystr :=
  match n with
  | Element nm _ _ => nm
  | _ => []
  end.

Definition meets (c : criteria) (n : node) : bool :=
  is_element n
  && match names c with
     | [] => true
     | ns => bool_decide (name_of n ∈ ns)
     end
  && match class_ c with
     | Some k => has_class n k
     | None => true
     end
  && match id_ c with
     | Some i => bool_decide (attr n (lit "id") = Some i)
     | None => true
     end
  && match string_ c with
     | Some t => string_ok t n
     | None => true
     end.

Definition fits (c : compound) (n : node) : bool :=
  is_element n
  && match c_name c with
     | Some nm => bool_decide (name_of n = nm)
     | None => true
     end
  && forallb (has_class n) (c_classes c)
  && match c_id c with
     | Some i => bool_decide (attr n (lit "id") = Some i)
     | None => true
     end.

Definition fits_at (d : node) (c : compound) (p : list nat) : bool :=
  match node_at d p with
  | Some n => fits c n
  | None => false
  end.

(** The paths of the ancestors of the node at [p], the nearest first. *)
Fixpoint ancestors (p : list nat) : list (list nat) :=
  match p with
  | [] => []
  | i :: p' => map (cons i) (ancestors p') ++ [[]]
  end.

Definition parent (p : list nat) : option (list nat) :=
  match reverse p with
  | [] => None
  | _ :: r => Some (reverse r)
  end.

Fixpoint selected (d : node) (s : selector) (p : list nat) : bool :=
  match s with
  | Sel c => fits_at d c p
  | Descendant s' c => fits_at d c p && existsb (selected d s') (ancestors p)
  | Child s' c =>
      fits_at d c p
      && match parent p with
         | Some q => selected d s' q
         | None => false
         end
  end.

(** The tag objects below [t], in document order. *)
Definition below (t : tag) : list (tag * node) :=
  match node_at (doc t) (path t) with
  | Some n =>
      map (fun qn => ({| doc := doc t; path := path t ++ qn.1 |}, qn.2)) (descendants n)
  | None => []
  end.

(** Every node of the document of [t] in document order, the root first. *)
Definition in_order (t : tag) : list (tag * node) :=
  ({| doc := doc t; path := [] |}, doc t)
  :: below {| doc := doc t; path := [] |}.

(** The nodes of [l] before the one at path [p], and those after it. *)
Fixpoint before_path (p : list nat) (l : list (tag * node)) : list (tag * node) :=
  match l with
  | [] => []
  | tn :: l' => if bool_decide (path tn.1 = p) then [] else tn :: before_path p l'
  end.

Fixpoint after_path (p : list nat) (l : list (tag * node)) : list (tag * node) :=
  match l with
  | [] => []
  | tn :: l' => if bool_decide (path tn.1 = p) then l' else after_path p l'
  end.

Definition before (t : tag) : list (tag * node) := before_path (path t) (in_order t).
Definition after (t : tag) : list (tag * node) := after_path (path t) (in_order t).

Definition siblings_after (t : tag) : list (tag * node) :=
  match parent (path t), last (path t) with
  | Some q, Some i =>
      match node_at (doc t) q with
      | Some n =>
          imap (fun j c => ({| doc := doc t; path := q ++ [(S i + j)%nat] |}, c))
               (drop (S i) (children_of n))
      | None => []
      end
  | _, _ => []
  end.

Definition keep (c : criteria) (l : list (tag * node)) : list tag :=
  map fst (List.filter (fun tn => meets c tn.2) l).

(** The strings below a node that [get_text] joins: text, not comments. *)
Fixpoint strings (n : node) : list pystr :=
  match n with
  | Text s => [s]
  | Comment _ => []
  | Element _ _ cs => flat_map strings cs
  end.

Definition node_text (sep : pystr) (strip_ : bool) (n : node) : pystr :=
  if strip_ then
    join sep (List.filter (fun s => negb (bool_decide (s = []))) (map strip (strings n)))
  else join sep (strings n).

(** A plain rendering of a node. *)
Fixpoint render (n : node) : pystr :=
  match n with
  | Text s => s
  | Comment s => lit "<!--" ++ s ++ lit "-->"
  | Element nm attrs cs =>
      lit "<" ++ nm
      ++ flat_map (fun kv => lit " " ++ kv.1 ++ lit "=" ++ [0x22] ++ kv.2 ++ [0x22]) attrs
      ++ lit ">" ++ flat_map render cs ++ lit "</" ++ nm ++ lit ">"
  end.

Definition node_of (t : tag) : node :=
  match node_at (doc t) (path t) with
  | Some n => n
  | None => Text []
  end.

(** The page a parser instance reads from a table of known pages. *)
Definition document (top : list node) : tag :=
  {| doc := Element (lit "[document]") [] top; path := [] |}.

#[export] Instance tree_soup (pages : pystr -> result (list node)) : Soup tag := {
  parse s := bind (pages s) (fun top => Ok (document top));
  select t s :=
    map fst (List.filter (fun tn => selected (doc t) s (path tn.1)) (below t));
  find_all t c := keep c (below t);
  find_previous t c := head (keep c (reverse (before t)));
  find_next t c := head (keep c (after t));
  find_next_sibling t c := head (keep c (siblings_after t));
  get_text t sep strip_ := node_text sep strip_ (node_of t);
  get t a := attr (node_of t) a;
  contents t :=
    imap (fun i c =>
            match c with
            | Text s | Comment s => inl s
            | Element _ _ _ => inr {| doc := doc t; path := path t ++ [i] |}
            end)
         (children_of (node_of t));
  markup t := render (node_of t)
}.

End Html.

(** ** [cdbvecstore.py]: class [FinVecStore] *)

Module FinVecStore.
Import Py Record_ Bs4 Web Normalizer.

(** A LangChain [Document]; a chunk is one too. *)
Record Document := {
  page_content : pystr;
  metadata : dict value
}.

(** The input of a splitter: a list of documents, or a structured record. *)
Definition docs_or_json : Type := list Document + dict value.

(** The two kinds of splitter [_split_and_dedup_docs] tells apart, each with
    the method it is called through. *)
Inductive splitter :=
| RecursiveJsonSplitter (create_documents : docs_or_json -> result (list Document))
| DocumentSplitter (split_documents : docs_or_json -> result (list Document)).

(** What the class takes from its libraries. *)
Class Libraries (tag handle : Type) := {
  (** [hashlib.md5(b).hexdigest()] *)
  md5_hexdigest : bytes -> pystr;
  (** [str(v)] of an object that is not a string *)
  repr : value -> pystr;
  (** [WebBaseLoader(urls).lazy_load()]: the documents the generator yields,
      and the exception that ends it, if one does *)
  web_lazy_load : list pystr -> list Document * option exn;
  (** [PyMuPDFLoader(file).load()] *)
  pymupdf_load : pystr -> result (list Document);
  (** [UnstructuredExcelLoader(file, mode="elements").load()] *)
  excel_load : pystr -> result (list Document);
  (** the [HTMLSemanticPreservingSplitter] of the web loop *)
  html_splitter : splitter;
  (** [RecursiveCharacterTextSplitter(chunk_size, chunk_overlap, ...)] *)
  text_splitter : nat -> nat -> splitter;
  (** [filter_complex_metadata] *)
  filter_complex_metadata : list Document -> list Document;
  (** [Chroma.from_documents] *)
  chroma_from_documents : list Document -> result handle;
  (** [vectorstore.as_retriever().invoke(query)] *)
  retriever_invoke : handle -> pystr -> result (list Document)
}.

(** What the logger and the vector store are asked to do, in order. *)
Inductive event :=
| LogInfo (msg : string) (args : list nat)
| LogWarning (msg : string)
| LogScreenerFailed (url : pystr) (e : exn)
| LogMetadataFailed (e : exn)
| FromDocuments (documents : list Document).

(** The configured sources of [__init__]. *)
Record Sources := {
  web_urls : list pystr;
  pdf_paths : list pystr;
  excel_paths : list pystr;
  screener_urls : list pystr
}.

(** The sources as the file configures them. *)
Definition configured : Sources := {|
  web_urls := [];
  pdf_paths := [];
  excel_paths := [];
  screener_urls := [lit "https://www.screener.in/company/ABFRL/"]
|}.

(** The objects [generate_vectorstore] mutates while it runs. *)
Record state := {
  seen_hashes : gset pystr;
  all_chunks : list Document;
  log : list event
}.

Definition initial : state := {| seen_hashes := ∅; all_chunks := []; log := [] |}.

Definition logged (e : event) (s : state) : state :=
  {| seen_hashes := seen_hashes s; all_chunks := all_chunks s; log := log s ++ [e] |}.

(** Chunks with the same stripped text. *)
Definition same_text (c d : Document) : Prop :=
  strip (page_content d) = strip (page_content c).

#[export] Instance same_text_dec c d : Decision (same_text c d).
Proof. unfold same_text. apply _. Defined.

Section Store.
Context {tag handle : Type} `{UnicodeData} `{Soup tag} `{Network} `{Libraries tag handle}.

(** [_get_content_hash] *)
Definition _get_content_hash (content : pystr) : result pystr :=
  bind (utf8_encode content) (fun b => Ok (md5_hexdigest b)).

(** [_already_exists] *)
Definition _already_exists (doc_hash : pystr) (hashes_seen : gset pystr) : bool :=
  bool_decide (doc_hash ∈ hashes_seen).

(** [str(v)], as the f-strings apply it. *)
Definition str_ (v : value) : pystr :=
  match v with
  | VStr s => s
  | _ => repr v
  end.

(** The lines [k: v] of a mapping, joined by newlines. *)
Definition key_value_lines (d : dict value) : pystr :=
  join [0x0A] (map (fun kv => kv.1 ++ lit ": " ++ str_ kv.2) d).

(** The text of one section, or [None] for a section that is skipped. *)
Definition section_text (section : pystr) (content : value) : option pystr :=
  match content with
  | VStr s => Some (section ++ lit ": " ++ s)
  | VList items =>
      Some (section ++ lit ":" ++ [0x0A]
            ++ join [0x0A; 0x0A]
                 (map (fun item =>
                         match item with
                         | VDict d => key_value_lines d
                         | _ => str_ item
                         end) items))
  | VDict d => Some (section ++ lit ":" ++ [0x0A] ++ key_value_lines d)
  | _ => None
  end.

(** [_convert_screener_json_to_documents] *)
Fixpoint _convert_screener_json_to_documents (json_data : dict value)
  : result (list Document) :=
  match json_data with
  | [] => Ok []
  | (section, content) :: rest =>
      match section_text section content with
      | Some text =>
          bind (_clean_content text) (fun cleaned =>
          bind (_convert_screener_json_to_documents rest) (fun docs =>
          Ok ({| page_content := cleaned;
                 metadata := [(lit "section", VStr section)] |} :: docs)))
      | None => _convert_screener_json_to_documents rest
      end
  end.

(** The test that keeps a chunk out of the corpus: its stripped text is
    shorter than 20 or has no alphanumeric character. *)
Definition too_poor (text : pystr) : bool :=
  (N.of_nat (length text) <? 20) || negb (existsb isalnum text).

(** The chunk as it is appended: tagged with its source type. *)
Definition tagged (source_type : pystr) (chunk : Document) : Document :=
  {| page_content := page_content chunk;
     metadata := dict_set (lit "source_type") (VStr source_type) (metadata chunk) |}.

(** The three statements that take a chunk into the corpus. *)
Definition append_chunk (doc_hash source_type : pystr) (chunk : Document) (s : state)
  : state :=
  {| seen_hashes := {[doc_hash]} ∪ seen_hashes s;
     all_chunks := all_chunks s ++ [tagged source_type chunk];
     log := log s |}.

(** The loop over the chunks a splitter produced.  The state survives an
    exception: the result is the state reached and the exception, if any. *)
Fixpoint dedup_loop (chunks : list Document) (source_type : pystr) (s : state)
  : state * option exn :=
  match chunks with
  | [] => (s, None)
  | chunk :: rest =>
      let text := strip (page_content chunk) in
      if too_poor text then dedup_loop rest source_type s
      else
        match _get_content_hash text with
        | Raise e => (s, Some e)
        | Ok doc_hash =>
            if _already_exists doc_hash (seen_hashes s) then dedup_loop rest source_type s
            else dedup_loop rest source_type (append_chunk doc_hash source_type chunk s)
        end
  end.


(** [_split_and_dedup_docs] *)
Definition _split_and_dedup_docs (input : docs_or_json) (sp : splitter)
    (source_type : pystr) (s : state) : state * option exn :=
  let produced :=
    match sp with
    | RecursiveJsonSplitter create_documents => create_documents input
    | DocumentSplitter split_documents => split_documents input
    end in
  match produced with
  | Raise e => (s, Some e)
  | Ok chunks => dedup_loop chunks source_type s
  end.

(** [doc.page_content = self._clean_content(doc.page_content)] *)
Definition cleaned (doc : Document) : result Document :=
  bind (_clean_content (page_content doc)) (fun t =>
  Ok {| page_content := t; metadata := metadata doc |}).

(** The same for every document of a list, in order. *)
Fixpoint cleaned_all (docs : list Document) : result (list Document) :=
  match docs with
  | [] => Ok []
  | d :: rest =>
      bind (cleaned d) (fun d' =>
      bind (cleaned_all rest) (fun rest' => Ok (d' :: rest')))
  end.

(** Sequencing of steps that may raise and leave a state behind. *)
Definition and_then (r : state * option exn) (k : state -> state * option exn)
  : state * option exn :=
  match r with
  | (s, None) => k s
  | (s, Some e) => (s, Some e)
  end.

(** The web loop: one document at a time, then the generator's own end. *)
Fixpoint web_loop (docs : list Document) (ending : option exn) (s : state)
  : state * option exn :=
  match docs with
  | [] => (s, ending)
  | doc :: rest =>
      match cleaned doc with
      | Raise e => (s, Some e)
      | Ok doc' =>
          and_then (_split_and_dedup_docs (inl [doc']) html_splitter (lit "web") s)
                   (web_loop rest ending)
      end
  end.

(** The PDF loop. *)
Fixpoint pdf_loop (files : list pystr) (s : state) : state * option exn :=
  match files with
  | [] => (s, None)
  | file :: rest =>
      match bind (pymupdf_load file) cleaned_all with
      | Raise e => (s, Some e)
      | Ok pdf_docs =>
          and_then (_split_and_dedup_docs (inl pdf_docs) (text_splitter 800 100) (lit "pdf") s)
                   (pdf_loop rest)
      end
  end.

(** The spreadsheet loop. *)
Fixpoint excel_loop (files : list pystr) (s : state) : state * option exn :=
  match files with
  | [] => (s, None)
  | file :: rest =>
      match excel_load file with
      | Raise e => (s, Some e)
      | Ok excel_docs =>
          and_then (_split_and_dedup_docs (inl excel_docs) (text_splitter 500 50) (lit "excel") s)
                   (excel_loop rest)
      end
  end.

(** The body of the [try] of the Screener loop for one URL. *)
Definition screener_try (u : pystr) (s : state) : state * option exn :=
  let extractor :=
    {| Fintastic.url := Some u; Fintastic.html := None; Fintastic.use_browser := false |} in
  match bind (Fintastic.extract_all extractor) (fun json_data =>
        bind (_convert_screener_json_to_documents json_data) cleaned_all) with
  | Raise e => (s, Some e)
  | Ok json_docs =>
      _split_and_dedup_docs (inl json_docs) (text_splitter 500 50) (lit "screener") s
  end.

(** The Screener loop: an exception of one URL is logged and the loop goes on. *)
Fixpoint screener_loop (urls : list pystr) (s : state) : state :=
  match urls with
  | [] => s
  | u :: rest =>
      match screener_try u s with
      | (s', None) => screener_loop rest s'
      | (s', Some e) => screener_loop rest (logged (LogScreenerFailed u e) s')
      end
  end.

(** [_log_vectorstore_metadata] *)
Definition _log_vectorstore_metadata (vectorstore : handle) (s : state) : state :=
  match retriever_invoke vectorstore (lit "ABFRL") with
  | Ok found =>
      let sample_docs := take 5 found in
      let total_tokens := sum_list (map (fun d => length (words (page_content d))) sample_docs) in
      logged (LogInfo "Estimated total tokens in sample: %d" [total_tokens])
        (logged (LogInfo "Sample documents fetched: %d" [length sample_docs]) s)
  | Raise e => logged (LogMetadataFailed e) s
  end.

(** The loops of [generate_vectorstore] over web pages, PDFs and
    spreadsheets. *)
Definition load_documents (src : Sources) : state * option exn :=
  let s := logged (LogInfo "Loading documents from web..." []) initial in
  let '(docs, ending) := web_lazy_load (web_urls src) in
  and_then (web_loop docs ending s) (fun s =>
  let s := logged (LogInfo "Loading PDF documents..." []) s in
  and_then (pdf_loop (pdf_paths src) s) (fun s =>
  let s := logged (LogInfo "Loading excel spreadsheets..." []) s in
  excel_loop (excel_paths src) s)).

(** The part of [generate_vectorstore] that gathers the chunks. *)
Definition gather (src : Sources) : state * option exn :=
  and_then (load_documents src) (fun s =>
  let s := logged (LogInfo "Extracting Screener data dynamically..." []) s in
  let s := screener_loop (screener_urls src) s in
  (logged (LogInfo "Total unique chunks prepared: %d" [length (all_chunks s)]) s, None)).

(** The end of [generate_vectorstore], from the gathered chunks on. *)
Definition finish (s : state) : state * result (option handle) :=
  let filtered_chunks := filter_complex_metadata (all_chunks s) in
  let s := logged (LogInfo "Total chunks before filtering: %d" [length (all_chunks s)]) s in
  let s := logged (LogInfo "Filtered chunks retained: %d" [length filtered_chunks]) s in
  match filtered_chunks with
  | [] =>
      (logged (LogWarning "No valid chunks found for embedding. Vectorstore will not be created.") s,
       Ok None)
  | _ =>
      let s := logged (LogInfo "Creating vectorstore with Chroma..." []) s in
      let s := logged (FromDocuments filtered_chunks) s in
      match chroma_from_documents filtered_chunks with
      | Raise e => (s, Raise e)
      | Ok vectorstore =>
          let s := logged (LogInfo "Vectorstore created successfully." []) s in
          (_log_vectorstore_metadata vectorstore s, Ok (Some vectorstore))
      end
  end.

(** [generate_vectorstore]: the state it leaves and what it returns. *)
Definition generate_vectorstore (src : Sources) : state * result (option handle) :=
  match gather src with
  | (s, Some e) => (s, Raise e)
  | (s, None) => finish s
  end.

(** What the corpus asks of a chunk. *)
Definition meets_threshold (d : Document) : Prop :=
  (20 <= length (strip (page_content d)))%nat
  /\ exists c, c ∈ strip (page_content d) /\ isalnum c = true.

(** No index has been built so far. *)
Definition never_built (s : state) : Prop := forall docs, FromDocuments docs ∉ log s.

(** Every chunk of the corpus has its digest in the set. *)
Definition digests_recorded (s : state) : Prop :=
  forall d k, d ∈ all_chunks s ->
              _get_content_hash (strip (page_content d)) = Ok k -> k ∈ seen_hashes s.

(** The states of a run keep their digests recorded, and no two chunks of the
    corpus have the same stripped text. *)
Definition distinct_texts (s : state) : Prop :=
  digests_recorded s /\ NoDup (map (fun d => strip (page_content d)) (all_chunks s)).




End Store.
End FinVecStore.

(** ** Sample pages and stand-ins for the libraries

    Closed instances of the interfaces above, on which the statements below
    are evaluated. *)

Module Sample.
Import Py Record_ Bs4 Web Html FinVecStore.

(** A character database that knows no names and no letters outside ASCII. *)
Definition ascii_only : UnicodeData :=
  {| ucd_getcode := fun _ => None; ucd_isalnum := fun _ => false |}.

Definition El (n : string) (attrs : list (string * string)) (cs : list node) : node :=
  Element (lit n) (map (fun kv => (lit kv.1, lit kv.2)) attrs) cs.
Definition Tx (s : string) : node := Text (lit s).

(** A company page with one data table and one concall item. *)
Definition company_page : list node :=
  [ El "h1" [] [Tx " ACME Industries Limited "];
    El "h2" [] [Tx "Profit & Loss"];
    El "table" [("class", "data-table responsive")]
      [ El "tr" [] [El "th" [] [Tx "Year"]; El "th" [] [Tx "Sales"]];
        El "tr" [] [El "td" [] [Tx "2023"]; El "td" [] [Tx "100"]];
        El "tr" [] [El "td" [] [Tx "2024"]];
        El "tr" [] [] ];
    El "div" [("class", "documents concalls")]
      [ El "ul" [("class", "list-links")]
          [ El "li" []
              [ El "div" [] [Tx "Jan 2024"];
                El "a" [("class", "concall-link"); ("href", "https://example.org/t.pdf")]
                   [Tx "Transcript"];
                El "button" [("class", "concall-link"); ("data-url", "/concall/123")]
                   [Tx "Notes"] ] ] ] ].

(** A page with two data tables under one heading, and one before any. *)
Definition two_tables_page : list node :=
  [ El "table" [("class", "data-table")]
      [ El "tr" [] [El "th" [] [Tx "Item"]];
        El "tr" [] [El "td" [] [Tx "orphan"]] ];
    El "h2" [] [Tx "Quarterly Results"];
    El "table" [("class", "data-table")]
      [ El "tr" [] [El "th" [] [Tx "Year"]; El "th" [] [Tx "Sales"]];
        El "tr" [] [El "td" [] [Tx "2023"]; El "td" [] [Tx "100"]] ];
    El "table" [("class", "data-table")]
      [ El "tr" [] [El "th" [] [Tx "Year"]; El "th" [] [Tx "Profit"]];
        El "tr" [] [El "td" [] [Tx "2023"]; El "td" [] [Tx "7"]] ] ].

(** A page without a first-level heading. *)
Definition no_heading_page : list node :=
  [ El "p" [] [Tx "Nothing to see here."] ].

(** A page whose annual-report link is an empty anchor. *)
Definition empty_anchor_page : list node :=
  [ El "h1" [] [Tx "ACME"];
    El "div" [("class", "documents annual-reports")]
      [ El "ul" [("class", "list-links")]
          [ El "li" [] [El "a" [("href", "/annual/2023.pdf")] []] ] ] ].

(** A parser that reads every text as [company_page]. *)
#[export] Instance one_page : Soup tag := tree_soup (fun _ => Ok company_page).

(** The tag object of the node at [p] of a page. *)
Definition at_ (page : list node) (p : list nat) : tag :=
  {| doc := doc (document page); path := p |}.

Definition good_url : pystr := lit "https://www.screener.in/company/ACME/".
Definition bad_url : pystr := lit "https://www.screener.in/company/GONE/".

(** A network on which only [good_url] answers. *)
Definition one_site : Network := {|
  requests_get u :=
    if bool_decide (u = good_url) then Ok (lit "<html>...</html>")
    else Raise (External (lit "404 Client Error"));
  playwright_content u := Raise (External (lit "no browser"));
  PLAYWRIGHT_AVAILABLE := false
|}.

(** A splitter that hands its documents on as chunks. *)
Definition whole_documents : splitter :=
  DocumentSplitter (fun input =>
    match input with
    | inl docs => Ok docs
    | inr _ => Ok []
    end).

(** Stand-ins for the libraries: the digest is the text itself, no web page
    is configured, every PDF and spreadsheet fails to load, and the vector
    store accepts everything. *)
Definition stand_ins : Libraries tag unit := {|
  md5_hexdigest b := b;
  repr v := lit "?";
  web_lazy_load urls := ([], None);
  pymupdf_load file := Raise (External (lit "cannot open file"));
  excel_load file := Raise (External (lit "cannot open file"));
  html_splitter := whole_documents;
  text_splitter size overlap := whole_documents;
  filter_complex_metadata docs := docs;
  chroma_from_documents docs := Ok tt;
  retriever_invoke h q := Ok []
|}.



Definition doc_of (s : string) : Document :=
  {| page_content := lit s; metadata := [] |}.


(** Source lists for the sample run. *)
Definition failing_then_good : Sources :=
  {| web_urls := []; pdf_paths := []; excel_paths := [];
     screener_urls := [bad_url; good_url] |}.

Definition only_failing : Sources :=
  {| web_urls := []; pdf_paths := []; excel_paths := []; screener_urls := [bad_url] |}.

Definition with_pdf : Sources :=
  {| web_urls := []; pdf_paths := [lit "annual_report.pdf"]; excel_paths := [];
     screener_urls := [good_url] |}.

(** Two chunks with the same stripped text, and the state after a web batch
    with the first and a PDF batch with the second. *)
Definition first_chunk : Document := doc_of "Revenue grew 12% in FY2023.".
Definition second_chunk : Document := doc_of "  Revenue grew 12% in FY2023.  ".

#[local] Existing Instance ascii_only.
#[local] Existing Instance one_site.
#[local] Existing Instance stand_ins.


End Sample.

(** ** Further notions used to state properties of the run *)

Module Observations.
Import Py Record_ Bs4 Web Normalizer FinVecStore.

(** What the splitter of [_split_and_dedup_docs] is asked for. *)
Definition produced (sp : splitter) (input : docs_or_json) : result (list Document) :=
  match sp with
  | RecursiveJsonSplitter create_documents => create_documents input
  | DocumentSplitter split_documents => split_documents input
  end.

(** The source types [generate_vectorstore] tags chunks with. *)
Definition SOURCE_TYPES : list pystr :=
  [lit "web"; lit "pdf"; lit "excel"; lit "screener"].

(** The number of calls of [Chroma.from_documents] in a log. *)
Definition is_build (e : event) : bool :=
  match e with
  | FromDocuments _ => true
  | _ => false
  end.
Definition builds (l : list event) : nat := length (List.filter is_build l).

(** The chunk carries one of the source types as its provenance. *)
Definition has_provenance (d : Document) : Prop :=
  exists source_type,
    source_type ∈ SOURCE_TYPES
    /\ dict_get (lit "source_type") (metadata d) = Some (VStr source_type).

End Observations.

Module Shapes.
Import Py Record_ Bs4 Web Fintastic.

(** A link entry of a concall: a type and a url, neither empty. *)
Definition is_link (v : value) : Prop :=
  exists label url_,
    v = VDict [(lit "type", VStr label); (lit "url", VStr url_)]
    /\ label <> [] /\ url_ <> [].

(** A row as [dict(zip(headers, cells))] makes it: a mapping in which a
    header gives the cell at its last position among the cells, in which a
    header with no position among the cells is no key, and which, for
    headers that are distinct, is the list of the pairs of header and cell. *)
Definition zipped (headers cells : list pystr) (row : value) : Prop :=
  exists entries,
    row = VDict entries
    /\ (forall i h c,
          headers !! i = Some h -> cells !! i = Some c ->
          (forall j, (i < j)%nat -> (j < length cells)%nat -> headers !! j <> Some h) ->
          dict_get h entries = Some (VStr c))
    /\ (forall h,
          (forall i, (i < length cells)%nat -> headers !! i <> Some h) ->
          dict_get h entries = None)
    /\ (NoDup headers -> entries = zip headers (map VStr cells)).

(** A concall of the record: a date and at least one link. *)
Definition is_concall (v : value) : Prop :=
  exists date links,
    v = VDict [(lit "date", VStr date); (lit "links", VList links)]
    /\ links <> [] /\ Forall is_link links.

(** The record holds a list under the key. *)
Definition holds_list (k : pystr) (data : dict value) : Prop :=
  exists items, dict_get k data = Some (VList items).

(** The items of the annual reports list of a page. *)
Definition report_items {tag : Type} `{Soup tag} (soup : tag) : list tag :=
  match select_one soup (Descendant (Sel (tag_cls "div" ["documents"; "annual-reports"]))
                                    (tag_cls "ul" ["list-links"])) with
  | Some ar_section => find_all ar_section (by_name (lit "li"))
  | None => []
  end.

(** A page with one annual report, linked by an anchor with a text. *)
Definition reports_page : list Html.node :=
  [ Sample.El "h1" [] [Sample.Tx "ACME"];
    Sample.El "div" [("class", "documents annual-reports")]
      [ Sample.El "ul" [("class", "list-links")]
          [ Sample.El "li" []
              [Sample.El "a" [("href", "/annual/2023.pdf")]
                 [Sample.Tx " Financial Year 2023 "; Sample.El "span" [] [Sample.Tx "from bse"]]] ] ] ].

End Shapes.

Module TextShapes.
Import Py Normalizer.

(** No tab. *)
Definition tab_free (s : pystr) : bool := forallb (fun c => negb (c =? 0x09)) s.

(** A code point that a cleaned text can hold: no line boundary, no tab and
    no no-break space. *)
Definition kept (c : N) : bool :=
  negb (islinebreak c) && negb (c =? 0x09) && negb (c =? NBSP).

(** ASCII other than the backslash and the unit separator, the one ASCII
    whitespace character that is neither a blank nor a line boundary. *)
Definition ordinary (c : N) : bool := plain c && negb (c =? 0x1F).

(** A code point that can stand inside a line: not whitespace, or a space. *)
Definition inline (c : N) : bool := negb (isspace c) || (c =? 0x20).

End TextShapes.

(** ** [rag.py]: class [RAG], and the queries of [cdbvecstore.py] *)

Module Rag.
Import Py Record_ FinVecStore.

(** What the queries take from Chroma. *)
Class Retrieval (client : Type) := {
  (** [PersistentClient(path=DB_PATH, settings=...)] *)
  persistent_client : result client;
  (** [Chroma(client, collection_name, embedding).similarity_search(query, k)],
      with the embedding made by [OpenAIEmbeddings()] *)
  similarity_search : client -> pystr -> value -> nat -> result (list Document)
}.

(** The truth value of an object, as [not query] takes it. *)
Definition truth (v : value) : bool :=
  match v with
  | VNone => false
  | VBool b => b
  | VInt z => negb (z =? 0)%Z
  | VStr s => match s with [] => false | _ => true end
  | VList items => match items with [] => false | _ => true end
  | VDict entries => match entries with [] => false | _ => true end
  | VTag _ => true
  end.

(** The characters of a string, as iterating over it gives them. *)
Definition characters (s : pystr) : list pystr := map (fun c => [c]) s.

Definition collection_name : pystr := lit "abfrl-pdfs".

Section Queries.
Context {client : Type} `{Retrieval client}.

(** [FinVecStore.query_existing_vectorstore] *)
Definition query_existing_vectorstore (c : client) (query : value)
    (collection : pystr) (top_k : nat) : result pystr :=
  bind (similarity_search c collection query top_k) (fun results =>
  Ok (join [0x0A; 0x0A] (map page_content results))).

(** [FinVecStore.query_vectorstore], on the client and the collection of the
    instance. *)
Definition store_query_vectorstore (c : client) (query : value) (top_k : nat)
  : result pystr :=
  bind (similarity_search c collection_name query top_k) (fun results =>
  Ok (join [0x0A; 0x0A] (map page_content results))).

(** [RAG.query_vectorstore]: [results] is the string that
    [query_existing_vectorstore] returned, and joining iterates over it. *)
Definition query_vectorstore (c : client) (collection : pystr) (query : value)
  : result pystr :=
  bind (query_existing_vectorstore c query collection 10) (fun results =>
  Ok (join [0x0A; 0x0A] (characters results))).

(** [args.get("query", "")] *)
Definition query_of (args : dict value) : value :=
  match dict_get (lit "query") args with
  | Some query => query
  | None => VStr []
  end.

(** [RAG.async_invoke] *)
Definition async_invoke (args : dict value) : result pystr :=
  let query := query_of args in
  bind persistent_client (fun c =>
  if negb (truth query) then Ok (lit "Error: No query provided.")
  else query_vectorstore c collection_name query).

End Queries.

(** A store with two documents, whatever the query. *)
Definition two_hits : Retrieval unit := {|
  persistent_client := Ok tt;
  similarity_search c collection query k :=
    Ok (take k [Sample.doc_of "Up"; Sample.doc_of "12%"])
|}.

End Rag.

Module RunShapes.
Import Py Record_ Normalizer FinVecStore.

(** The chunk is tagged with the source type. *)
Definition has_type (source_type : pystr) (d : Document) : Prop :=
  dict_get (lit "source_type") (metadata d) = Some (VStr source_type).

(** The corpus grown from [pre] by chunks of one source type. *)
Definition grown (source_type : pystr) (pre : list Document) (s : state) : Prop :=
  exists cur, all_chunks s = pre ++ cur /\ Forall (has_type source_type) cur.

(** A chunk that passes the filter but cannot be encoded: its text ends in
    a lone surrogate. *)
Definition unencodable_chunk : Document :=
  {| page_content := lit "Revenue grew 12% in FY2023" ++ [0xD800]; metadata := [] |}.

End RunShapes.

Module Schema.
Import Py Record_.

(** The keys that the steps of the [fintastic.py] extractor assign by name. *)
Definition FIXED_KEYS : list pystr :=
  [lit "company_name"; lit "company_info"; lit "pros"; lit "cons";
   lit "Shareholding Pattern"; lit "documents"].



End Schema.

(** * Properties *)

(** ** The normaliser on concrete texts *)

Module NormalizerExamples.
Import Py Normalizer.

(** The design document's examples of collapsing. *)
Example clean_collapses_newlines `{UnicodeData} :
  _clean_content [0x61; 0x0A; 0x0A; 0x0A; 0x62] = Ok (lit "a b").
Proof. reflexivity. Qed.

Example clean_joins_escaped_newlines `{UnicodeData} :
  _clean_content (lit "Mar\n\nApr") = Ok (lit "Mar Apr").
Proof. reflexivity. Qed.

Example clean_decodes_tab `{UnicodeData} :
  _clean_content (lit "a\tb") = Ok (lit "a b").
Proof. reflexivity. Qed.

(** A no-break space in the input is first read as two Latin-1 characters,
    of which the second is then replaced. *)
Example clean_raw_nbsp `{UnicodeData} :
  _clean_content [0x61; 0xA0; 0x62] = Ok [0x61; 0xC2; 0x20; 0x62].
Proof. reflexivity. Qed.

(** C1, counterexample: a doubly escaped tab.  The text a, backslash,
    backslash, t, b is cleaned to a, backslash, t, b, and that to a, space, b;
    and a text with one letter outside ASCII grows on every pass.  Neither
    depends on the character database. *)
Lemma clean_content_not_idempotent :
  (forall U : UnicodeData,
      @_clean_content U (lit "a\\tb") = Ok (lit "a\tb")
      /\ @_clean_content U (lit "a\tb") = Ok (lit "a b"))
  /\ (forall U : UnicodeData,
      @_clean_content U [0xE9] = Ok [0xC3; 0xA9]
      /\ @_clean_content U [0xC3; 0xA9] = Ok [0xC3; 0x83; 0xC2; 0xA9])
  /\ lit "a\tb" <> lit "a b".
Proof.
  split; [|split].
  - intros U. split; reflexivity.
  - intros U. split; reflexivity.
  - discriminate.
Qed.

(** C2, counterexample: a text that ends in a backslash, a short hexadecimal
    escape and an unknown character name make the decoding step fail, and
    [_clean_content] raises the decoder's error. *)
Lemma clean_content_raises :
  (forall U : UnicodeData, @_clean_content U (lit "50\") = Raise UnicodeDecodeError)
  /\ (forall U : UnicodeData, @_clean_content U (lit "C:\x4") = Raise UnicodeDecodeError)
  /\ @_clean_content Sample.ascii_only (lit "\N{DASH}") = Raise UnicodeDecodeError.
Proof.
  split; [|split]; try (intros U); reflexivity.
Qed.

End NormalizerExamples.

(** ** The normaliser: idempotence and failure *)

Module NormalizerFacts.
Import Py Normalizer.

Lemma forallb_cons {A} (p : A -> bool) x l :
  forallb p (x :: l) = true -> p x = true /\ forallb p l = true.
Proof. simpl. intros H. apply andb_true_iff in H. exact H. Qed.

(** *** The first two steps on texts without escapes *)

Lemma sub_escaped_newlines_cons b c d rest :
  sub_escaped_newlines b (c :: d :: rest) =
  if (c =? 0x5C) && (d =? 0x6E) then
    if b then sub_escaped_newlines true rest
    else 0x0A :: sub_escaped_newlines true rest
  else c :: sub_escaped_newlines false (d :: rest).
Proof. reflexivity. Qed.

Lemma sub_escaped_newlines_id (s : pystr) :
  forallb (fun c => negb (c =? 0x5C)) s = true ->
  forall b, sub_escaped_newlines b s = s.
Proof.
  induction s as [|c t IH]; intros Hs b; [reflexivity|].
  apply forallb_cons in Hs. destruct Hs as [Hc Ht].
  destruct t as [|d rest]; [reflexivity|].
  rewrite sub_escaped_newlines_cons.
  apply negb_true_iff in Hc. rewrite Hc. cbn [andb].
  f_equal. apply IH. exact Ht.
Qed.

Lemma utf8_encode_ascii (s : pystr) :
  forallb (fun c => c <? 0x80) s = true -> utf8_encode s = Ok s.
Proof.
  induction s as [|c t IH]; intros Hs; [reflexivity|].
  apply forallb_cons in Hs. destruct Hs as [Hc Ht].
  simpl. unfold utf8_encode_char. rewrite Hc. simpl. rewrite IH by exact Ht.
  reflexivity.
Qed.

Lemma unicode_escape_plain `{UnicodeData} (bs : bytes) :
  forallb (fun c => negb (c =? 0x5C)) bs = true ->
  unicode_escape_from Plain bs = Ok bs.
Proof.
  induction bs as [|b t IH]; intros Hs; [reflexivity|].
  apply forallb_cons in Hs. destruct Hs as [Hc Ht].
  apply negb_true_iff in Hc.
  cbn [unicode_escape_from]. rewrite Hc, IH by exact Ht. reflexivity.
Qed.

Lemma plain_split (s : pystr) :
  forallb plain s = true ->
  forallb (fun c => c <? 0x80) s = true
  /\ forallb (fun c => negb (c =? 0x5C)) s = true.
Proof.
  induction s as [|c t IH]; intros Hs; [split; reflexivity|].
  apply forallb_cons in Hs. destruct Hs as [Hc Ht].
  destruct (IH Ht) as [H1 H2]. unfold plain in Hc.
  apply andb_true_iff in Hc. destruct Hc as [Ha Hb].
  simpl. rewrite Ha, Hb, H1, H2. split; reflexivity.
Qed.

(** On a plain text the normaliser is its last four steps. *)
Lemma clean_content_plain `{UnicodeData} (s : pystr) :
  forallb plain s = true -> _clean_content s = Ok (tidy s).
Proof.
  intros Hs. destruct (plain_split s Hs) as [Ha Hb].
  unfold _clean_content. rewrite (sub_escaped_newlines_id s Hb).
  rewrite (utf8_encode_ascii s Ha). simpl.
  unfold unicode_escape_decode. rewrite (unicode_escape_plain s Hb). reflexivity.
Qed.

(** *** Texts that [tidy] leaves unchanged *)

Lemma sub_runs_none (p : N -> bool) (r : N) (s : pystr) :
  forallb (fun c => negb (p c)) s = true -> forall b, sub_runs p r b s = s.
Proof.
  induction s as [|c t IH]; intros Hs b; [reflexivity|].
  apply forallb_cons in Hs. destruct Hs as [Hc Ht].
  apply negb_true_iff in Hc. simpl. rewrite Hc, IH by exact Ht. reflexivity.
Qed.

Lemma sub_runs_single_spaced (s : pystr) :
  forall b, single_spaced b s = true -> sub_runs is_blank 0x20 b s = s.
Proof.
  induction s as [|c t IH]; intros b Hs; [reflexivity|].
  simpl in *. destruct (is_blank c) eqn:Hc.
  - apply andb_true_iff in Hs. destruct Hs as [Hs Ht].
    apply andb_true_iff in Hs. destruct Hs as [Hb H32].
    apply negb_true_iff in Hb. apply N.eqb_eq in H32. subst b c.
    rewrite IH by exact Ht. reflexivity.
  - rewrite IH by exact Hs. reflexivity.
Qed.

Lemma replace_nbsp_id (s : pystr) : nbsp_free s = true -> replace_nbsp s = s.
Proof.
  unfold nbsp_free, replace_nbsp.
  induction s as [|c t IH]; intros Hs; [reflexivity|].
  apply forallb_cons in Hs. destruct Hs as [Hc Ht].
  apply negb_true_iff in Hc. simpl. rewrite Hc, IH by exact Ht. reflexivity.
Qed.

Lemma linebreak_not_after_cr c b : islinebreak c = false -> b && (c =? 0x0A) = false.
Proof. intros Hc. destruct b; [|reflexivity]. simpl. codepoints. Qed.

Lemma splitlines_unbroken (s : pystr) :
  unbroken s = true ->
  forall b, splitlines_from b s = match s with [] => [] | _ => [s] end.
Proof.
  unfold unbroken.
  induction s as [|c t IH]; intros Hs b; [reflexivity|].
  apply forallb_cons in Hs. destruct Hs as [Hc Ht].
  apply negb_true_iff in Hc. simpl.
  rewrite (linebreak_not_after_cr c b Hc), Hc, IH by exact Ht.
  destruct t; reflexivity.
Qed.

Lemma lstrip_head c t : isspace c = false -> lstrip (c :: t) = c :: t.
Proof. intros Hc. simpl. rewrite Hc. reflexivity. Qed.

Lemma strip_trimmed (s : pystr) : trimmed s = true -> strip s = s.
Proof.
  unfold trimmed, strip, rstrip. destruct s as [|c t]; [reflexivity|].
  destruct (reverse (c :: t)) as [|d r] eqn:Hr.
  - apply (f_equal reverse) in Hr. rewrite reverse_involutive in Hr. discriminate.
  - intros H. apply andb_true_iff in H. destruct H as [Hc Hd].
    apply negb_true_iff in Hc, Hd.
    rewrite (lstrip_head c t Hc), Hr, (lstrip_head d r Hd), <- Hr.
    apply reverse_involutive.
Qed.

Lemma tidy_tidied (s : pystr) : tidied s = true -> tidy s = s.
Proof.
  unfold tidied. intros H.
  apply andb_true_iff in H. destruct H as [H Ht].
  apply andb_true_iff in H. destruct H as [H Hn].
  apply andb_true_iff in H. destruct H as [Hu Hs].
  unfold tidy.
  rewrite (sub_runs_none is_newline 0x0A s).
  2:{ unfold unbroken in Hu. clear -Hu. induction s as [|c t IH]; [reflexivity|].
      apply forallb_cons in Hu. destruct Hu as [Hc Hu]. simpl.
      rewrite (IH Hu), andb_true_r. apply negb_true_iff in Hc.
      apply negb_true_iff. codepoints. }
  rewrite (sub_runs_single_spaced s false Hs), (replace_nbsp_id s Hn).
  unfold splitlines. rewrite (splitlines_unbroken s Hu).
  destruct s as [|c t]; [reflexivity|].
  rewrite filter_cons_True by (rewrite (strip_trimmed _ Ht); discriminate).
  rewrite filter_nil. simpl. apply strip_trimmed. exact Ht.
Qed.

(** *** Single spacing of concatenations *)


Lemma single_spaced_app (a c : pystr) :
  forall b, single_spaced b (a ++ c)
            = single_spaced b a && single_spaced (ends_blank b a) c.
Proof.
  induction a as [|x t IH]; intros b; [reflexivity|].
  simpl. destruct (is_blank x) eqn:Hx.
  - rewrite IH, andb_assoc. reflexivity.
  - apply IH.
Qed.

Lemma single_spaced_weaken (s : pystr) b :
  single_spaced b s = true -> single_spaced false s = true.
Proof.
  destruct s as [|c t]; [reflexivity|]. simpl.
  destruct (is_blank c); [|trivial].
  intros H. apply andb_true_iff in H. destruct H as [H Ht].
  apply andb_true_iff in H. destruct H as [_ Hc]. rewrite Hc, Ht. reflexivity.
Qed.

Lemma single_spaced_head c t b :
  is_blank c = false -> single_spaced b (c :: t) = single_spaced false (c :: t).
Proof. intros Hc. simpl. rewrite Hc. reflexivity. Qed.

Lemma ends_blank_last (s : pystr) d : forall b, ends_blank b (s ++ [d]) = is_blank d.
Proof. induction s as [|c t IH]; intros b; [reflexivity|]. simpl. apply IH. Qed.

Lemma ends_blank_reverse (s : pystr) d r b :
  reverse s = d :: r -> ends_blank b s = is_blank d.
Proof.
  intros Hr. apply (f_equal reverse) in Hr.
  rewrite reverse_involutive, reverse_cons in Hr. subst s. apply ends_blank_last.
Qed.

Lemma blank_is_space c : isspace c = false -> is_blank c = false.
Proof. intros Hc. codepoints. Qed.

Lemma blank_not_linebreak c : is_blank c = true -> islinebreak c = false.
Proof. intros Hc. codepoints. Qed.

(** *** What the substitutions leave *)

Lemma sub_runs_spaced (s : pystr) :
  forall b, single_spaced b (sub_runs is_blank 0x20 b s) = true.
Proof.
  induction s as [|c t IH]; intros b; [reflexivity|].
  simpl. destruct (is_blank c) eqn:Hc.
  - destruct b; [apply IH|]. simpl. apply IH.
  - simpl. rewrite Hc. apply IH.
Qed.

Lemma sub_runs_plain (p : N -> bool) (r : N) (s : pystr) :
  plain r = true -> forallb plain s = true ->
  forall b, forallb plain (sub_runs p r b s) = true.
Proof.
  intros Hr. induction s as [|c t IH]; intros Hs b; [reflexivity|].
  apply forallb_cons in Hs. destruct Hs as [Hc Ht].
  simpl. destruct (p c); [destruct b|]; simpl; rewrite ?Hr, ?Hc, IH; auto.
Qed.

Lemma plain_nbsp_free (s : pystr) : forallb plain s = true -> nbsp_free s = true.
Proof.
  unfold nbsp_free. induction s as [|c t IH]; intros Hs; [reflexivity|].
  apply forallb_cons in Hs. destruct Hs as [Hc Ht]. simpl.
  rewrite (IH Ht), andb_true_r. codepoints.
Qed.

(** *** Lines, stripped lines and their join *)


Lemma spaced_plain_prefix a z : spaced_plain (a ++ z) -> spaced_plain a.
Proof.
  intros [Hs Hp]. rewrite single_spaced_app in Hs. rewrite forallb_app in Hp.
  apply andb_true_iff in Hs, Hp. split; tauto.
Qed.

Lemma spaced_plain_suffix a z : spaced_plain (a ++ z) -> spaced_plain z.
Proof.
  intros [Hs Hp]. rewrite single_spaced_app in Hs. rewrite forallb_app in Hp.
  apply andb_true_iff in Hs, Hp. split; [|tauto].
  destruct Hs as [_ Hs]. exact (single_spaced_weaken _ _ Hs).
Qed.

Lemma first_line_prefix (s : pystr) :
  forall l ls, splitlines_from false s = l :: ls -> exists z, s = l ++ z.
Proof.
  induction s as [|c t IH]; intros l ls; [discriminate|].
  simpl. destruct (islinebreak c).
  - intros E. injection E as <- _. exists (c :: t). reflexivity.
  - destruct (splitlines_from false t) as [|l0 ls0] eqn:Et.
    + intros E. injection E as <- _. exists t. reflexivity.
    + intros E. injection E as <- _. destruct (IH l0 ls0 eq_refl) as [z ->].
      exists z. reflexivity.
Qed.

Lemma splitlines_lines (s : pystr) :
  spaced_plain s ->
  forall b, Forall (fun l => unbroken l = true /\ spaced_plain l) (splitlines_from b s).
Proof.
  induction s as [|c t IH]; intros Hs b; [constructor|].
  assert (Ht : spaced_plain t) by exact (spaced_plain_suffix [c] t Hs).
  simpl. destruct (b && (c =? 0x0A)); [apply IH; exact Ht|].
  destruct (islinebreak c) eqn:Hc.
  - constructor; [|apply IH; exact Ht]. repeat split.
  - pose proof (IH Ht false) as Hl.
    destruct (splitlines_from false t) as [|l0 ls0] eqn:Et.
    + constructor; [|constructor]. split.
      * unfold unbroken. simpl. rewrite Hc. reflexivity.
      * exact (spaced_plain_prefix [c] t Hs).
    + inversion Hl as [|? ? [Hu0 _] Hls0]; subst.
      constructor; [|exact Hls0]. split.
      * unfold unbroken in *. simpl. rewrite Hc, Hu0. reflexivity.
      * destruct (first_line_prefix t l0 ls0 Et) as [z Hz].
        apply (spaced_plain_prefix (c :: l0) z). simpl. rewrite <- Hz. exact Hs.
Qed.

Lemma lstrip_suffix (s : pystr) : exists a, s = a ++ lstrip s.
Proof.
  induction s as [|c t [a IH]]; [exists []; reflexivity|].
  simpl. destruct (isspace c).
  - exists (c :: a). simpl. rewrite <- IH. reflexivity.
  - exists []. reflexivity.
Qed.

Lemma lstrip_nonspace (s : pystr) c t : lstrip s = c :: t -> isspace c = false.
Proof.
  induction s as [|x r IH]; [discriminate|].
  simpl. destruct (isspace x) eqn:Hx; [exact IH|].
  intros E. injection E as <- _. exact Hx.
Qed.

Lemma rstrip_prefix (s : pystr) : exists z, s = rstrip s ++ z.
Proof.
  unfold rstrip. destruct (lstrip_suffix (reverse s)) as [a Ha].
  exists (reverse a). rewrite <- reverse_app, <- Ha, reverse_involutive. reflexivity.
Qed.

Lemma strip_segment (s : pystr) : exists a z, s = a ++ strip s ++ z.
Proof.
  unfold strip. destruct (lstrip_suffix s) as [a Ha].
  destruct (rstrip_prefix (lstrip s)) as [z Hz].
  exists a, z. rewrite <- Hz. exact Ha.
Qed.

Lemma strip_is_trimmed (s : pystr) : trimmed (strip s) = true.
Proof.
  unfold trimmed, strip.
  destruct (rstrip (lstrip s)) as [|c t] eqn:E1; [reflexivity|].
  destruct (reverse (c :: t)) as [|d r] eqn:E2; [reflexivity|].
  assert (Hd : isspace d = false).
  { apply (lstrip_nonspace (reverse (lstrip s)) d r).
    rewrite <- E2, <- E1. unfold rstrip. rewrite reverse_involutive. reflexivity. }
  assert (Hc : isspace c = false).
  { destruct (rstrip_prefix (lstrip s)) as [z Hz]. rewrite E1 in Hz.
    apply (lstrip_nonspace s c (t ++ z)). exact Hz. }
  rewrite Hc, Hd. reflexivity.
Qed.

Lemma unbroken_segment a l z : unbroken (a ++ l ++ z) = true -> unbroken l = true.
Proof.
  unfold unbroken. rewrite !forallb_app. intros H.
  apply andb_true_iff in H. destruct H as [_ H].
  apply andb_true_iff in H. tauto.
Qed.


Lemma stripped_lines (lines : list pystr) :
  Forall (fun l => unbroken l = true /\ spaced_plain l) lines ->
  Forall tidy_line (map strip (filter (fun line => strip line <> []) lines)).
Proof.
  induction 1 as [|l ls [Hu Hsp] _ IH]; [constructor|].
  rewrite filter_cons. destruct (decide (strip l <> [])) as [Hne|_]; [|exact IH].
  simpl. constructor; [|exact IH].
  destruct (strip_segment l) as (a & z & Hl).
  repeat split.
  - exact Hne.
  - apply (unbroken_segment a _ z). rewrite <- Hl. exact Hu.
  - rewrite Hl in Hsp. apply spaced_plain_suffix in Hsp.
    apply spaced_plain_prefix in Hsp. apply Hsp.
  - rewrite Hl in Hsp. apply spaced_plain_suffix in Hsp.
    apply spaced_plain_prefix in Hsp. apply Hsp.
  - apply strip_is_trimmed.
Qed.

Lemma trimmed_ends (s : pystr) :
  s <> [] -> trimmed s = true ->
  exists c t d r, s = c :: t /\ reverse s = d :: r
                  /\ isspace c = false /\ isspace d = false.
Proof.
  intros Hne. unfold trimmed. destruct s as [|c t]; [contradiction|].
  destruct (reverse (c :: t)) as [|d r] eqn:Hr.
  - apply (f_equal reverse) in Hr. rewrite reverse_involutive in Hr. discriminate.
  - intros H. apply andb_true_iff in H. destruct H as [Hc Hd].
    apply negb_true_iff in Hc, Hd. exists c, t, d, r. auto.
Qed.

Lemma join_tidy_lines (ls : list pystr) :
  Forall tidy_line ls ->
  unbroken (join [0x20] ls) = true /\ spaced_plain (join [0x20] ls)
  /\ trimmed (join [0x20] ls) = true /\ (ls <> [] -> join [0x20] ls <> []).
Proof.
  induction 1 as [|e ls' He Hls IH]; [repeat split; congruence|].
  destruct ls' as [|e2 ls''].
  - destruct He as (Hne & Hu & Hsp & Ht). simpl. repeat split; try apply Hsp; auto.
  - destruct IH as (HuJ & [HsJ HpJ] & HtJ & HneJ).
    specialize (HneJ ltac:(discriminate)).
    set (J := join [0x20] (e2 :: ls'')) in *.
    change (join [0x20] (e :: e2 :: ls'')) with (e ++ 0x20 :: J).
    destruct He as (Hne & Hu & [Hs Hp] & Ht).
    destruct (trimmed_ends e Hne Ht) as (c & t & d & r & Ee & Er & Hc & Hd).
    destruct (trimmed_ends J HneJ HtJ) as (c' & t' & d' & r' & EJ & ErJ & Hc' & Hd').
    repeat split.
    + unfold unbroken in *. rewrite forallb_app. simpl. rewrite Hu, HuJ. reflexivity.
    + rewrite single_spaced_app, Hs, (ends_blank_reverse e d r false Er),
        (blank_is_space d Hd).
      simpl. rewrite EJ, (single_spaced_head c' t' true (blank_is_space c' Hc')),
        <- EJ. exact HsJ.
    + rewrite forallb_app. simpl. rewrite Hp, HpJ. reflexivity.
    + assert (Hrev : reverse (e ++ 0x20 :: J) = d' :: (r' ++ [0x20]) ++ reverse e)
        by (rewrite reverse_app, reverse_cons, ErJ; reflexivity).
      unfold trimmed. rewrite Ee in Hrev |- *. cbn [app] in Hrev |- *.
      rewrite Hrev, Hc, Hd'. reflexivity.
    + rewrite Ee. discriminate.
Qed.

(** The last four steps bring a plain text into the shape they preserve. *)
Lemma tidy_plain (s : pystr) :
  forallb plain s = true -> tidied (tidy s) = true /\ forallb plain (tidy s) = true.
Proof.
  intros Hs. unfold tidy.
  set (u := sub_runs is_blank 0x20 false (sub_runs is_newline 0x0A false s)).
  assert (Hpu : forallb plain u = true).
  { apply sub_runs_plain; [reflexivity|]. apply sub_runs_plain; [reflexivity|exact Hs]. }
  rewrite (replace_nbsp_id u (plain_nbsp_free u Hpu)).
  assert (Hu : spaced_plain u) by (split; [apply sub_runs_spaced|exact Hpu]).
  pose proof (stripped_lines _ (splitlines_lines u Hu false)) as Hl.
  destruct (join_tidy_lines _ Hl) as (H1 & [H2 H3] & H4 & _).
  unfold splitlines.
  split; [|exact H3].
  unfold tidied. rewrite H1, H2, H4, (plain_nbsp_free _ H3). reflexivity.
Qed.

(** *** Encoding texts without backslashes *)

Lemma lor_high_bit_not_backslash k x :
  N.testbit k 7 = true -> (N.lor k x =? 0x5C) = false.
Proof.
  intros Hk. apply N.eqb_neq. intros E.
  apply (f_equal (fun n => N.testbit n 7)) in E.
  rewrite N.lor_spec, Hk in E. discriminate.
Qed.

Lemma utf8_encode_char_escape_free c :
  escape_free c = true ->
  exists bs, utf8_encode_char c = Ok bs
             /\ forallb (fun b => negb (b =? 0x5C)) bs = true.
Proof.
  intros Hc. unfold escape_free in Hc.
  apply andb_true_iff in Hc. destruct Hc as [Hb Hs].
  apply negb_true_iff in Hs. unfold is_surrogate in Hs.
  unfold utf8_encode_char. rewrite Hs.
  destruct (c <? 0x80); [|destruct (c <? 0x800); [|destruct (c <? 0x10000)]];
    eexists; (split; [reflexivity|]); simpl;
    rewrite ?Hb, ?lor_high_bit_not_backslash by reflexivity; reflexivity.
Qed.

Lemma utf8_encode_escape_free (s : pystr) :
  forallb escape_free s = true ->
  exists bs, utf8_encode s = Ok bs
             /\ forallb (fun b => negb (b =? 0x5C)) bs = true.
Proof.
  induction s as [|c t IH]; intros Hs; [exists []; split; reflexivity|].
  apply forallb_cons in Hs. destruct Hs as [Hc Ht].
  destruct (utf8_encode_char_escape_free c Hc) as (b1 & E1 & F1).
  destruct (IH Ht) as (b2 & E2 & F2).
  exists (b1 ++ b2). simpl. rewrite E1, E2. simpl. split; [reflexivity|].
  rewrite forallb_app, F1, F2. reflexivity.
Qed.

Lemma escape_free_no_backslash (s : pystr) :
  forallb escape_free s = true -> forallb (fun c => negb (c =? 0x5C)) s = true.
Proof.
  induction s as [|c t IH]; intros Hs; [reflexivity|].
  apply forallb_cons in Hs. destruct Hs as [Hc Ht].
  unfold escape_free in Hc. apply andb_true_iff in Hc. destruct Hc as [Hb _].
  simpl. rewrite Hb, (IH Ht). reflexivity.
Qed.

(** C1, amended: on texts of ASCII characters other than the backslash the
    normaliser returns, and cleaning its result again changes nothing. *)
Theorem clean_content_idempotent_on_plain `{UnicodeData} (x : pystr) :
  forallb plain x = true ->
  exists y, _clean_content x = Ok y /\ _clean_content y = Ok y.
Proof.
  intros Hx. exists (tidy x). destruct (tidy_plain x Hx) as [Ht Hp].
  split; [exact (clean_content_plain x Hx)|].
  rewrite (clean_content_plain (tidy x) Hp), (tidy_tidied (tidy x) Ht). reflexivity.
Qed.

Lemma clean_content_idempotent_on_plain_witness :
  forallb plain (lit "  Net  profit   rose ") = true
  /\ exists y, @_clean_content Sample.ascii_only (lit "  Net  profit   rose ") = Ok y
               /\ @_clean_content Sample.ascii_only y = Ok y.
Proof.
  split; [reflexivity|].
  apply (@clean_content_idempotent_on_plain Sample.ascii_only). reflexivity.
Defined.

(** C2, amended: the normaliser returns on every text that has no backslash
    and no lone surrogate; and when the encoding or the escape decoding of
    its second step fails, it raises that error: there is no fallback to the
    text before decoding. *)
Theorem clean_content_returns_or_propagates `{UnicodeData} (x : pystr) :
  (forallb escape_free x = true -> returns (_clean_content x))
  /\ (forall e,
        bind (utf8_encode (sub_escaped_newlines false x)) unicode_escape_decode = Raise e ->
        _clean_content x = Raise e).
Proof.
  split.
  - intros Hx. pose proof (escape_free_no_backslash x Hx) as Hb.
    destruct (utf8_encode_escape_free x Hx) as (bs & E & F).
    unfold _clean_content. rewrite (sub_escaped_newlines_id x Hb), E. simpl.
    unfold unicode_escape_decode. rewrite (unicode_escape_plain bs F). simpl.
    eexists. reflexivity.
  - intros e. unfold _clean_content.
    destruct (utf8_encode (sub_escaped_newlines false x)) as [bs|e']; simpl.
    + destruct (unicode_escape_decode bs); simpl; congruence.
    + congruence.
Qed.

Lemma clean_content_returns_witness :
  forallb escape_free [0x52; 0xE9; 0x73; 0x75; 0x6D; 0xE9; 0x20AC] = true
  /\ returns (@_clean_content Sample.ascii_only [0x52; 0xE9; 0x73; 0x75; 0x6D; 0xE9; 0x20AC]).
Proof.
  split; [reflexivity|].
  apply (proj1 (@clean_content_returns_or_propagates Sample.ascii_only _)). reflexivity.
Defined.

(** *** Solid prefixes survive the cleaning *)

Lemma solid_split (w : pystr) :
  forallb solid w = true ->
  forallb plain w = true /\ forallb (fun c => negb (isspace c)) w = true.
Proof.
  induction w as [|c t IH]; intros Hw; [split; reflexivity|].
  apply forallb_cons in Hw. destruct Hw as [Hc Ht].
  destruct (IH Ht) as [H1 H2]. unfold solid in Hc.
  apply andb_true_iff in Hc. destruct Hc as [Ha Hb].
  simpl. rewrite Ha, Hb, H1, H2. split; reflexivity.
Qed.

Lemma sub_escaped_newlines_prefix (w rest : pystr) :
  forallb (fun c => negb (c =? 0x5C)) w = true -> w <> [] ->
  forall b, sub_escaped_newlines b (w ++ rest) = w ++ sub_escaped_newlines false rest.
Proof.
  induction w as [|c t IH]; intros Hw Hne b; [contradiction|].
  apply forallb_cons in Hw. destruct Hw as [Hc Ht]. apply negb_true_iff in Hc.
  destruct t as [|c' t'].
  - simpl app. destruct rest as [|d r]; [reflexivity|].
    rewrite sub_escaped_newlines_cons, Hc. reflexivity.
  - change ((c :: c' :: t') ++ rest) with (c :: c' :: (t' ++ rest)).
    rewrite sub_escaped_newlines_cons, Hc. cbn [andb].
    change (c' :: t' ++ rest) with ((c' :: t') ++ rest).
    rewrite IH by (auto; discriminate). reflexivity.
Qed.

Lemma utf8_encode_app_ascii (w rest : pystr) :
  forallb (fun c => c <? 0x80) w = true ->
  utf8_encode (w ++ rest) = bind (utf8_encode rest) (fun bs => Ok (w ++ bs)).
Proof.
  induction w as [|c t IH]; intros Hw.
  - simpl. destruct (utf8_encode rest); reflexivity.
  - apply forallb_cons in Hw. destruct Hw as [Hc Ht].
    simpl. unfold utf8_encode_char. rewrite Hc. simpl. rewrite (IH Ht).
    destruct (utf8_encode rest); reflexivity.
Qed.

Lemma unicode_escape_app_plain `{UnicodeData} (w bs : bytes) :
  forallb (fun c => negb (c =? 0x5C)) w = true ->
  unicode_escape_from Plain (w ++ bs)
  = bind (unicode_escape_from Plain bs) (fun t => Ok (w ++ t)).
Proof.
  induction w as [|c t IH]; intros Hw.
  - simpl. destruct (unicode_escape_from Plain bs); reflexivity.
  - apply forallb_cons in Hw. destruct Hw as [Hc Ht]. apply negb_true_iff in Hc.
    cbn [app unicode_escape_from]. rewrite Hc, (IH Ht).
    destruct (unicode_escape_from Plain bs); reflexivity.
Qed.

Lemma sub_runs_prefix (p : N -> bool) (r : N) (w t : pystr) :
  forallb (fun c => negb (p c)) w = true -> w <> [] ->
  forall b, sub_runs p r b (w ++ t) = w ++ sub_runs p r false t.
Proof.
  induction w as [|c w' IH]; intros Hw Hne b; [contradiction|].
  apply forallb_cons in Hw. destruct Hw as [Hc Ht]. apply negb_true_iff in Hc.
  simpl. rewrite Hc. f_equal. destruct w' as [|c' w'']; [reflexivity|].
  apply IH; [exact Ht|discriminate].
Qed.

Lemma splitlines_prefix (w t : pystr) :
  unbroken w = true -> w <> [] ->
  forall b, splitlines_from b (w ++ t)
            = match splitlines_from false t with
              | [] => [w]
              | l :: ls => (w ++ l) :: ls
              end.
Proof.
  unfold unbroken.
  induction w as [|c w' IH]; intros Hw Hne b; [contradiction|].
  apply forallb_cons in Hw. destruct Hw as [Hc Ht]. apply negb_true_iff in Hc.
  simpl. rewrite (linebreak_not_after_cr c b Hc), Hc.
  destruct w' as [|c' w'']; [reflexivity|].
  rewrite (IH Ht ltac:(discriminate) false).
  destruct (splitlines_from false t); reflexivity.
Qed.

Lemma lstrip_app_keep (a b : pystr) c r :
  b = c :: r -> isspace c = false -> lstrip (a ++ b) = lstrip a ++ b.
Proof.
  intros -> Hc. induction a as [|x a' IH]; [simpl; rewrite Hc; reflexivity|].
  simpl. destruct (isspace x); [exact IH|reflexivity].
Qed.

Lemma strip_prefix (w l : pystr) :
  forallb (fun c => negb (isspace c)) w = true -> w <> [] ->
  strip (w ++ l) = w ++ rstrip l.
Proof.
  intros Hw Hne. unfold strip.
  assert (Hhead : lstrip (w ++ l) = w ++ l).
  { destruct w as [|c t]; [contradiction|].
    apply forallb_cons in Hw. destruct Hw as [Hc _].
    apply negb_true_iff in Hc. simpl. rewrite Hc. reflexivity. }
  rewrite Hhead. unfold rstrip. rewrite reverse_app.
  destruct (reverse w) as [|d r] eqn:Er.
  { apply (f_equal reverse) in Er. rewrite reverse_involutive in Er.
    destruct (Hne Er). }
  assert (Hd : isspace d = false).
  { assert (Hin : d ∈ w).
    { apply elem_of_reverse. rewrite Er. left. }
    apply list_elem_of_In in Hin.
    rewrite forallb_forall in Hw. apply negb_true_iff, Hw, Hin. }
  rewrite (lstrip_app_keep (reverse l) (d :: r) d r eq_refl Hd).
  rewrite reverse_app, <- Er, reverse_involutive. reflexivity.
Qed.

Lemma join_prefix (sep p : pystr) ps : p `prefix_of` join sep (p :: ps).
Proof.
  destruct ps as [|q qs]; [reflexivity|]. simpl. apply prefix_app_r. reflexivity.
Qed.

Lemma tidy_keeps_prefix (w t : pystr) :
  forallb solid w = true -> w <> [] -> w `prefix_of` tidy (w ++ t).
Proof.
  intros Hw Hne. destruct (solid_split w Hw) as [Hp Hs].
  assert (Hnl : forallb (fun c => negb (is_newline c)) w = true).
  { clear -Hs. induction w as [|c r IH]; [reflexivity|]. apply forallb_cons in Hs.
    destruct Hs as [Hc Hs]. simpl. rewrite (IH Hs), andb_true_r.
    apply negb_true_iff in Hc. apply negb_true_iff. codepoints. }
  assert (Hbl : forallb (fun c => negb (is_blank c)) w = true).
  { clear -Hs. induction w as [|c r IH]; [reflexivity|]. apply forallb_cons in Hs.
    destruct Hs as [Hc Hs]. simpl. rewrite (IH Hs), andb_true_r.
    apply negb_true_iff in Hc. apply negb_true_iff, blank_is_space, Hc. }
  assert (Hub : unbroken w = true).
  { unfold unbroken. clear -Hs. induction w as [|c r IH]; [reflexivity|].
    apply forallb_cons in Hs. destruct Hs as [Hc Hs]. simpl.
    rewrite (IH Hs), andb_true_r.
    apply negb_true_iff in Hc. apply negb_true_iff. codepoints. }
  unfold tidy.
  rewrite (sub_runs_prefix is_newline _ w t Hnl Hne).
  rewrite (sub_runs_prefix is_blank _ w _ Hbl Hne).
  unfold replace_nbsp. rewrite map_app.
  fold (replace_nbsp w). rewrite (replace_nbsp_id w (plain_nbsp_free w Hp)).
  unfold splitlines. rewrite (splitlines_prefix w _ Hub Hne).
  match goal with |- context [splitlines_from false ?u] =>
    destruct (splitlines_from false u) as [|l ls] end.
  - rewrite filter_cons_True.
    2:{ rewrite <- (app_nil_r w), (strip_prefix w [] Hs Hne). destruct w; [contradiction|discriminate]. }
    rewrite filter_nil. simpl.
    rewrite <- (app_nil_r w) at 2. rewrite (strip_prefix w [] Hs Hne).
    apply prefix_app_r. reflexivity.
  - rewrite filter_cons_True.
    2:{ rewrite (strip_prefix w l Hs Hne). destruct w; [contradiction|discriminate]. }
    rewrite fmap_cons. etransitivity; [|apply join_prefix].
    rewrite (strip_prefix w l Hs Hne). apply prefix_app_r. reflexivity.
Qed.

(** A text that begins with solid characters keeps them in front when it is
    cleaned. *)
Lemma clean_content_keeps_prefix `{UnicodeData} (w rest y : pystr) :
  forallb solid w = true -> w <> [] ->
  _clean_content (w ++ rest) = Ok y -> w `prefix_of` y.
Proof.
  intros Hw Hne. destruct (solid_split w Hw) as [Hp _].
  destruct (plain_split w Hp) as [Ha Hb].
  unfold _clean_content.
  rewrite (sub_escaped_newlines_prefix w rest Hb Hne), (utf8_encode_app_ascii w _ Ha).
  destruct (utf8_encode _) as [bs|e]; [|discriminate]. simpl.
  unfold unicode_escape_decode. rewrite (unicode_escape_app_plain w bs Hb).
  destruct (unicode_escape_from Plain bs) as [t|e]; [|discriminate]. simpl.
  intros E. injection E as <-. apply tidy_keeps_prefix; assumption.
Qed.

(** *** Lines that survive the cleaning *)





End NormalizerFacts.

(** ** The vector store: filter, deduplication, failures *)

Module VecStoreFacts.
Import Py Record_ Bs4 Web Normalizer FinVecStore.

Section Run.
Context {tag handle : Type} `{UnicodeData} `{Soup tag} `{Network} `{Libraries tag handle}.

(** *** Invariants of a run *)

(** A property of the state that every accepted chunk preserves is preserved
    by the chunk loop, whether it ends normally or raises. *)
Lemma dedup_loop_invariant (P : state -> Prop) (source_type : pystr) :
  (forall s chunk k,
      P s -> too_poor (strip (page_content chunk)) = false ->
      _get_content_hash (strip (page_content chunk)) = Ok k ->
      k ∉ seen_hashes s -> P (append_chunk k source_type chunk s)) ->
  forall chunks s, P s -> P (dedup_loop chunks source_type s).1.
Proof.
  intros Hstep. induction chunks as [|chunk rest IH]; intros s Hs; [exact Hs|].
  simpl. destruct (too_poor _) eqn:Hpoor; [apply IH; exact Hs|].
  destruct (_get_content_hash _) as [k|e] eqn:Hk; [|exact Hs].
  unfold _already_exists. case_bool_decide as Hseen; [apply IH; exact Hs|].
  apply IH. apply Hstep; assumption.
Qed.

Lemma split_and_dedup_invariant (P : state -> Prop) :
  (forall source_type chunks s, P s -> P (dedup_loop chunks source_type s).1) ->
  forall input sp source_type s, P s -> P (_split_and_dedup_docs input sp source_type s).1.
Proof.
  intros Hloop input sp source_type s Hs. unfold _split_and_dedup_docs.
  destruct sp as [f|f]; destruct (f input); try exact Hs; apply Hloop; exact Hs.
Qed.

Lemma and_then_invariant (P : state -> Prop) r k :
  P r.1 -> (forall s, P s -> P (k s).1) -> P (and_then r k).1.
Proof. destruct r as [s [e|]]; simpl; auto. Qed.

Section Invariant.
Variable P : state -> Prop.
Hypothesis P_loop : forall source_type chunks s, P s -> P (dedup_loop chunks source_type s).1.
Hypothesis P_logged : forall e s, (forall docs, e <> FromDocuments docs) -> P s -> P (logged e s).

Lemma web_loop_invariant docs ending s : P s -> P (web_loop docs ending s).1.
Proof.
  revert s. induction docs as [|doc rest IH]; intros s Hs; [exact Hs|].
  simpl. destruct (cleaned doc); [|exact Hs].
  apply and_then_invariant; [|exact IH].
  apply split_and_dedup_invariant; assumption.
Qed.

Lemma pdf_loop_invariant files s : P s -> P (pdf_loop files s).1.
Proof.
  revert s. induction files as [|file rest IH]; intros s Hs; [exact Hs|].
  simpl. destruct (bind _ _); [|exact Hs].
  apply and_then_invariant; [|exact IH].
  apply split_and_dedup_invariant; assumption.
Qed.

Lemma excel_loop_invariant files s : P s -> P (excel_loop files s).1.
Proof.
  revert s. induction files as [|file rest IH]; intros s Hs; [exact Hs|].
  simpl. destruct (excel_load file); [|exact Hs].
  apply and_then_invariant; [|exact IH].
  apply split_and_dedup_invariant; assumption.
Qed.

Lemma screener_try_invariant u s : P s -> P (screener_try u s).1.
Proof.
  intros Hs. unfold screener_try. destruct (bind _ _); [|exact Hs].
  apply split_and_dedup_invariant; assumption.
Qed.

Lemma screener_loop_invariant urls s : P s -> P (screener_loop urls s).
Proof.
  revert s. induction urls as [|u rest IH]; intros s Hs; [exact Hs|].
  simpl. pose proof (screener_try_invariant u s Hs) as Ht.
  destruct (screener_try u s) as [s' [e|]]; simpl in Ht; apply IH; [|exact Ht].
  apply P_logged; [discriminate|exact Ht].
Qed.

Lemma load_documents_invariant src : P initial -> P (load_documents src).1.
Proof.
  intros Hi. unfold load_documents. destruct (web_lazy_load _) as [docs ending].
  apply and_then_invariant.
  { apply web_loop_invariant, P_logged; [discriminate|exact Hi]. }
  intros s Hs. apply and_then_invariant.
  { apply pdf_loop_invariant, P_logged; [discriminate|exact Hs]. }
  intros s' Hs'. apply excel_loop_invariant, P_logged; [discriminate|exact Hs'].
Qed.

Lemma gather_invariant src : P initial -> P (gather src).1.
Proof.
  intros Hi. unfold gather. apply and_then_invariant.
  { apply load_documents_invariant. exact Hi. }
  intros s Hs. simpl. apply P_logged; [discriminate|].
  apply screener_loop_invariant, P_logged; [discriminate|exact Hs].
Qed.

End Invariant.

(** *** The chunk filter (C4) *)


Lemma too_poor_false (text : pystr) :
  too_poor text = false ->
  (20 <= length text)%nat /\ exists c, c ∈ text /\ isalnum c = true.
Proof.
  unfold too_poor. intros Hp. apply orb_false_iff in Hp. destruct Hp as [Hlen Hany].
  apply N.ltb_ge in Hlen. apply negb_false_iff in Hany.
  apply existsb_exists in Hany. destruct Hany as (c & Hin & Hc).
  split; [lia|]. exists c. split; [apply list_elem_of_In; exact Hin|exact Hc].
Qed.

Lemma dedup_loop_threshold source_type chunks s :
  Forall meets_threshold (all_chunks s) ->
  Forall meets_threshold (all_chunks (dedup_loop chunks source_type s).1).
Proof.
  revert chunks s.
  apply (dedup_loop_invariant (fun s => Forall meets_threshold (all_chunks s))).
  intros s chunk k Hs Hpoor _ _. simpl. apply Forall_app. split; [exact Hs|].
  constructor; [|constructor]. exact (too_poor_false _ Hpoor).
Qed.

Lemma all_chunks_finish s : all_chunks (finish s).1 = all_chunks s.
Proof.
  unfold finish. destruct (filter_complex_metadata (all_chunks s)); [reflexivity|].
  destruct (chroma_from_documents _); [|reflexivity].
  unfold _log_vectorstore_metadata. destruct (retriever_invoke _ _); reflexivity.
Qed.

Lemma all_chunks_generate src :
  all_chunks (generate_vectorstore src).1 = all_chunks (gather src).1.
Proof.
  unfold generate_vectorstore. destruct (gather src) as [s [e|]]; [reflexivity|].
  apply all_chunks_finish.
Qed.

(** C4: whatever the sources, loaders and splitters give, every chunk of
    the corpus that [generate_vectorstore] leaves has a stripped text of at
    least 20 characters with an alphanumeric one among them. *)
Theorem corpus_chunks_meet_threshold (src : Sources) :
  Forall meets_threshold (all_chunks (generate_vectorstore src).1).
Proof.
  rewrite all_chunks_generate.
  apply (gather_invariant (fun s => Forall meets_threshold (all_chunks s))).
  - intros. apply dedup_loop_threshold. assumption.
  - intros e s _ Hs. exact Hs.
  - constructor.
Qed.

(** The design document's example: the chunk is left out, the state is as
    before. *)
Example punctuation_chunk_is_dropped source_type s :
  dedup_loop [{| page_content := lit "!!! --- !!!"; metadata := [] |}] source_type s
  = (s, None).
Proof. reflexivity. Qed.

Example no_alphanumeric_chunk_is_dropped source_type s :
  dedup_loop [{| page_content := lit "--- === --- === --- === ---"; metadata := [] |}]
             source_type s
  = (s, None).
Proof. reflexivity. Qed.

(** *** The empty corpus (C7) *)


Lemma log_dedup_loop source_type chunks s :
  log (dedup_loop chunks source_type s).1 = log s.
Proof.
  revert chunks s. intros chunks s.
  apply (dedup_loop_invariant (fun s' => log s' = log s)); [|reflexivity].
  intros s' chunk k Hs' _ _ _. exact Hs'.
Qed.

Lemma never_built_logged e s :
  (forall docs, e <> FromDocuments docs) -> never_built s -> never_built (logged e s).
Proof.
  intros He Hs docs Hin. simpl in Hin. apply elem_of_app in Hin.
  destruct Hin as [Hin|Hin]; [exact (Hs docs Hin)|].
  apply list_elem_of_singleton in Hin. exact (He docs (eq_sym Hin)).
Qed.

Lemma gather_never_built src : never_built (gather src).1.
Proof.
  apply (gather_invariant never_built).
  - intros st chunks s Hs docs. rewrite log_dedup_loop. apply Hs.
  - exact never_built_logged.
  - intros docs Hin. simpl in Hin. inversion Hin.
Qed.

(** C7: when the gathering of the sources has ended and the filtered chunk
    list is empty, [generate_vectorstore] returns [None], and
    [Chroma.from_documents] has not been called. *)
Theorem empty_corpus_reports_no_data (src : Sources) (s : state) :
  gather src = (s, None) ->
  filter_complex_metadata (all_chunks s) = [] ->
  (generate_vectorstore src).2 = Ok None
  /\ never_built (generate_vectorstore src).1.
Proof.
  intros Hg Hf. pose proof (gather_never_built src) as Hn.
  unfold generate_vectorstore. rewrite Hg in *. simpl in Hn.
  unfold finish. rewrite Hf. simpl. split; [reflexivity|].
  repeat apply never_built_logged; try discriminate. exact Hn.
Qed.

(** The index is only ever built from a list that is not empty. *)
Lemma built_from_chunks (src : Sources) docs :
  FromDocuments docs ∈ log (generate_vectorstore src).1 ->
  docs <> [] /\ docs = filter_complex_metadata (all_chunks (gather src).1).
Proof.
  pose proof (gather_never_built src) as Hn.
  unfold generate_vectorstore. destruct (gather src) as [s [e|]]; simpl in *.
  { intros Hin. destruct (Hn docs Hin). }
  unfold finish. destruct (filter_complex_metadata (all_chunks s)) as [|d ds] eqn:Hf.
  { intros Hin. exfalso. revert Hin.
    repeat apply never_built_logged; try discriminate. exact Hn. }
  assert (Hend : forall e, (forall x, e <> FromDocuments x) ->
                           FromDocuments docs ∈ [e] -> False).
  { intros e He Hin. apply list_elem_of_singleton in Hin. exact (He _ (eq_sym Hin)). }
  destruct (chroma_from_documents (d :: ds)) as [v|e]; simpl;
    [unfold _log_vectorstore_metadata; destruct (retriever_invoke v _); simpl|];
    intros Hin;
    repeat (apply elem_of_app in Hin; destruct Hin as [Hin|Hin]);
    try (destruct (Hn docs Hin));
    try (exfalso; revert Hin; apply Hend; discriminate);
    apply list_elem_of_singleton in Hin; injection Hin as ->;
    (split; [discriminate|reflexivity]).
Qed.

(** *** Failures of single sources (C8) *)

Lemma prefix_of_app_r {A} (l1 l2 l3 : list A) :
  l1 `prefix_of` l2 -> l1 `prefix_of` (l2 ++ l3).
Proof. intros [k ->]. exists (k ++ l3). rewrite app_assoc. reflexivity. Qed.

Lemma dedup_loop_keeps_chunks s0 source_type chunks s :
  all_chunks s0 `prefix_of` all_chunks s ->
  all_chunks s0 `prefix_of` all_chunks (dedup_loop chunks source_type s).1.
Proof.
  revert chunks s.
  apply (dedup_loop_invariant (fun s => all_chunks s0 `prefix_of` all_chunks s)).
  intros s chunk k Hs _ _ _. simpl. apply prefix_of_app_r. exact Hs.
Qed.

Lemma screener_loop_keeps_chunks urls s :
  all_chunks s `prefix_of` all_chunks (screener_loop urls s).
Proof.
  apply (screener_loop_invariant (fun s' => all_chunks s `prefix_of` all_chunks s')).
  - intros. apply dedup_loop_keeps_chunks. assumption.
  - intros e s' _ Hs'. exact Hs'.
  - reflexivity.
Qed.

Lemma screener_loop_app urls1 urls2 s :
  screener_loop (urls1 ++ urls2) s = screener_loop urls2 (screener_loop urls1 s).
Proof.
  revert s. induction urls1 as [|u rest IH]; intros s; [reflexivity|].
  simpl. destruct (screener_try u s) as [s' [e|]]; apply IH.
Qed.

(** An exception anywhere in the body of the [try] is logged, and the loop
    goes on from the state the body left. *)
Lemma screener_loop_caught u rest s s' e :
  screener_try u s = (s', Some e) ->
  screener_loop (u :: rest) s = screener_loop rest (logged (LogScreenerFailed u e) s').
Proof. intros Ht. simpl. rewrite Ht. reflexivity. Qed.

(** C8, amended: a Screener URL whose extraction raises is logged and
    skipped: the loop goes on with the URLs after it from the very chunks
    gathered before it, and those are kept to the end. *)
Theorem screener_failure_is_skipped (urls_before urls_after : list pystr)
    (u : pystr) (s : state) (e : exn) :
  Fintastic.extract_all
    {| Fintastic.url := Some u; Fintastic.html := None; Fintastic.use_browser := false |}
  = Raise e ->
  let s1 := screener_loop urls_before s in
  screener_loop (urls_before ++ u :: urls_after) s
  = screener_loop urls_after (logged (LogScreenerFailed u e) s1)
  /\ all_chunks s `prefix_of` all_chunks s1
  /\ all_chunks s1 `prefix_of` all_chunks (screener_loop (urls_before ++ u :: urls_after) s).
Proof.
  intros He s1.
  assert (Hstep : screener_loop (urls_before ++ u :: urls_after) s
                  = screener_loop urls_after (logged (LogScreenerFailed u e) s1)).
  { rewrite screener_loop_app. fold s1. apply screener_loop_caught.
    unfold screener_try. rewrite He. reflexivity. }
  split; [exact Hstep|]. split; [apply screener_loop_keeps_chunks|].
  rewrite Hstep.
  apply (screener_loop_keeps_chunks urls_after (logged (LogScreenerFailed u e) s1)).
Qed.

(** The gathering ends normally whenever the three document loops do: the
    Screener loop cannot abort it. *)
Lemma gather_ends_after_documents (src : Sources) s0 :
  load_documents src = (s0, None) -> (gather src).2 = None.
Proof. intros Hl. unfold gather. rewrite Hl. reflexivity. Qed.

(** An exception of a web, PDF or spreadsheet loader is not caught. *)
Lemma gather_raises_with_documents (src : Sources) s0 e :
  load_documents src = (s0, Some e) -> generate_vectorstore src = (s0, Raise e).
Proof.
  intros Hl. unfold generate_vectorstore, gather. rewrite Hl. reflexivity.
Qed.

(** *** Deduplication (C5) *)

Lemma filter_none {A} (P : A -> Prop) `{forall x, Decision (P x)} (l : list A) :
  (forall x, x ∈ l -> ~ P x) -> filter P l = [].
Proof.
  induction l as [|x l IH]; intros Hl; [reflexivity|].
  rewrite filter_cons_False by (apply Hl; left).
  apply IH. intros y Hy. apply Hl. right. exact Hy.
Qed.





Lemma dict_set_lookup {V} (k : pystr) (v : V) (d : dict V) :
  dict_get k (dict_set k v d) = Some v.
Proof.
  induction d as [|[k0 v0] d IH]; simpl.
  - rewrite decide_True by reflexivity. reflexivity.
  - destruct (decide (k = k0)) as [->|Hne]; simpl.
    + rewrite decide_True by reflexivity. reflexivity.
    + rewrite decide_False by exact Hne. exact IH.
Qed.

Lemma dict_set_others {V} (k k' : pystr) (v : V) (d : dict V) :
  k' <> k -> dict_get k' (dict_set k v d) = dict_get k' d.
Proof.
  intros Hne. induction d as [|[k0 v0] d IH]; simpl.
  - rewrite decide_False by exact Hne. reflexivity.
  - destruct (decide (k = k0)) as [->|Hk]; simpl.
    + rewrite !decide_False by exact Hne. reflexivity.
    + destruct (decide (k' = k0)); [reflexivity|exact IH].
Qed.

(** The chunk as it is appended has the source type of the call under
    [source_type], and its other metadata as the splitter gave it. *)
Lemma tagged_source_type (source_type : pystr) (chunk : Document) :
  dict_get (lit "source_type") (metadata (tagged source_type chunk))
  = Some (VStr source_type).
Proof. apply dict_set_lookup. Qed.

Lemma tagged_other_keys (source_type key : pystr) (chunk : Document) :
  key <> lit "source_type" ->
  dict_get key (metadata (tagged source_type chunk)) = dict_get key (metadata chunk).
Proof. intros Hkey. apply dict_set_others. exact Hkey. Qed.



Lemma dedup_loop_distinct source_type chunks s :
  distinct_texts s -> distinct_texts (dedup_loop chunks source_type s).1.
Proof.
  revert chunks s. apply (dedup_loop_invariant distinct_texts).
  intros s c k [Hrec Hnd] _ Hk Hnew. split.
  - intros d k' Hd Hk'. simpl in *. apply elem_of_app in Hd. destruct Hd as [Hd|Hd].
    + apply elem_of_union_r. exact (Hrec d k' Hd Hk').
    + apply list_elem_of_singleton in Hd. subst d. simpl in Hk'.
      rewrite Hk in Hk'. injection Hk' as <-.
      apply elem_of_union_l, elem_of_singleton. reflexivity.
  - simpl. rewrite map_app. simpl. apply NoDup_app. split; [exact Hnd|].
    split; [|apply NoDup_singleton].
    intros t Ht Ht'. apply list_elem_of_singleton in Ht'. subst t.
    apply list_elem_of_fmap in Ht. destruct Ht as (d & Hd & Hin).
    apply Hnew, (Hrec d k Hin). rewrite <- Hd. exact Hk.
Qed.

Lemma corpus_texts_distinct (src : Sources) :
  NoDup (map (fun d => strip (page_content d)) (all_chunks (generate_vectorstore src).1)).
Proof.
  rewrite all_chunks_generate.
  apply (gather_invariant distinct_texts).
  - intros. apply dedup_loop_distinct. assumption.
  - intros e s _ Hs. exact Hs.
  - split; [intros d k Hd; inversion Hd|constructor].
Qed.

End Run.

(** *** The statements above on the sample run *)

Section SampleRun.
Import Sample.
#[local] Existing Instance ascii_only.
#[local] Existing Instance one_page.
#[local] Existing Instance one_site.
#[local] Existing Instance stand_ins.


Lemma empty_corpus_reports_no_data_witness :
  gather only_failing = ((gather only_failing).1, None)
  /\ filter_complex_metadata (all_chunks (gather only_failing).1) = []
  /\ (generate_vectorstore only_failing).2 = Ok None
  /\ never_built (generate_vectorstore only_failing).1.
Proof.
  assert (H1 : gather only_failing = ((gather only_failing).1, None)) by reflexivity.
  assert (H2 : filter_complex_metadata (all_chunks (gather only_failing).1) = [])
    by reflexivity.
  split; [exact H1|]. split; [exact H2|].
  exact (empty_corpus_reports_no_data only_failing _ H1 H2).
Defined.

(** C8, counterexample: a PDF that cannot be loaded ends the whole run with
    the loader's exception; the Screener URL configured after it is never
    visited and the corpus stays empty. *)
Lemma pdf_failure_aborts_run :
  (generate_vectorstore with_pdf).2 = Raise (External (lit "cannot open file"))
  /\ all_chunks (generate_vectorstore with_pdf).1 = []
  /\ log (generate_vectorstore with_pdf).1
     = [LogInfo "Loading documents from web..." []; LogInfo "Loading PDF documents..." []].
Proof. repeat split. Qed.

Lemma screener_failure_is_skipped_witness :
  Fintastic.extract_all
    {| Fintastic.url := Some bad_url; Fintastic.html := None;
       Fintastic.use_browser := false |}
  = Raise (External (lit "404 Client Error"))
  /\ (let s1 := screener_loop [good_url] initial in
      screener_loop ([good_url] ++ bad_url :: [good_url]) initial
      = screener_loop [good_url]
          (logged (LogScreenerFailed bad_url (External (lit "404 Client Error"))) s1)
      /\ all_chunks initial `prefix_of` all_chunks s1
      /\ all_chunks s1
         `prefix_of` all_chunks (screener_loop ([good_url] ++ bad_url :: [good_url]) initial)).
Proof.
  split; [reflexivity|].
  apply (screener_failure_is_skipped [good_url] [good_url] bad_url initial). reflexivity.
Defined.

(** The run over a failing and a good URL gathers the three chunks of the
    good page and logs the failure. *)
Example failing_then_good_run :
  map page_content (all_chunks (generate_vectorstore failing_then_good).1)
  = [lit "company_name: ACME Industries Limited";
     lit "Profit & Loss: Year: 2023 Sales: 100 Year: 2024";
     lit "documents: announcements: ? annual_reports: ? concalls: ?"]
  /\ LogScreenerFailed bad_url (External (lit "404 Client Error"))
     ∈ log (generate_vectorstore failing_then_good).1
  /\ (generate_vectorstore failing_then_good).2 = Ok (Some tt).
Proof.
  split; [vm_compute; reflexivity|]. split; [|vm_compute; reflexivity].
  vm_compute. do 4 right. left.
Qed.




(** The design document's end-to-end example: three chunks from the web and
    two from a PDF, one of which repeats a web chunk, make a corpus of
    four, each with the source type it came in with first. *)
Example end_to_end_four_chunks :
  let web := [doc_of "Revenue grew 12% in FY2023."; doc_of "Margins were stable at 9%.";
              doc_of "The board met on 4 May 2023."] in
  let pdf := [doc_of " Revenue grew 12% in FY2023. "; doc_of "Net debt fell by a third."] in
  map (fun d => (page_content d, dict_get (lit "source_type") (metadata d)))
      (all_chunks (dedup_loop pdf (lit "pdf") (dedup_loop web (lit "web") initial).1).1)
  = [(lit "Revenue grew 12% in FY2023.", Some (VStr (lit "web")));
     (lit "Margins were stable at 9%.", Some (VStr (lit "web")));
     (lit "The board met on 4 May 2023.", Some (VStr (lit "web")));
     (lit "Net debt fell by a third.", Some (VStr (lit "pdf")))].
Proof. vm_compute. reflexivity. Qed.

End SampleRun.

End VecStoreFacts.

(** ** The flattening of a scraped record *)

Module FlattenFacts.
Import Py Record_ Bs4 Web Normalizer NormalizerFacts FinVecStore.

Section Flatten.
Context {tag handle : Type} `{UnicodeData} `{Soup tag} `{Network} `{Libraries tag handle}.




End Flatten.

Section SampleRecord.
Import Sample.
#[local] Existing Instance ascii_only.
#[local] Existing Instance one_page.
#[local] Existing Instance one_site.
#[local] Existing Instance stand_ins.



End SampleRecord.
End FlattenFacts.

(** ** The extractors: tables, concall links, missing nodes *)

Module ExtractorFacts.
Import Py Record_ Bs4 Web.

(** *** Dictionaries *)

Lemma dict_get_set_eq {V} (k : pystr) (v : V) (d : dict V) :
  dict_get k (dict_set k v d) = Some v.
Proof.
  induction d as [|[k' v'] d IH]; simpl.
  - rewrite decide_True by reflexivity. reflexivity.
  - destruct (decide (k = k')) as [->|Hne]; simpl.
    + rewrite decide_True by reflexivity. reflexivity.
    + rewrite decide_False by exact Hne. exact IH.
Qed.

Lemma dict_get_set_ne {V} (k k' : pystr) (v : V) (d : dict V) :
  k <> k' -> dict_get k' (dict_set k v d) = dict_get k' d.
Proof.
  intros Hne. induction d as [|[k0 v0] d IH]; simpl.
  - rewrite decide_False by congruence. reflexivity.
  - destruct (decide (k = k0)) as [->|Hk]; simpl.
    + rewrite !decide_False by congruence. reflexivity.
    + destruct (decide (k' = k0)); [reflexivity|exact IH].
Qed.

(** A loop that stores a value under a key for some of its items leaves,
    under each key, the value of the last item that has that key. *)
Lemma last_assignment_wins {T} (key : T -> option pystr) (val : T -> value)
    (before after : list T) (t : T) (k : pystr) (data : dict value) :
  key t = Some k ->
  (forall t', t' ∈ after -> key t' <> Some k) ->
  dict_get k
    (foldl (fun data t =>
              match key t with
              | Some k => dict_set k (val t) data
              | None => data
              end) data (before ++ t :: after))
  = Some (val t).
Proof.
  intros Hk Hafter. rewrite foldl_app. simpl. rewrite Hk.
  generalize (foldl (fun data t => match key t with
                                   | Some k => dict_set k (val t) data
                                   | None => data
                                   end) data before).
  intros d. assert (Hd : dict_get k (dict_set k (val t) d) = Some (val t))
    by apply dict_get_set_eq.
  revert Hd. generalize (dict_set k (val t) d). clear d.
  induction after as [|t' rest IH]; intros d Hd; [exact Hd|].
  simpl. apply IH.
  - intros x Hx. apply Hafter. right. exact Hx.
  - destruct (key t') as [k'|] eqn:Hk'; [|exact Hd].
    rewrite dict_get_set_ne; [exact Hd|].
    intros ->. apply (Hafter t'); [left|exact Hk'].
Qed.

Lemma dict_of_distinct {V} (pairs : list (pystr * V)) :
  NoDup (map fst pairs) -> dict_of pairs = pairs.
Proof.
  unfold dict_of. intros Hnd.
  assert (Hgen : forall acc, NoDup (map fst (acc ++ pairs)) ->
                 foldl (fun d kv => dict_set kv.1 kv.2 d) acc pairs = acc ++ pairs).
  { clear Hnd. induction pairs as [|[k v] rest IH]; intros acc Hnd.
    - simpl. rewrite app_nil_r. reflexivity.
    - simpl.
      assert (Hset : dict_set k v acc = acc ++ [(k, v)]).
      { rewrite map_app in Hnd. apply NoDup_app in Hnd. destruct Hnd as (_ & Hdis & _).
        assert (Hk : k ∉ map fst acc).
        { intros Hin. apply (Hdis k Hin). left. }
        clear -Hk. induction acc as [|[k0 v0] acc IH]; [reflexivity|].
        simpl in *. rewrite decide_False.
        - rewrite IH; [reflexivity|]. intros Hin. apply Hk. right. exact Hin.
        - intros ->. apply Hk. left. }
      rewrite Hset, IH; rewrite <- app_assoc; [reflexivity|exact Hnd]. }
  apply (Hgen []). exact Hnd.
Qed.

Lemma dict_of_last {V} (before after : list (pystr * V)) (k : pystr) (v : V) :
  (forall kv, kv ∈ after -> kv.1 <> k) ->
  dict_get k (dict_of (before ++ (k, v) :: after)) = Some v.
Proof.
  intros Hafter. unfold dict_of. rewrite foldl_app. simpl.
  generalize (dict_get_set_eq k v (foldl (fun d kv => dict_set kv.1 kv.2 d) [] before)).
  generalize (dict_set k v (foldl (fun d kv => dict_set kv.1 kv.2 d) [] before)).
  induction after as [|[k' v'] after IH]; intros d Hd; [exact Hd|].
  simpl. apply IH.
  - intros kv Hin. apply Hafter. right. exact Hin.
  - rewrite dict_get_set_ne; [exact Hd|]. apply (Hafter (k', v')). left.
Qed.

Lemma dict_of_absent {V} (pairs : list (pystr * V)) (k : pystr) :
  (forall kv, kv ∈ pairs -> kv.1 <> k) -> dict_get k (dict_of pairs) = None.
Proof.
  unfold dict_of. generalize (eq_refl : dict_get k (@nil (pystr * V)) = None).
  generalize (@nil (pystr * V)).
  induction pairs as [|[k' v'] rest IH]; intros acc Hacc Hk; [exact Hacc|].
  simpl. apply IH.
  - rewrite dict_get_set_ne; [exact Hacc|]. apply (Hk (k', v')). left.
  - intros kv Hin. apply Hk. right. exact Hin.
Qed.

(** *** Rows as [dict(zip(headers, cells))] makes them *)

Lemma dict_zip_present (headers cells : list pystr) (i : nat) (h c : pystr) :
  headers !! i = Some h ->
  cells !! i = Some c ->
  (forall j, (i < j)%nat -> (j < length cells)%nat -> headers !! j <> Some h) ->
  dict_get h (dict_zip headers cells) = Some (VStr c).
Proof.
  intros Hh Hc Hlast. unfold dict_zip.
  assert (Hz : zip headers (map VStr cells) !! i = Some (h, VStr c)).
  { apply lookup_zip_with_Some. exists h, (VStr c). split; [reflexivity|].
    split; [exact Hh|]. rewrite list_lookup_fmap, Hc. reflexivity. }
  rewrite <- (take_drop_middle _ _ _ Hz). apply dict_of_last.
  intros [k v] Hin Hk. simpl in Hk. subst k.
  apply list_elem_of_lookup in Hin. destruct Hin as [j Hj].
  rewrite lookup_drop in Hj. apply lookup_zip_with_Some in Hj.
  destruct Hj as (h' & v' & [= <- <-] & Hh' & Hv').
  apply (Hlast (S i + j)%nat); [lia| |exact Hh'].
  apply lookup_lt_Some in Hv'. rewrite length_fmap in Hv'. exact Hv'.
Qed.

Lemma dict_zip_absent (headers cells : list pystr) (h : pystr) :
  (forall i, (i < length cells)%nat -> headers !! i <> Some h) ->
  dict_get h (dict_zip headers cells) = None.
Proof.
  intros Hnone. unfold dict_zip. apply dict_of_absent.
  intros [k v] Hin Hk. simpl in Hk. subst k.
  apply list_elem_of_lookup in Hin. destruct Hin as [i Hi].
  apply lookup_zip_with_Some in Hi.
  destruct Hi as (h' & v' & [= <- <-] & Hh' & Hv').
  apply (Hnone i); [|exact Hh'].
  apply lookup_lt_Some in Hv'. rewrite length_fmap in Hv'. exact Hv'.
Qed.

(** Distinct headers zip to the pairs of header and cell, as many as the
    shorter of the two lists has. *)
Lemma dict_zip_distinct (headers cells : list pystr) :
  NoDup headers -> dict_zip headers cells = zip headers (map VStr cells).
Proof.
  intros Hnd. unfold dict_zip. apply dict_of_distinct.
  revert cells. induction Hnd as [|h hs Hh Hnd IH]; intros [|c cs]; simpl;
    try constructor.
  - intros Hin. apply Hh. apply list_elem_of_fmap in Hin.
    destruct Hin as ([h' v] & -> & Hin). simpl.
    apply elem_of_zip_l in Hin. exact Hin.
  - apply IH.
Qed.

Lemma dict_zip_zipped (headers cells : list pystr) :
  Shapes.zipped headers cells (VDict (dict_zip headers cells)).
Proof.
  exists (dict_zip headers cells). split; [reflexivity|]. split; [|split].
  - intros i h c. apply dict_zip_present.
  - intros h. apply dict_zip_absent.
  - apply dict_zip_distinct.
Qed.

Section Page.
Context {tag : Type} `{Soup tag}.
Import Fintastic.

(** *** Data tables (C6) *)

Lemma extract_tables_assigns (tables : list tag) (data : dict value) :
  foldl extract_table data tables
  = foldl (fun data t =>
             match table_key t with
             | Some k => dict_set k (VList (table_rows t)) data
             | None => data
             end) data tables.
Proof.
  revert data. induction tables as [|t rest IH]; intros data; [reflexivity|].
  simpl. rewrite IH. unfold extract_table, table_key.
  destruct (find_previous t _); reflexivity.
Qed.

Lemma table_without_heading_skipped (table : tag) (data : dict value) :
  table_key table = None -> extract_table data table = data.
Proof.
  unfold table_key, extract_table. destruct (find_previous table _); [discriminate|].
  reflexivity.
Qed.

Lemma table_rows_zip (table : tag) :
  table_rows table
  = map (fun tr => VDict (dict_zip (table_headers table) (row_cells tr)))
        (filter (fun tr => row_cells tr <> []) (drop 1 (find_all table (by_name (lit "tr"))))).
Proof.
  unfold table_rows. induction (drop 1 (find_all table (by_name (lit "tr")))) as [|tr rest IH];
    [reflexivity|].
  simpl. rewrite filter_cons. destruct (row_cells tr) as [|c cs] eqn:Hc.
  - rewrite decide_False by (intros Hne; apply Hne; reflexivity). exact IH.
  - rewrite decide_True by discriminate. simpl. rewrite Hc. f_equal. exact IH.
Qed.

Lemma extract_shareholding_other (soup : tag) (k : pystr) (data : dict value) :
  k <> lit "Shareholding Pattern" ->
  dict_get k (extract_shareholding_pattern soup data) = dict_get k data.
Proof.
  intros Hk. unfold extract_shareholding_pattern.
  destruct (find soup _) as [header|]; [|reflexivity].
  destruct (find_next_sibling header _); [|reflexivity].
  apply dict_get_set_ne. congruence.
Qed.

Lemma extract_documents_other (soup : tag) (k : pystr) (data data' : dict value) :
  k <> lit "documents" ->
  extract_documents_links soup data = Ok data' ->
  dict_get k data' = dict_get k data.
Proof.
  intros Hk. unfold extract_documents_links.
  destruct (annual_reports_of soup); [|discriminate]. simpl.
  intros E. injection E as <-. apply dict_get_set_ne. congruence.
Qed.

Lemma table_rows_zipped (table : tag) :
  Forall2 (fun tr row => Shapes.zipped (table_headers table) (row_cells tr) row)
          (filter (fun tr => row_cells tr <> [])
                  (drop 1 (find_all table (by_name (lit "tr")))))
          (table_rows table).
Proof.
  rewrite table_rows_zip. apply Forall2_fmap_r, Forall2_same_length_lookup_2; [reflexivity|].
  intros i tr tr' Htr Htr'. rewrite Htr in Htr'. injection Htr' as <-.
  apply dict_zip_zipped.
Qed.

Lemma extract_tables_other (tables : list tag) (k : pystr) (data : dict value) :
  (forall t, t ∈ tables -> table_key t <> Some k) ->
  dict_get k (foldl extract_table data tables) = dict_get k data.
Proof.
  revert data. induction tables as [|t rest IH]; intros data Hk; [reflexivity|].
  simpl. rewrite IH by (intros t' Ht'; apply Hk; right; exact Ht').
  assert (Ht : table_key t <> Some k) by (apply Hk; left).
  unfold extract_table. unfold table_key in Ht.
  destruct (find_previous t _); [|reflexivity].
  apply dict_get_set_ne. congruence.
Qed.

(** The tables without a heading before them leave no trace in the record. *)
Lemma extract_tables_headed (tables : list tag) (data : dict value) :
  foldl extract_table data tables
  = foldl extract_table data (filter (fun t => is_Some (table_key t)) tables).
Proof.
  revert data. induction tables as [|t rest IH]; intros data; [reflexivity|].
  rewrite filter_cons. simpl. destruct (decide (is_Some (table_key t))) as [Hs|Hn].
  - simpl. apply IH.
  - rewrite table_without_heading_skipped; [apply IH|].
    destruct (table_key t); [destruct Hn; eexists; reflexivity|reflexivity].
Qed.

(** C6, amended: a data table with a heading before it, after which no
    other data table has a heading of the same text, is stored in the record
    under that text, unless the text is one of the two keys that later steps
    assign.  Its rows are made, in order, of the table rows after the first
    that have cells: in each, a header gives the cell at its position (the
    last such position, for a header that is repeated), a header with no cell
    at its position is no key, and with distinct headers the row is the list
    of the pairs of header and cell.  The data tables without a heading
    before them are not stored: the tables are extracted as if they were not
    on the page, and a key that is the heading text of no data table is left
    as it was. *)
Theorem data_table_is_stored (soup : tag) (tables_before tables_after : list tag)
    (table : tag) (k : pystr) (data : dict value) :
  data_tables soup = tables_before ++ table :: tables_after ->
  table_key table = Some k ->
  (forall t, t ∈ tables_after -> table_key t <> Some k) ->
  k <> lit "Shareholding Pattern" ->
  k <> lit "documents" ->
  extract_from soup = Ok data ->
  (exists rows,
     dict_get k data = Some (VList rows)
     /\ Forall2 (fun tr row => Shapes.zipped (table_headers table) (row_cells tr) row)
                (filter (fun tr => row_cells tr <> [])
                        (drop 1 (find_all table (by_name (lit "tr")))))
                rows)
  /\ (forall data0,
        extract_tables soup data0
        = foldl extract_table data0
            (filter (fun t => is_Some (table_key t)) (data_tables soup)))
  /\ (forall data0 k',
        (forall t, t ∈ data_tables soup -> table_key t <> Some k') ->
        dict_get k' (extract_tables soup data0) = dict_get k' data0).
Proof.
  intros Htables Hkey Hafter Hsp Hdoc Hdata.
  split; [|split; [intros data0; apply extract_tables_headed
                  |intros data0 k' Hk'; apply extract_tables_other; exact Hk']].
  exists (table_rows table). split; [|apply table_rows_zipped].
  unfold extract_from in Hdata.
  rewrite (extract_documents_other soup k _ data Hdoc Hdata).
  rewrite (extract_shareholding_other soup k _ Hsp).
  unfold extract_tables. rewrite Htables, extract_tables_assigns.
  apply (last_assignment_wins table_key (fun t => VList (table_rows t))); assumption.
Qed.

(** The same for the extractor of [fin_data_extractor.py], whose headings
    are the second-level ones only. *)
Lemma static_data_table_is_stored (soup : tag) (tables_before tables_after : list tag)
    (table : tag) (k : pystr) (data : dict value) :
  data_tables soup = tables_before ++ table :: tables_after ->
  FinDataExtractorStatic.table_key table = Some k ->
  (forall t, t ∈ tables_after -> FinDataExtractorStatic.table_key t <> Some k) ->
  k <> lit "Shareholding Pattern" ->
  k <> lit "documents" ->
  FinDataExtractorStatic.extract_from soup = Ok data ->
  dict_get k data = Some (VList (table_rows table)).
Proof.
  intros Htables Hkey Hafter Hsp Hdoc.
  unfold FinDataExtractorStatic.extract_from.
  destruct (FinDataExtractorStatic.extract_company_name soup []) as [d0|e];
    [|discriminate].
  simpl. intros E. injection E as <-.
  unfold FinDataExtractorStatic.extract_documents_links.
  rewrite dict_get_set_ne by congruence.
  unfold FinDataExtractorStatic.extract_shareholding_pattern.
  rewrite (extract_shareholding_other soup k _ Hsp).
  unfold FinDataExtractorStatic.extract_tables. rewrite Htables.
  assert (Hstep : forall tables d,
             foldl FinDataExtractorStatic.extract_table d tables
             = foldl (fun data t =>
                        match FinDataExtractorStatic.table_key t with
                        | Some k => dict_set k (VList (table_rows t)) data
                        | None => data
                        end) d tables).
  { induction tables as [|t rest IH]; intros d; [reflexivity|].
    simpl. rewrite IH.
    unfold FinDataExtractorStatic.extract_table, FinDataExtractorStatic.table_key.
    destruct (find_previous t _); reflexivity. }
  rewrite Hstep.
  apply (last_assignment_wins FinDataExtractorStatic.table_key
           (fun t => VList (table_rows t))); assumption.
Qed.

(** *** Concall buttons (C9) *)

Lemma button_entry_listed (li button : tag) (label modal_url : pystr) :
  button ∈ find_all li (by_class (lit "button") (lit "concall-link")) ->
  stripped_text button (lit " ") = label -> label <> [] ->
  get button (lit "data-url") = Some modal_url -> modal_url <> [] ->
  link_entry label (SCREENER_ORIGIN ++ modal_url) ∈ button_entries li.
Proof.
  intros Hin Hlabel Hne Hurl Hune. unfold button_entries.
  apply list_elem_of_omap. exists button. split; [exact Hin|].
  rewrite Hlabel, Hurl.
  destruct label as [|c l]; [contradiction|].
  destruct modal_url as [|u us]; [contradiction|]. reflexivity.
Qed.

(** C9: a button of class concall-link in a concall item, with a label and
    a data-url that are not empty, gives, in the record of the page, a link
    of that item: a mapping with the label under the key type and, under the
    key url, the site origin followed by the data-url. *)
Theorem concall_button_url (soup li button : tag) (label modal_url : pystr)
    (data : dict value) :
  li ∈ concall_items soup ->
  button ∈ find_all li (by_class (lit "button") (lit "concall-link")) ->
  stripped_text button (lit " ") = label -> label <> [] ->
  get button (lit "data-url") = Some modal_url -> modal_url <> [] ->
  extract_from soup = Ok data ->
  exists announcements annual_reports concalls date links,
    dict_get (lit "documents") data
    = Some (VDict [(lit "announcements", announcements);
                   (lit "annual_reports", annual_reports);
                   (lit "concalls", VList concalls)])
    /\ VDict [(lit "date", VStr date); (lit "links", VList links)] ∈ concalls
    /\ VDict [(lit "type", VStr label);
              (lit "url", VStr (lit "https://www.screener.in" ++ modal_url))] ∈ links.
Proof.
  intros Hli Hbutton Hlabel Hne Hurl Hune Hdata.
  pose proof (button_entry_listed li button label modal_url Hbutton Hlabel Hne Hurl Hune)
    as Hentry.
  unfold extract_from, extract_documents_links in Hdata.
  destruct (annual_reports_of soup) as [annual|e]; [|discriminate]. simpl in Hdata.
  injection Hdata as <-.
  destruct (anchor_entries li ++ button_entries li) as [|e0 es] eqn:Hentries.
  { exfalso. assert (Hin : link_entry label (SCREENER_ORIGIN ++ modal_url)
                           ∈ anchor_entries li ++ button_entries li)
      by (apply elem_of_app; right; exact Hentry).
    rewrite Hentries in Hin. inversion Hin. }
  eexists _, _, (concalls_of soup), _, (e0 :: es).
  split; [apply dict_get_set_eq|]. split.
  - unfold concalls_of. apply list_elem_of_omap. exists li. split; [exact Hli|].
    unfold concall_of. rewrite Hentries. reflexivity.
  - rewrite <- Hentries. apply elem_of_app. right. exact Hentry.
Qed.

(** *** Which pages the extractors raise on (C3) *)

(** The extractor of [fintastic.py] raises only where the first child of an
    annual-report link is taken. *)
Lemma extract_from_returns (soup : tag) :
  returns (annual_reports_of soup) -> returns (extract_from soup).
Proof.
  intros [reports Hr]. unfold extract_from, extract_documents_links.
  rewrite Hr. simpl. eexists. reflexivity.
Qed.

(** The extractor of [fin_data_extractor.py] raises exactly on the pages
    without a first-level heading. *)
Lemma static_extract_from_raises (soup : tag) :
  FinDataExtractorStatic.extract_from soup = Raise AttributeError
  <-> select_one soup (Sel (tag_ "h1")) = None.
Proof.
  unfold FinDataExtractorStatic.extract_from, FinDataExtractorStatic.extract_company_name.
  destruct (select_one soup _); simpl; split; intros E; try discriminate; reflexivity.
Qed.

End Page.


(** *** The statements above on the sample pages *)

Section SamplePages.
Import Sample Fintastic.
#[local] Existing Instance one_page.

(** The design document's table: one header row, a full row, a short row
    and a row without cells. *)
Example year_sales_rows :
  table_rows (at_ company_page [2%nat])
  = [VDict [(lit "Year", VStr (lit "2023")); (lit "Sales", VStr (lit "100"))];
     VDict [(lit "Year", VStr (lit "2024"))]].
Proof. vm_compute. reflexivity. Qed.

Lemma data_table_is_stored_witness :
  data_tables (Html.document company_page) = [] ++ at_ company_page [2%nat] :: []
  /\ table_key (at_ company_page [2%nat]) = Some (lit "Profit & Loss")
  /\ returns (extract_from (Html.document company_page))
  /\ forall data,
       extract_from (Html.document company_page) = Ok data ->
       (exists rows,
          dict_get (lit "Profit & Loss") data = Some (VList rows)
          /\ Forall2 (fun tr row =>
                        Shapes.zipped (table_headers (at_ company_page [2%nat]))
                                      (row_cells tr) row)
                     (filter (fun tr => row_cells tr <> [])
                             (drop 1 (find_all (at_ company_page [2%nat])
                                               (by_name (lit "tr")))))
                     rows)
       /\ (forall data0,
             extract_tables (Html.document company_page) data0
             = foldl extract_table data0
                 (filter (fun t => is_Some (table_key t))
                         (data_tables (Html.document company_page))))
       /\ (forall data0 k',
             (forall t, t ∈ data_tables (Html.document company_page) ->
                        table_key t <> Some k') ->
             dict_get k' (extract_tables (Html.document company_page) data0)
             = dict_get k' data0).
Proof.
  split; [vm_compute; reflexivity|]. split; [vm_compute; reflexivity|].
  split; [eexists; vm_compute; reflexivity|].
  intros data.
  apply (data_table_is_stored (Html.document company_page) [] []
           (at_ company_page [2%nat]) (lit "Profit & Loss") data).
  - vm_compute. reflexivity.
  - vm_compute. reflexivity.
  - intros t Ht. inversion Ht.
  - discriminate.
  - discriminate.
Defined.

(** C6, counterexample: of two data tables under one heading the record
    keeps the rows of the second only, and a data table with no heading
    before it is not stored at all. *)
Lemma earlier_table_is_overwritten :
  data_tables (Html.document two_tables_page)
  = [at_ two_tables_page [0%nat]; at_ two_tables_page [2%nat]; at_ two_tables_page [3%nat]]
  /\ table_key (at_ two_tables_page [0%nat]) = None
  /\ table_key (at_ two_tables_page [2%nat]) = Some (lit "Quarterly Results")
  /\ table_rows (at_ two_tables_page [2%nat])
     = [VDict [(lit "Year", VStr (lit "2023")); (lit "Sales", VStr (lit "100"))]]
  /\ extract_tables (Html.document two_tables_page) []
     = [(lit "Quarterly Results",
         VList [VDict [(lit "Year", VStr (lit "2023")); (lit "Profit", VStr (lit "7"))]])]
  /\ (exists data,
        extract_from (Html.document two_tables_page) = Ok data
        /\ dict_get (lit "Quarterly Results") data
           <> Some (VList (table_rows (at_ two_tables_page [2%nat])))).
Proof.
  repeat split; try (vm_compute; reflexivity).
  eexists. split; [vm_compute; reflexivity|]. vm_compute. discriminate.
Qed.

Lemma concall_button_url_witness :
  at_ company_page [3; 0; 0]%nat ∈ concall_items (Html.document company_page)
  /\ at_ company_page [3; 0; 0; 2]%nat
     ∈ find_all (at_ company_page [3; 0; 0]%nat) (by_class (lit "button") (lit "concall-link"))
  /\ stripped_text (at_ company_page [3; 0; 0; 2]%nat) (lit " ") = lit "Notes"
  /\ get (at_ company_page [3; 0; 0; 2]%nat) (lit "data-url") = Some (lit "/concall/123")
  /\ returns (extract_from (Html.document company_page))
  /\ forall data,
       extract_from (Html.document company_page) = Ok data ->
       exists announcements annual_reports concalls date links,
         dict_get (lit "documents") data
         = Some (VDict [(lit "announcements", announcements);
                        (lit "annual_reports", annual_reports);
                        (lit "concalls", VList concalls)])
         /\ VDict [(lit "date", VStr date); (lit "links", VList links)] ∈ concalls
         /\ VDict [(lit "type", VStr (lit "Notes"));
                   (lit "url", VStr (lit "https://www.screener.in" ++ lit "/concall/123"))]
            ∈ links.
Proof.
  assert (H1 : at_ company_page [3; 0; 0]%nat ∈ concall_items (Html.document company_page))
    by (vm_compute; left).
  assert (H2 : at_ company_page [3; 0; 0; 2]%nat
               ∈ find_all (at_ company_page [3; 0; 0]%nat)
                   (by_class (lit "button") (lit "concall-link")))
    by (vm_compute; left).
  split; [exact H1|]. split; [exact H2|]. split; [vm_compute; reflexivity|].
  split; [vm_compute; reflexivity|]. split; [eexists; vm_compute; reflexivity|].
  intros data.
  apply (concall_button_url (Html.document company_page) _ _ (lit "Notes")
           (lit "/concall/123") data H1 H2); try discriminate; vm_compute; reflexivity.
Defined.

(** The design document's example of a button URL. *)
Example concall_button_example :
  button_entries (at_ company_page [3; 0; 0]%nat)
  = [link_entry (lit "Notes") (lit "https://www.screener.in/concall/123")].
Proof. vm_compute. reflexivity. Qed.

(** C3: on a page without a first-level heading the extractor of
    [fin_data_extractor.py] raises [AttributeError], where that of
    [fintastic.py] leaves the company name out. *)
Lemma static_extractor_raises_without_heading :
  FinDataExtractorStatic.extract_from (Html.document no_heading_page) = Raise AttributeError
  /\ extract_from (Html.document no_heading_page)
     = Ok [(lit "company_info", VDict []); (lit "pros", VList []); (lit "cons", VList []);
           (lit "documents",
            VDict [(lit "announcements", VList []); (lit "annual_reports", VList []);
                   (lit "concalls", VList [])])].
Proof. split; vm_compute; reflexivity. Qed.

(** On a page whose annual-report link has no children, taking the first
    child raises [IndexError] in [fintastic.py]. *)
Lemma empty_anchor_raises :
  extract_from (Html.document empty_anchor_page) = Raise IndexError.
Proof. vm_compute. reflexivity. Qed.

End SamplePages.

End ExtractorFacts.

Module CorpusFacts.
Import Py Record_ Bs4 Web Normalizer FinVecStore Observations VecStoreFacts.

Section Run.
Context {tag handle : Type} `{UnicodeData} `{Soup tag} `{Network} `{Libraries tag handle}.

(** *** What one call of the chunk loop does to the state *)

Lemma dedup_loop_appends source_type chunks s :
  exists kept,
    kept `sublist_of` chunks
    /\ all_chunks (dedup_loop chunks source_type s).1
       = all_chunks s ++ map (tagged source_type) kept
    /\ Forall (fun c => too_poor (strip (page_content c)) = false) kept.
Proof.
  revert s. induction chunks as [|chunk rest IH]; intros s.
  { exists []. split; [constructor|]. split; [symmetry; apply app_nil_r|constructor]. }
  simpl. destruct (too_poor _) eqn:Hpoor.
  { destruct (IH s) as (kept & Hsub & Heq & Hall). exists kept.
    split; [apply sublist_cons, Hsub|]. split; assumption. }
  destruct (_get_content_hash _) as [k|e].
  2:{ exists []. split; [apply sublist_nil_l|].
      split; [symmetry; apply app_nil_r|constructor]. }
  destruct (_already_exists _ _).
  { destruct (IH s) as (kept & Hsub & Heq & Hall). exists kept.
    split; [apply sublist_cons, Hsub|]. split; assumption. }
  destruct (IH (append_chunk k source_type chunk s)) as (kept & Hsub & Heq & Hall).
  exists (chunk :: kept). split; [apply sublist_skip, Hsub|].
  split; [|constructor; assumption].
  rewrite Heq. simpl. rewrite <- app_assoc. reflexivity.
Qed.

Lemma seen_dedup_loop source_type chunks s :
  seen_hashes s ⊆ seen_hashes (dedup_loop chunks source_type s).1.
Proof.
  revert s. induction chunks as [|chunk rest IH]; intros s; [reflexivity|].
  simpl. destruct (too_poor _); [apply IH|].
  destruct (_get_content_hash _) as [k|e]; [|reflexivity].
  destruct (_already_exists _ _); [apply IH|].
  etransitivity; [|apply IH]. simpl. apply union_subseteq_r.
Qed.

(** X1: one call of [_split_and_dedup_docs] only appends to the corpus.  The
    chunks it appends are made of a subsequence of the chunks the splitter
    produced, in the splitter's order: each has the content of its chunk as
    produced, the source type of the call under the metadata key source_type,
    and the other metadata of its chunk; the digests seen before stay, and
    nothing is logged.  When the splitter itself raises, the state is left as
    it was. *)
Theorem split_and_dedup_only_appends (input : docs_or_json) (sp : splitter)
    (source_type : pystr) (s : state) :
  let s' := (_split_and_dedup_docs input sp source_type s).1 in
  log s' = log s
  /\ seen_hashes s ⊆ seen_hashes s'
  /\ (exists kept appended,
        all_chunks s' = all_chunks s ++ appended
        /\ Forall2 (fun chunk d =>
                      page_content d = page_content chunk
                      /\ dict_get (lit "source_type") (metadata d)
                         = Some (VStr source_type)
                      /\ forall key, key <> lit "source_type" ->
                                     dict_get key (metadata d)
                                     = dict_get key (metadata chunk))
                   kept appended
        /\ forall chunks, produced sp input = Ok chunks -> kept `sublist_of` chunks)
  /\ (forall e, produced sp input = Raise e ->
        _split_and_dedup_docs input sp source_type s = (s, Some e)).
Proof.
  unfold _split_and_dedup_docs. fold (produced sp input).
  destruct (produced sp input) as [chunks|e]; simpl.
  - split; [apply log_dedup_loop|]. split; [apply seen_dedup_loop|].
    split; [|discriminate].
    destruct (dedup_loop_appends source_type chunks s) as (kept & Hsub & Heq & _).
    exists kept, (map (tagged source_type) kept). split; [exact Heq|]. split.
    + apply Forall2_fmap_r, Forall2_same_length_lookup_2; [reflexivity|].
      intros i c d Hc Hd. rewrite Hc in Hd. injection Hd as <-.
      split; [reflexivity|]. split; [apply tagged_source_type|].
      intros key Hkey. apply tagged_other_keys. exact Hkey.
    + intros chunks' [= <-]. exact Hsub.
  - split; [reflexivity|]. split; [reflexivity|]. split.
    + exists [], []. split; [symmetry; apply app_nil_r|].
      split; [constructor|discriminate].
    + intros e' [= <-]. reflexivity.
Qed.

(** *** Invariants that depend on the source type *)

Section Tagged.
Variable P : state -> Prop.
Hypothesis P_loop :
  forall source_type, source_type ∈ SOURCE_TYPES ->
  forall chunks s, P s -> P (dedup_loop chunks source_type s).1.
Hypothesis P_logged : forall e s, P s -> P (logged e s).

Lemma split_and_dedup_tagged input sp source_type s :
  source_type ∈ SOURCE_TYPES -> P s -> P (_split_and_dedup_docs input sp source_type s).1.
Proof.
  intros Hst Hs. unfold _split_and_dedup_docs.
  destruct sp as [f|f]; destruct (f input); try exact Hs; apply P_loop; assumption.
Qed.

Lemma web_loop_tagged docs ending s : P s -> P (web_loop docs ending s).1.
Proof.
  revert s. induction docs as [|doc rest IH]; intros s Hs; [exact Hs|].
  simpl. destruct (cleaned doc); [|exact Hs].
  apply and_then_invariant; [|exact IH].
  apply split_and_dedup_tagged; [|exact Hs]. unfold SOURCE_TYPES. set_solver.
Qed.

Lemma pdf_loop_tagged files s : P s -> P (pdf_loop files s).1.
Proof.
  revert s. induction files as [|file rest IH]; intros s Hs; [exact Hs|].
  simpl. destruct (bind _ _); [|exact Hs].
  apply and_then_invariant; [|exact IH].
  apply split_and_dedup_tagged; [|exact Hs]. unfold SOURCE_TYPES. set_solver.
Qed.

Lemma excel_loop_tagged files s : P s -> P (excel_loop files s).1.
Proof.
  revert s. induction files as [|file rest IH]; intros s Hs; [exact Hs|].
  simpl. destruct (excel_load file); [|exact Hs].
  apply and_then_invariant; [|exact IH].
  apply split_and_dedup_tagged; [|exact Hs]. unfold SOURCE_TYPES. set_solver.
Qed.

Lemma screener_loop_tagged urls s : P s -> P (screener_loop urls s).
Proof.
  revert s. induction urls as [|u rest IH]; intros s Hs; [exact Hs|].
  simpl.
  assert (Ht : P (screener_try u s).1).
  { unfold screener_try. destruct (bind _ _); [|exact Hs].
    apply split_and_dedup_tagged; [|exact Hs]. unfold SOURCE_TYPES. set_solver. }
  destruct (screener_try u s) as [s' [e|]]; simpl in Ht; apply IH; [|exact Ht].
  apply P_logged. exact Ht.
Qed.

Lemma gather_tagged src : P initial -> P (gather src).1.
Proof.
  intros Hi. unfold gather. apply and_then_invariant.
  { unfold load_documents. destruct (web_lazy_load _) as [docs ending].
    apply and_then_invariant; [apply web_loop_tagged, P_logged, Hi|].
    intros s Hs. apply and_then_invariant; [apply pdf_loop_tagged, P_logged, Hs|].
    intros s' Hs'. apply excel_loop_tagged, P_logged, Hs'. }
  intros s Hs. simpl. apply P_logged, screener_loop_tagged, P_logged, Hs.
Qed.

End Tagged.

Lemma tagged_has_provenance source_type chunk :
  source_type ∈ SOURCE_TYPES -> has_provenance (tagged source_type chunk).
Proof.
  intros Hst. exists source_type. split; [exact Hst|].
  simpl. apply ExtractorFacts.dict_get_set_eq.
Qed.

(** X2: every chunk of the corpus carries its provenance: the metadata key
    source_type is set, to web, pdf, excel or screener. *)
Theorem corpus_chunks_have_provenance (src : Sources) :
  Forall has_provenance (all_chunks (generate_vectorstore src).1).
Proof.
  rewrite all_chunks_generate.
  apply (gather_tagged (fun s => Forall has_provenance (all_chunks s))).
  - intros source_type Hst chunks s Hs.
    destruct (dedup_loop_appends source_type chunks s) as (kept & _ & -> & _).
    apply Forall_app. split; [exact Hs|].
    apply Forall_fmap, Forall_true. intros c. apply tagged_has_provenance, Hst.
  - intros e s Hs. exact Hs.
  - constructor.
Qed.

(** X3: the run records one digest for each chunk it takes: at the end the
    set of digests has exactly as many members as the corpus has chunks. *)
Theorem one_digest_per_chunk (src : Sources) :
  size (seen_hashes (generate_vectorstore src).1)
  = length (all_chunks (generate_vectorstore src).1).
Proof.
  assert (Hg : size (seen_hashes (gather src).1) = length (all_chunks (gather src).1)).
  { apply (gather_invariant (fun s => size (seen_hashes s) = length (all_chunks s))).
    - intros source_type.
      apply (dedup_loop_invariant (fun s => size (seen_hashes s) = length (all_chunks s))).
      intros s chunk k Hs _ _ Hnew. simpl.
      rewrite size_union by set_solver. rewrite size_singleton, length_app, Hs.
      simpl. lia.
    - intros e s _ Hs. exact Hs.
    - reflexivity. }
  rewrite all_chunks_generate, <- Hg. f_equal.
  unfold generate_vectorstore. destruct (gather src) as [s [e|]]; [reflexivity|].
  simpl. unfold finish. destruct (filter_complex_metadata (all_chunks s)); [reflexivity|].
  destruct (chroma_from_documents _); [|reflexivity].
  unfold _log_vectorstore_metadata. destruct (retriever_invoke _ _); reflexivity.
Qed.

(** X4: no text is in the corpus twice: two positions of the corpus whose
    chunks have the same stripped text are the same position. *)
Theorem corpus_text_occurs_once (src : Sources) (i j : nat) (c d : Document) :
  all_chunks (generate_vectorstore src).1 !! i = Some c ->
  all_chunks (generate_vectorstore src).1 !! j = Some d ->
  strip (page_content c) = strip (page_content d) ->
  i = j.
Proof.
  intros Hi Hj Heq.
  apply (NoDup_lookup _ i j (strip (page_content c)) (corpus_texts_distinct src)).
  - rewrite list_lookup_fmap, Hi. reflexivity.
  - rewrite list_lookup_fmap, Hj, Heq. reflexivity.
Qed.

(** *** The end of the run *)

Lemma no_build_in_log (l : list event) :
  (forall docs, FromDocuments docs ∉ l) -> List.filter is_build l = [].
Proof.
  induction l as [|e l IH]; intros Hn; [reflexivity|].
  simpl. destruct e; simpl;
    try (apply IH; intros docs Hin; apply (Hn docs); right; exact Hin).
  exfalso. apply (Hn documents). left.
Qed.

(** X5: a run calls [Chroma.from_documents] at most once, and only with the
    filtered corpus, which is then not empty. *)
Theorem index_built_at_most_once (src : Sources) :
  (builds (log (generate_vectorstore src).1) <= 1)%nat
  /\ forall docs,
       FromDocuments docs ∈ log (generate_vectorstore src).1 ->
       docs <> []
       /\ docs = filter_complex_metadata (all_chunks (generate_vectorstore src).1).
Proof.
  split.
  - pose proof (no_build_in_log _ (gather_never_built src)) as Hn.
    unfold builds, generate_vectorstore.
    destruct (gather src) as [s [e|]]; simpl in *; [rewrite Hn; simpl; lia|].
    unfold finish. destruct (filter_complex_metadata (all_chunks s)); simpl.
    { rewrite !List.filter_app, Hn. simpl. lia. }
    destruct (chroma_from_documents _); simpl;
      [unfold _log_vectorstore_metadata; destruct (retriever_invoke _ _); simpl|];
      rewrite !List.filter_app, Hn; simpl; lia.
  - intros docs Hin. rewrite all_chunks_generate. apply built_from_chunks. exact Hin.
Qed.

Lemma load_documents_nothing (src : Sources) :
  web_lazy_load (web_urls src) = ([], None) ->
  pdf_paths src = [] ->
  excel_paths src = [] ->
  (load_documents src).2 = None.
Proof.
  intros Hw Hp He. unfold load_documents. rewrite Hw, Hp, He. reflexivity.
Qed.

(** X6: with no web document, no PDF and no spreadsheet, as the file
    configures its sources, nothing the Screener pages do can make the run
    raise: it returns [None] when the filtered corpus is empty, and otherwise
    what [Chroma.from_documents] gives, exception or vector store, whether or
    not the sample query that follows succeeds. *)
Theorem only_the_store_can_raise (src : Sources) :
  web_lazy_load (web_urls src) = ([], None) ->
  pdf_paths src = [] ->
  excel_paths src = [] ->
  (generate_vectorstore src).2
  = match filter_complex_metadata (all_chunks (generate_vectorstore src).1) with
    | [] => Ok None
    | docs => bind (chroma_from_documents docs) (fun vectorstore => Ok (Some vectorstore))
    end.
Proof.
  intros Hw Hp He. rewrite all_chunks_generate.
  pose proof (load_documents_nothing src Hw Hp He) as Hl.
  destruct (load_documents src) as [s0 o] eqn:Hload. simpl in Hl. subst o.
  pose proof (gather_ends_after_documents src s0 Hload) as Hg.
  unfold generate_vectorstore. destruct (gather src) as [s o]. simpl in Hg. subst o.
  simpl. unfold finish.
  destruct (filter_complex_metadata (all_chunks s)); [reflexivity|].
  destruct (chroma_from_documents _); reflexivity.
Qed.

(** *** The flattening of a record *)

(** X7: the flattening of a record is all or nothing: it raises exactly when
    the cleaning of the text of one of its rendered sections raises, and then
    no document of any section is returned. *)
Theorem flattening_is_all_or_nothing (json_data : dict value) :
  raises (_convert_screener_json_to_documents json_data)
  <-> exists section content text,
        (section, content) ∈ json_data
        /\ section_text section content = Some text
        /\ raises (_clean_content text).
Proof.
  induction json_data as [|[section content] rest IH]; simpl.
  { split; [intros [e He]; discriminate|].
    intros (section & content & text & Hin & _). inversion Hin. }
  destruct (section_text section content) as [text|] eqn:Ht.
  - destruct (_clean_content text) as [cleaned|e] eqn:Hc; simpl.
    + destruct (_convert_screener_json_to_documents rest) as [docs|e] eqn:Hr; simpl.
      * split; [intros [e He]; discriminate|].
        intros (section' & content' & text' & Hin & Ht' & Hraise).
        apply elem_of_cons in Hin. destruct Hin as [[= -> ->]|Hin].
        { rewrite Ht in Ht'. injection Ht' as <-. rewrite Hc in Hraise.
          destruct Hraise as [e He]. discriminate. }
        destruct (proj2 IH) as [e He]; [|discriminate].
        exists section', content', text'. auto.
      * split; [|intros _; eexists; reflexivity].
        intros _. destruct (proj1 IH) as (section' & content' & text' & Hin & Hrest).
        { eexists; reflexivity. }
        exists section', content', text'. split; [right; exact Hin|exact Hrest].
    + split; [|intros _; eexists; reflexivity].
      intros _. exists section, content, text.
      split; [left|]. split; [exact Ht|]. rewrite Hc. eexists; reflexivity.
  - rewrite IH. split.
    + intros (section' & content' & text' & Hin & Hrest).
      exists section', content', text'. split; [right; exact Hin|exact Hrest].
    + intros (section' & content' & text' & Hin & Ht' & Hraise).
      apply elem_of_cons in Hin. destruct Hin as [[= -> ->]|Hin].
      { rewrite Ht in Ht'. discriminate. }
      exists section', content', text'. auto.
Qed.

End Run.

Section SampleRun.
Import Sample.
#[local] Existing Instance ascii_only.
#[local] Existing Instance one_page.
#[local] Existing Instance one_site.
#[local] Existing Instance stand_ins.

Lemma corpus_text_occurs_once_witness :
  all_chunks (generate_vectorstore failing_then_good).1 !! 1%nat
  = Some (tagged (lit "screener")
            {| page_content := lit "Profit & Loss: Year: 2023 Sales: 100 Year: 2024";
               metadata := [(lit "section", VStr (lit "Profit & Loss"))] |})
  /\ 1%nat = 1%nat.
Proof.
  assert (H1 : all_chunks (generate_vectorstore failing_then_good).1 !! 1%nat
               = Some (tagged (lit "screener")
                   {| page_content := lit "Profit & Loss: Year: 2023 Sales: 100 Year: 2024";
                      metadata := [(lit "section", VStr (lit "Profit & Loss"))] |}))
    by (vm_compute; reflexivity).
  split; [exact H1|].
  exact (corpus_text_occurs_once failing_then_good 1 1 _ _ H1 H1 eq_refl).
Defined.

Lemma only_the_store_can_raise_witness :
  web_lazy_load (web_urls failing_then_good) = ([], None)
  /\ pdf_paths failing_then_good = []
  /\ excel_paths failing_then_good = []
  /\ (generate_vectorstore failing_then_good).2
     = match filter_complex_metadata (all_chunks (generate_vectorstore failing_then_good).1) with
       | [] => Ok None
       | docs => bind (chroma_from_documents docs) (fun vectorstore => Ok (Some vectorstore))
       end.
Proof.
  split; [reflexivity|]. split; [reflexivity|]. split; [reflexivity|].
  exact (only_the_store_can_raise failing_then_good eq_refl eq_refl eq_refl).
Defined.

End SampleRun.
End CorpusFacts.

Module PageFacts.
Import Py Record_ Bs4 Web Shapes ExtractorFacts.

Section Page.
Context {tag : Type} `{Soup tag}.
Import Fintastic.

(** *** Keys that the steps leave alone *)

Lemma dict_get_set_some {V} (k k' : pystr) (v : V) (d : dict V) :
  is_Some (dict_get k d) -> is_Some (dict_get k (dict_set k' v d)).
Proof.
  intros Hs. destruct (decide (k' = k)) as [->|Hne].
  - rewrite dict_get_set_eq. eexists; reflexivity.
  - rewrite dict_get_set_ne by exact Hne. exact Hs.
Qed.

Lemma extract_company_info_other (soup : tag) (k : pystr) (data : dict value) :
  k <> lit "company_info" ->
  dict_get k (extract_company_info soup data) = dict_get k data.
Proof.
  intros Hk. unfold extract_company_info.
  destruct (select_one soup _); apply dict_get_set_ne; congruence.
Qed.

Lemma extract_pros_cons_other (soup : tag) (k : pystr) (data : dict value) :
  k <> lit "pros" -> k <> lit "cons" ->
  dict_get k (extract_pros_cons soup data) = dict_get k data.
Proof.
  intros Hp Hc. unfold extract_pros_cons.
  rewrite !dict_get_set_ne by congruence. reflexivity.
Qed.

(** X8: the company name of the record is the stripped text of the first
    first-level heading, and the key is absent on a page without one, as long
    as no data table stands under a heading that reads company_name. *)
Theorem company_name_is_the_heading (soup : tag) (data : dict value) :
  (forall t, t ∈ data_tables soup -> table_key t <> Some (lit "company_name")) ->
  extract_from soup = Ok data ->
  dict_get (lit "company_name") data
  = match select_one soup (Sel (tag_ "h1")) with
    | Some title => Some (VStr (strip (text title)))
    | None => None
    end.
Proof.
  intros Htables Hdata. unfold extract_from in Hdata.
  rewrite (extract_documents_other soup (lit "company_name") _ _ ltac:(discriminate) Hdata).
  rewrite extract_shareholding_other by discriminate.
  unfold extract_tables. rewrite extract_tables_other by exact Htables.
  rewrite extract_pros_cons_other by discriminate.
  rewrite extract_company_info_other by discriminate.
  unfold extract_company_name. destruct (select_one soup _); [|reflexivity].
  apply dict_get_set_eq.
Qed.

(** *** The sections every record has *)

Lemma holds_list_set_list (k k' : pystr) (items : list value) (data : dict value) :
  holds_list k data -> holds_list k (dict_set k' (VList items) data).
Proof.
  intros [l Hl]. destruct (decide (k' = k)) as [->|Hne].
  - exists items. apply dict_get_set_eq.
  - exists l. rewrite dict_get_set_ne by exact Hne. exact Hl.
Qed.

Lemma holds_list_tables (tables : list tag) (k : pystr) (data : dict value) :
  holds_list k data -> holds_list k (foldl extract_table data tables).
Proof.
  revert data. induction tables as [|t rest IH]; intros data Hd; [exact Hd|].
  simpl. apply IH. unfold extract_table.
  destruct (find_previous t _); [|exact Hd]. apply holds_list_set_list, Hd.
Qed.

Lemma holds_list_shareholding (soup : tag) (k : pystr) (data : dict value) :
  holds_list k data -> holds_list k (extract_shareholding_pattern soup data).
Proof.
  intros Hd. unfold extract_shareholding_pattern.
  destruct (find soup _) as [header|]; [|exact Hd].
  destruct (find_next_sibling header _); [|exact Hd]. apply holds_list_set_list, Hd.
Qed.

Lemma is_some_tables (tables : list tag) (k : pystr) (data : dict value) :
  is_Some (dict_get k data) -> is_Some (dict_get k (foldl extract_table data tables)).
Proof.
  revert data. induction tables as [|t rest IH]; intros data Hd; [exact Hd|].
  simpl. apply IH. unfold extract_table.
  destruct (find_previous t _); [|exact Hd]. apply dict_get_set_some, Hd.
Qed.

(** X9: a record that the extractor returns always has the sections
    company_info, pros, cons and documents, whatever the page holds: pros and
    cons are lists, and documents is a mapping with exactly the keys
    announcements, annual_reports and concalls, each a list. *)
Theorem record_has_its_sections (soup : tag) (data : dict value) :
  extract_from soup = Ok data ->
  is_Some (dict_get (lit "company_info") data)
  /\ (exists pros, dict_get (lit "pros") data = Some (VList pros))
  /\ (exists cons, dict_get (lit "cons") data = Some (VList cons))
  /\ (exists announcements annual_reports concalls,
        dict_get (lit "documents") data
        = Some (VDict [(lit "announcements", VList announcements);
                       (lit "annual_reports", VList annual_reports);
                       (lit "concalls", VList concalls)])).
Proof.
  intros Hdata. unfold extract_from in Hdata.
  set (d1 := extract_company_info soup (extract_company_name soup [])) in Hdata.
  set (d2 := extract_pros_cons soup d1) in Hdata.
  assert (H1 : is_Some (dict_get (lit "company_info") d1)).
  { unfold d1, extract_company_info. destruct (select_one soup _);
      rewrite dict_get_set_eq; eexists; reflexivity. }
  assert (Hp : holds_list (lit "pros") d2).
  { unfold d2, extract_pros_cons. apply holds_list_set_list.
    eexists. apply dict_get_set_eq. }
  assert (Hc : holds_list (lit "cons") d2).
  { unfold d2, extract_pros_cons. eexists. apply dict_get_set_eq. }
  assert (H2 : is_Some (dict_get (lit "company_info") d2)).
  { unfold d2, extract_pros_cons. do 2 apply dict_get_set_some. exact H1. }
  split; [|split; [|split]].
  - rewrite (extract_documents_other soup (lit "company_info") _ _ ltac:(discriminate) Hdata).
    unfold extract_shareholding_pattern.
    destruct (find soup _) as [header|]; [destruct (find_next_sibling header _)|];
      try apply dict_get_set_some; apply is_some_tables, H2.
  - unfold holds_list.
    rewrite (extract_documents_other soup (lit "pros") _ _ ltac:(discriminate) Hdata).
    apply holds_list_shareholding, holds_list_tables, Hp.
  - unfold holds_list.
    rewrite (extract_documents_other soup (lit "cons") _ _ ltac:(discriminate) Hdata).
    apply holds_list_shareholding, holds_list_tables, Hc.
  - unfold extract_documents_links in Hdata.
    destruct (annual_reports_of soup) as [reports|]; [|discriminate].
    simpl in Hdata. injection Hdata as <-.
    exists (announcements_of soup), reports, (concalls_of soup).
    apply dict_get_set_eq.
Qed.

(** *** Concalls *)

Lemma omap_no_longer {A B} (f : A -> option B) (l : list A) :
  (length (omap f l) <= length l)%nat.
Proof.
  induction l as [|a l IH]; [reflexivity|].
  csimpl. destruct (f a); simpl; lia.
Qed.

Lemma anchor_entries_links (li : tag) : Forall is_link (anchor_entries li).
Proof.
  unfold anchor_entries. apply Forall_forall. intros v Hv.
  apply list_elem_of_omap in Hv. destruct Hv as (link & _ & Hv).
  destruct (stripped_text link _) as [|c label] eqn:Hl; [discriminate|].
  destruct (get link _) as [[|c' u]|]; try discriminate.
  injection Hv as <-. eexists _, _. split; [reflexivity|]. split; discriminate.
Qed.

Lemma button_entries_links (li : tag) : Forall is_link (button_entries li).
Proof.
  unfold button_entries. apply Forall_forall. intros v Hv.
  apply list_elem_of_omap in Hv. destruct Hv as (button & _ & Hv).
  destruct (stripped_text button _) as [|c label] eqn:Hl; [discriminate|].
  destruct (get button _) as [[|c' u]|]; try discriminate.
  simpl in Hv. injection Hv as <-. eexists _, _. split; [reflexivity|]. split; discriminate.
Qed.

(** X10: every concall of a record has a date and at least one link, and
    every link has a type and a url that are not empty: an item of the page
    without a usable link is left out, and so is a link without a label or
    an address. *)
Theorem concalls_are_well_formed (soup : tag) (data : dict value) :
  extract_from soup = Ok data ->
  exists announcements annual_reports concalls,
    dict_get (lit "documents") data
    = Some (VDict [(lit "announcements", announcements);
                   (lit "annual_reports", annual_reports);
                   (lit "concalls", VList concalls)])
    /\ Forall is_concall concalls
    /\ (length concalls <= length (concall_items soup))%nat.
Proof.
  intros Hdata. unfold extract_from, extract_documents_links in Hdata.
  destruct (annual_reports_of soup) as [reports|]; [|discriminate].
  simpl in Hdata. injection Hdata as <-.
  eexists _, _, (concalls_of soup). split; [apply dict_get_set_eq|]. split.
  - unfold concalls_of. apply Forall_forall. intros v Hv.
    apply list_elem_of_omap in Hv. destruct Hv as (li & _ & Hv).
    unfold concall_of in Hv.
    pose proof (anchor_entries_links li) as Ha.
    pose proof (button_entries_links li) as Hb.
    pose proof (proj2 (Forall_app is_link _ _) (conj Ha Hb)) as Hall.
    destruct (anchor_entries li ++ button_entries li) as [|e entries]; [discriminate|].
    injection Hv as <-. eexists _, _. split; [reflexivity|]. split; [discriminate|exact Hall].
  - unfold concalls_of. apply omap_no_longer.
Qed.

(** *** Where the extractors raise *)

Lemma annual_reports_loop_raises (items : list tag) (acc : list value) (e : exn) :
  annual_reports_loop items acc = Raise e ->
  exists li a_tag,
    li ∈ items /\ find li (by_name (lit "a")) = Some a_tag
    /\ first_text_node a_tag = Raise e.
Proof.
  revert acc. induction items as [|li rest IH]; intros acc Hr; [discriminate|].
  simpl in Hr. destruct (find li _) as [a_tag|] eqn:Ha.
  - destruct (first_text_node a_tag) as [title|e'] eqn:Hf; simpl in Hr.
    + destruct (IH _ Hr) as (li' & a' & Hin & Hrest).
      exists li', a'. split; [right; exact Hin|exact Hrest].
    + injection Hr as <-. exists li, a_tag. split; [left|]. split; assumption.
  - destruct (IH _ Hr) as (li' & a' & Hin & Hrest).
    exists li', a'. split; [right; exact Hin|exact Hrest].
Qed.

Lemma annual_reports_loop_returns (items : list tag) (acc : list value) :
  (forall li a_tag, li ∈ items -> find li (by_name (lit "a")) = Some a_tag ->
                    returns (first_text_node a_tag)) ->
  returns (annual_reports_loop items acc).
Proof.
  revert acc. induction items as [|li rest IH]; intros acc Hall; [eexists; reflexivity|].
  simpl. destruct (find li _) as [a_tag|] eqn:Ha.
  - destruct (Hall li a_tag ltac:(left) Ha) as [title ->]. simpl.
    apply IH. intros li' a' Hin. apply Hall. right. exact Hin.
  - apply IH. intros li' a' Hin. apply Hall. right. exact Hin.
Qed.

Lemma first_text_node_exceptions (a_tag : tag) (e : exn) :
  first_text_node a_tag = Raise e -> e = IndexError \/ e = TypeError.
Proof.
  unfold first_text_node. destruct (contents a_tag) as [|[s|child] rest].
  - intros [= <-]. left. reflexivity.
  - discriminate.
  - destruct (find child _); [discriminate|]. intros [= <-]. right. reflexivity.
Qed.

(** X11: the extractor of [fintastic.py] raises in one place only: at a link
    of the annual reports list whose first child cannot be taken as a text.
    The exception is [IndexError] (the link has no children) or [TypeError]
    (its first child is a tag). *)
Theorem extractor_raises_only_at_report_links (soup : tag) (e : exn) :
  extract_from soup = Raise e ->
  (e = IndexError \/ e = TypeError)
  /\ exists li a_tag,
       li ∈ report_items soup
       /\ find li (by_name (lit "a")) = Some a_tag
       /\ first_text_node a_tag = Raise e.
Proof.
  intros Hr. unfold extract_from, extract_documents_links in Hr.
  destruct (annual_reports_of soup) as [reports|e'] eqn:Har; [discriminate|].
  simpl in Hr. injection Hr as ->.
  unfold annual_reports_of in Har. unfold report_items.
  destruct (select_one soup _) as [ar_section|]; [|discriminate].
  destruct (annual_reports_loop_raises _ _ _ Har) as (li & a_tag & Hin & Ha & Hf).
  split; [exact (first_text_node_exceptions a_tag e Hf)|].
  exists li, a_tag. auto.
Qed.

(** X12: the extractor of [fintastic.py] returns a record for every page on
    which each linked item of the annual reports list has a link whose first
    child is a string; in particular for every page without such a list. *)
Theorem extractor_returns_on_text_links (soup : tag) :
  (forall li a_tag,
      li ∈ report_items soup -> find li (by_name (lit "a")) = Some a_tag ->
      exists s rest, contents a_tag = inl s :: rest) ->
  returns (extract_from soup).
Proof.
  intros Hall. apply extract_from_returns.
  unfold annual_reports_of. unfold report_items in Hall.
  destruct (select_one soup _) as [ar_section|]; [|eexists; reflexivity].
  apply annual_reports_loop_returns. intros li a_tag Hin Ha.
  destruct (Hall li a_tag Hin Ha) as (s & rest & Hc).
  unfold first_text_node. rewrite Hc. eexists; reflexivity.
Qed.

(** X13: the extractor of [fin_data_extractor.py] returns a record exactly
    for the pages that have a first-level heading; on every other page it
    raises, and [AttributeError] is the only exception its steps raise. *)
Theorem static_extractor_needs_heading (soup : tag) :
  (returns (FinDataExtractorStatic.extract_from soup)
   <-> is_Some (select_one soup (Sel (tag_ "h1"))))
  /\ forall e, FinDataExtractorStatic.extract_from soup = Raise e -> e = AttributeError.
Proof.
  unfold FinDataExtractorStatic.extract_from, FinDataExtractorStatic.extract_company_name.
  destruct (select_one soup _) as [title|]; simpl.
  - split; [|discriminate]. split; intros _; eexists; reflexivity.
  - split; [|intros e [= <-]; reflexivity].
    split; [intros [data Hd]; discriminate|intros [t Ht]; discriminate].
Qed.

(** *** Rows *)

(** X14: in a row built by [dict(zip(headers, cells))] a header gives the
    cell at its last position among the cells: a header that is repeated keeps
    only the cell under its last occurrence; and a header that stands at no
    position among the cells, as the headers beyond the cells of a short row
    do, is no key of the row. *)
Theorem zipped_row_lookup (headers cells : list pystr) (h : pystr) :
  (forall i c,
      headers !! i = Some h ->
      cells !! i = Some c ->
      (forall j, (i < j)%nat -> (j < length cells)%nat -> headers !! j <> Some h) ->
      dict_get h (dict_zip headers cells) = Some (VStr c))
  /\ ((forall i, (i < length cells)%nat -> headers !! i <> Some h) ->
      dict_get h (dict_zip headers cells) = None).
Proof.
  split.
  - intros i c. apply dict_zip_present.
  - apply dict_zip_absent.
Qed.

End Page.

Section Fetch.
Context {tag : Type} `{Soup tag} `{Network}.
Import Fintastic.

(** X15: when the browser cannot be used, because Playwright is not installed
    or because its session raises, the extractor does exactly what it does
    with [use_browser] off: the page is fetched with [requests]. *)
Theorem browser_failure_falls_back (self : FinDataExtractor) (u : pystr) :
  url self = Some u ->
  PLAYWRIGHT_AVAILABLE = false \/ raises (playwright_content u) ->
  extract_all self
  = extract_all {| url := url self; html := html self; use_browser := false |}.
Proof.
  intros Hu Hfail. unfold extract_all, parse_html, fetch_html. simpl. rewrite Hu.
  destruct (truthy (html self)); [reflexivity|].
  destruct u as [|c u]; [reflexivity|].
  destruct (use_browser self); [|reflexivity]. simpl.
  destruct Hfail as [->|[e ->]]; [reflexivity|].
  destruct PLAYWRIGHT_AVAILABLE; reflexivity.
Qed.

(** X16: an extractor that is given a page text that is not empty parses that
    text and nothing else: the URL is not fetched, whatever the network would
    answer and whether or not the browser is asked for. *)
Theorem given_html_is_not_fetched (self : FinDataExtractor) (page : pystr) :
  html self = Some page ->
  page <> [] ->
  extract_all self = bind (parse page) extract_from.
Proof.
  intros Hh Hne. unfold extract_all, parse_html. rewrite Hh.
  destruct page as [|c page]; [contradiction|]. reflexivity.
Qed.

(** X17: an extractor that has neither a page text nor a URL that is not
    empty raises [TypeError] when the missing text is handed to the parser. *)
Theorem nothing_to_parse (self : FinDataExtractor) :
  truthy (url self) = false ->
  html self = None ->
  extract_all self = Raise TypeError.
Proof.
  intros Hu Hh. unfold extract_all, parse_html, fetch_html. rewrite Hh. simpl.
  destruct (url self) as [[|c u]|]; try discriminate; rewrite ?Hh; reflexivity.
Qed.

End Fetch.

Section SamplePages.
Import Sample Fintastic.
#[local] Existing Instance one_page.
#[local] Existing Instance one_site.

Lemma company_name_is_the_heading_witness :
  exists data,
    extract_from (Html.document company_page) = Ok data
    /\ dict_get (lit "company_name") data
       = match select_one (Html.document company_page) (Sel (tag_ "h1")) with
         | Some title => Some (VStr (strip (text title)))
         | None => None
         end.
Proof.
  eexists. split; [vm_compute; reflexivity|].
  apply company_name_is_the_heading; [|vm_compute; reflexivity].
  intros t Ht. vm_compute in Ht. apply list_elem_of_singleton in Ht. subst t.
  vm_compute. discriminate.
Defined.

Lemma record_has_its_sections_witness :
  exists data,
    extract_from (Html.document company_page) = Ok data
    /\ is_Some (dict_get (lit "company_info") data)
    /\ (exists pros, dict_get (lit "pros") data = Some (VList pros))
    /\ (exists cons, dict_get (lit "cons") data = Some (VList cons))
    /\ (exists announcements annual_reports concalls,
          dict_get (lit "documents") data
          = Some (VDict [(lit "announcements", VList announcements);
                         (lit "annual_reports", VList annual_reports);
                         (lit "concalls", VList concalls)])).
Proof.
  eexists. split; [vm_compute; reflexivity|].
  apply (record_has_its_sections (Html.document company_page)). vm_compute. reflexivity.
Defined.

Lemma concalls_are_well_formed_witness :
  exists data,
    extract_from (Html.document company_page) = Ok data
    /\ exists announcements annual_reports concalls,
         dict_get (lit "documents") data
         = Some (VDict [(lit "announcements", announcements);
                        (lit "annual_reports", annual_reports);
                        (lit "concalls", VList concalls)])
         /\ Forall is_concall concalls
         /\ (length concalls <= length (concall_items (Html.document company_page)))%nat.
Proof.
  eexists. split; [vm_compute; reflexivity|].
  apply (concalls_are_well_formed (Html.document company_page)). vm_compute. reflexivity.
Defined.

Lemma extractor_raises_only_at_report_links_witness :
  extract_from (Html.document empty_anchor_page) = Raise IndexError
  /\ (IndexError = IndexError \/ IndexError = TypeError)
  /\ exists li a_tag,
       li ∈ report_items (Html.document empty_anchor_page)
       /\ find li (by_name (lit "a")) = Some a_tag
       /\ first_text_node a_tag = Raise IndexError.
Proof.
  assert (Hr : extract_from (Html.document empty_anchor_page) = Raise IndexError)
    by (vm_compute; reflexivity).
  split; [exact Hr|].
  exact (extractor_raises_only_at_report_links (Html.document empty_anchor_page) _ Hr).
Defined.

Lemma extractor_returns_on_text_links_witness :
  report_items (Html.document reports_page) = [at_ reports_page [1; 0; 0]%nat]
  /\ find (at_ reports_page [1; 0; 0]%nat) (by_name (lit "a"))
     = Some (at_ reports_page [1; 0; 0; 0]%nat)
  /\ contents (at_ reports_page [1; 0; 0; 0]%nat)
     = [inl (lit " Financial Year 2023 "); inr (at_ reports_page [1; 0; 0; 0; 1]%nat)]
  /\ returns (extract_from (Html.document reports_page)).
Proof.
  assert (H1 : report_items (Html.document reports_page) = [at_ reports_page [1; 0; 0]%nat])
    by (vm_compute; reflexivity).
  assert (H2 : find (at_ reports_page [1; 0; 0]%nat) (by_name (lit "a"))
               = Some (at_ reports_page [1; 0; 0; 0]%nat))
    by (vm_compute; reflexivity).
  assert (H3 : contents (at_ reports_page [1; 0; 0; 0]%nat)
               = [inl (lit " Financial Year 2023 ");
                  inr (at_ reports_page [1; 0; 0; 0; 1]%nat)])
    by (vm_compute; reflexivity).
  split; [exact H1|]. split; [exact H2|]. split; [exact H3|].
  apply (extractor_returns_on_text_links (Html.document reports_page)).
  intros li a_tag Hli Ha. rewrite H1 in Hli. apply list_elem_of_singleton in Hli. subst li.
  rewrite H2 in Ha. injection Ha as <-. rewrite H3. eexists _, _. reflexivity.
Defined.

Lemma zipped_row_lookup_witness :
  dict_get (lit "Year")
    (dict_zip [lit "Year"; lit "Sales"; lit "Year"] [lit "2023"; lit "100"; lit "2024"])
  = Some (VStr (lit "2024"))
  /\ dict_get (lit "Year") (dict_zip [lit "Year"; lit "Sales"] [lit "2024"])
     = Some (VStr (lit "2024"))
  /\ dict_get (lit "Sales") (dict_zip [lit "Year"; lit "Sales"] [lit "2024"]) = None.
Proof.
  split; [|split].
  - apply (proj1 (zipped_row_lookup [lit "Year"; lit "Sales"; lit "Year"]
                    [lit "2023"; lit "100"; lit "2024"] (lit "Year")) 2%nat (lit "2024"));
      [reflexivity|reflexivity|].
    intros j Hlt Hlen. simpl in Hlen. lia.
  - apply (proj1 (zipped_row_lookup [lit "Year"; lit "Sales"] [lit "2024"] (lit "Year"))
             0%nat (lit "2024")); [reflexivity|reflexivity|].
    intros j Hlt Hlen. simpl in Hlen. lia.
  - apply (proj2 (zipped_row_lookup [lit "Year"; lit "Sales"] [lit "2024"] (lit "Sales"))).
    intros i Hi. simpl in Hi. destruct i as [|i]; [discriminate|lia].
Defined.

Lemma browser_failure_falls_back_witness :
  (@PLAYWRIGHT_AVAILABLE one_site = false
   \/ raises (@playwright_content one_site good_url))
  /\ extract_all {| url := Some good_url; html := None; use_browser := true |}
     = extract_all {| url := Some good_url; html := None; use_browser := false |}.
Proof.
  split; [left; reflexivity|].
  apply (browser_failure_falls_back
           {| url := Some good_url; html := None; use_browser := true |} good_url);
    [reflexivity|left; reflexivity].
Defined.

Lemma given_html_is_not_fetched_witness :
  lit "<h1>ACME</h1>" <> []
  /\ extract_all {| url := Some bad_url; html := Some (lit "<h1>ACME</h1>");
                    use_browser := true |}
     = bind (parse (lit "<h1>ACME</h1>")) extract_from.
Proof.
  split; [discriminate|].
  apply (given_html_is_not_fetched
           {| url := Some bad_url; html := Some (lit "<h1>ACME</h1>"); use_browser := true |});
    [reflexivity|discriminate].
Defined.

Lemma nothing_to_parse_witness :
  truthy (Some []) = false
  /\ extract_all {| url := Some []; html := None; use_browser := false |} = Raise TypeError.
Proof.
  split; [reflexivity|].
  apply (nothing_to_parse {| url := Some []; html := None; use_browser := false |});
    reflexivity.
Defined.

End SamplePages.
End PageFacts.

Module CleanFacts.
Import Py Normalizer TextShapes NormalizerFacts.

(** *** What the steps of [tidy] leave, on every text *)

Lemma sub_runs_blank_tab_free (s : pystr) :
  forall b, tab_free (sub_runs is_blank 0x20 b s) = true.
Proof.
  induction s as [|c t IH]; intros b; [reflexivity|].
  simpl. destruct (is_blank c) eqn:Hc.
  - destruct b; [apply IH|]. unfold tab_free. simpl. apply IH.
  - unfold tab_free. simpl. fold (tab_free (sub_runs is_blank 32 false t)).
    rewrite IH, andb_true_r. clear IH. codepoints.
Qed.

Lemma replace_nbsp_shape (s : pystr) :
  tab_free s = true ->
  tab_free (replace_nbsp s) = true /\ nbsp_free (replace_nbsp s) = true.
Proof.
  unfold tab_free, nbsp_free, replace_nbsp.
  induction s as [|c t IH]; intros Hs; [split; reflexivity|].
  apply forallb_cons in Hs. destruct Hs as [Hc Ht]. destruct (IH Ht) as [IH1 IH2].
  simpl. rewrite IH1, IH2, !andb_true_r. clear IH IH1 IH2 Ht.
  destruct (c =? NBSP) eqn:Hn; [split; reflexivity|].
  rewrite Hc, Hn. split; reflexivity.
Qed.

Lemma splitlines_every (p : N -> bool) (s : pystr) :
  forallb p s = true ->
  forall b, Forall (fun l => unbroken l = true /\ forallb p l = true) (splitlines_from b s).
Proof.
  induction s as [|c t IH]; intros Hs b; [constructor|].
  apply forallb_cons in Hs. destruct Hs as [Hc Ht].
  simpl. destruct (b && (c =? 0x0A)); [apply IH; exact Ht|].
  destruct (islinebreak c) eqn:Hl.
  - constructor; [|apply IH; exact Ht]. split; reflexivity.
  - pose proof (IH Ht false) as Hall.
    destruct (splitlines_from false t) as [|l0 ls0].
    + constructor; [|constructor]. unfold unbroken. simpl. rewrite Hl, Hc. split; reflexivity.
    + inversion Hall as [|? ? [Hu0 Hp0] Hls0]; subst.
      constructor; [|exact Hls0]. unfold unbroken in *. simpl.
      rewrite Hl, Hc, Hu0, Hp0. split; reflexivity.
Qed.

Lemma forallb_segment {A} (p : A -> bool) (a l z : list A) :
  forallb p (a ++ l ++ z) = true -> forallb p l = true.
Proof.
  rewrite !forallb_app. intros Hs.
  apply andb_true_iff in Hs. destruct Hs as [_ Hs].
  apply andb_true_iff in Hs. apply Hs.
Qed.

Lemma stripped_every (p : N -> bool) (lines : list pystr) :
  Forall (fun l => forallb p l = true) lines ->
  Forall (fun e => e <> [] /\ forallb p e = true /\ trimmed e = true)
         (map strip (filter (fun line => strip line <> []) lines)).
Proof.
  induction 1 as [|l ls Hp _ IH]; [constructor|].
  rewrite filter_cons. destruct (decide (strip l <> [])) as [Hne|_]; [|exact IH].
  simpl. constructor; [|exact IH].
  destruct (strip_segment l) as (a & z & Hl).
  split; [exact Hne|]. split; [|apply strip_is_trimmed].
  apply (forallb_segment p a _ z). rewrite <- Hl. exact Hp.
Qed.

Lemma join_every (p : N -> bool) (ls : list pystr) :
  p 0x20 = true ->
  Forall (fun e => e <> [] /\ forallb p e = true /\ trimmed e = true) ls ->
  forallb p (join [0x20] ls) = true
  /\ trimmed (join [0x20] ls) = true
  /\ (ls <> [] -> join [0x20] ls <> []).
Proof.
  intros Hsp. induction 1 as [|e ls' He Hls IH];
    [split; [reflexivity|split; [reflexivity|intros Hn; destruct (Hn eq_refl)]]|].
  destruct ls' as [|e2 ls''].
  - destruct He as (Hne & Hp & Ht). simpl. repeat split; auto.
  - destruct IH as (HpJ & HtJ & HneJ).
    specialize (HneJ ltac:(discriminate)).
    set (J := join [0x20] (e2 :: ls'')) in *.
    change (join [0x20] (e :: e2 :: ls'')) with (e ++ 0x20 :: J).
    destruct He as (Hne & Hp & Ht).
    destruct (trimmed_ends e Hne Ht) as (c & t & d & r & Ee & Er & Hc & Hd).
    destruct (trimmed_ends J HneJ HtJ) as (c' & t' & d' & r' & EJ & ErJ & Hc' & Hd').
    repeat split.
    + rewrite forallb_app. simpl. rewrite Hp, HpJ, Hsp. reflexivity.
    + assert (Hrev : reverse (e ++ 0x20 :: J) = d' :: (r' ++ [0x20]) ++ reverse e)
        by (rewrite reverse_app, reverse_cons, ErJ; reflexivity).
      unfold trimmed. rewrite Ee in Hrev |- *. cbn [app] in Hrev |- *.
      rewrite Hrev, Hc, Hd'. reflexivity.
    + rewrite Ee. discriminate.
Qed.

Lemma forallb_both {A} (p q : A -> bool) (l : list A) :
  forallb p l = true -> forallb q l = true -> forallb (fun c => p c && q c) l = true.
Proof.
  induction l as [|c t IH]; intros Hp Hq; [reflexivity|].
  apply forallb_cons in Hp, Hq. destruct Hp as [Hc Hp], Hq as [Hc' Hq].
  simpl. rewrite Hc, Hc', (IH Hp Hq). reflexivity.
Qed.

Lemma forallb_weaken {A} (p q : A -> bool) (l : list A) :
  (forall c, p c = true -> q c = true) -> forallb p l = true -> forallb q l = true.
Proof.
  intros Hpq. induction l as [|c t IH]; intros Hp; [reflexivity|].
  apply forallb_cons in Hp. destruct Hp as [Hc Hp].
  simpl. rewrite (Hpq c Hc), (IH Hp). reflexivity.
Qed.

Lemma tidy_shape (s : pystr) :
  unbroken (tidy s) = true /\ tab_free (tidy s) = true
  /\ nbsp_free (tidy s) = true /\ trimmed (tidy s) = true.
Proof.
  unfold tidy.
  set (u := sub_runs is_blank 0x20 false (sub_runs is_newline 0x0A false s)).
  destruct (replace_nbsp_shape u (sub_runs_blank_tab_free _ false)) as [Htab Hnb].
  set (v := replace_nbsp u) in *.
  set (q := fun c => negb (c =? 0x09) && negb (c =? NBSP)).
  assert (Hq : forallb q v = true) by (apply forallb_both; assumption).
  pose proof (splitlines_every q v Hq false) as Hlines.
  assert (Hkept : Forall (fun l => forallb kept l = true) (splitlines v)).
  { unfold splitlines. eapply Forall_impl; [exact Hlines|].
    intros l [Hu Hl]. unfold kept.
    apply (forallb_weaken (fun c => negb (islinebreak c) && q c)).
    - intros c Hc. unfold q in Hc. rewrite andb_assoc in Hc. exact Hc.
    - apply forallb_both; assumption. }
  destruct (join_every kept _ eq_refl (stripped_every kept _ Hkept)) as (Hk & Ht & _).
  repeat split.
  - apply (forallb_weaken kept); [|exact Hk]. unfold kept. intros c Hc.
    apply andb_true_iff in Hc. destruct Hc as [Hc _].
    apply andb_true_iff in Hc. apply Hc.
  - apply (forallb_weaken kept); [|exact Hk]. unfold kept. intros c Hc.
    apply andb_true_iff in Hc. destruct Hc as [Hc _].
    apply andb_true_iff in Hc. apply Hc.
  - apply (forallb_weaken kept); [|exact Hk]. unfold kept. intros c Hc.
    apply andb_true_iff in Hc. apply Hc.
  - exact Ht.
Qed.

(** X18: whatever text it is given, a text that [_clean_content] returns has
    no line boundary (newline, carriage return or any other), no tab and no
    no-break space, and, unless it is empty, it neither begins nor ends with
    whitespace. *)
Theorem cleaned_text_shape `{UnicodeData} (x y : pystr) :
  _clean_content x = Ok y ->
  unbroken y = true /\ tab_free y = true /\ nbsp_free y = true /\ trimmed y = true.
Proof.
  unfold _clean_content. destruct (utf8_encode _) as [encoded|]; [|discriminate].
  simpl. destruct (unicode_escape_decode encoded) as [text|]; [|discriminate].
  simpl. intros [= <-]. apply tidy_shape.
Qed.

(** *** Texts of whitespace *)

Lemma sub_runs_every (p q : N -> bool) (r : N) (s : pystr) :
  q r = true -> forallb q s = true -> forall b, forallb q (sub_runs p r b s) = true.
Proof.
  intros Hr. induction s as [|c t IH]; intros Hs b; [reflexivity|].
  apply forallb_cons in Hs. destruct Hs as [Hc Ht].
  simpl. destruct (p c).
  - destruct b; simpl; [|rewrite Hr]; apply IH; exact Ht.
  - simpl. rewrite Hc. apply IH. exact Ht.
Qed.

Lemma lstrip_spaces (s : pystr) : forallb isspace s = true -> lstrip s = [].
Proof.
  induction s as [|c t IH]; intros Hs; [reflexivity|].
  apply forallb_cons in Hs. destruct Hs as [Hc Ht].
  simpl. rewrite Hc. apply IH. exact Ht.
Qed.

Lemma tidy_spaces (s : pystr) : forallb isspace s = true -> tidy s = [].
Proof.
  intros Hs. unfold tidy.
  set (u := sub_runs is_blank 0x20 false (sub_runs is_newline 0x0A false s)).
  assert (Hu : forallb isspace u = true).
  { apply sub_runs_every; [reflexivity|]. apply sub_runs_every; [reflexivity|exact Hs]. }
  assert (Hv : forallb isspace (replace_nbsp u) = true).
  { clear -Hu. unfold replace_nbsp. induction u as [|c t IH]; [reflexivity|].
    apply forallb_cons in Hu. destruct Hu as [Hc Ht].
    simpl. rewrite (IH Ht), andb_true_r. destruct (c =? NBSP); [reflexivity|exact Hc]. }
  pose proof (splitlines_every isspace _ Hv false) as Hlines.
  unfold splitlines. rewrite (VecStoreFacts.filter_none _ _); [reflexivity|].
  intros l Hl Hne. apply Hne.
  rewrite Forall_forall in Hlines. destruct (Hlines l Hl) as [_ Hsp].
  unfold strip. rewrite (lstrip_spaces l Hsp). reflexivity.
Qed.

(** X19: a text of ASCII whitespace only, the empty text among them, is
    cleaned to the empty text. *)
Theorem blank_text_cleans_to_nothing `{UnicodeData} (x : pystr) :
  forallb isspace x = true ->
  forallb (fun c => c <? 0x80) x = true ->
  _clean_content x = Ok [].
Proof.
  intros Hs Ha. rewrite clean_content_plain; [rewrite (tidy_spaces x Hs); reflexivity|].
  apply (forallb_weaken (fun c => isspace c && (c <? 0x80))).
  - intros c Hc. apply andb_true_iff in Hc. destruct Hc as [Hc1 Hc2].
    unfold plain. rewrite Hc2. simpl. clear -Hc1 Hc2. codepoints.
  - apply forallb_both; assumption.
Qed.

Lemma cleaned_text_shape_witness :
  exists y,
    @_clean_content Sample.ascii_only
      ([0x09] ++ lit "Net" ++ [0xA0; 0x0D; 0x0A; 0x0A] ++ lit "profit" ++ [0x09] ++ lit "up ")
    = Ok y
    /\ unbroken y = true /\ tab_free y = true /\ nbsp_free y = true /\ trimmed y = true.
Proof.
  eexists. split; [vm_compute; reflexivity|].
  apply (@cleaned_text_shape Sample.ascii_only
           ([0x09] ++ lit "Net" ++ [0xA0; 0x0D; 0x0A; 0x0A] ++ lit "profit" ++ [0x09]
            ++ lit "up ")).
  vm_compute. reflexivity.
Defined.

Lemma blank_text_cleans_to_nothing_witness :
  forallb isspace [0x20; 0x09; 0x0A; 0x0D; 0x0B; 0x1F] = true
  /\ forallb (fun c => c <? 0x80) [0x20; 0x09; 0x0A; 0x0D; 0x0B; 0x1F] = true
  /\ @_clean_content Sample.ascii_only [0x20; 0x09; 0x0A; 0x0D; 0x0B; 0x1F] = Ok [].
Proof.
  split; [reflexivity|]. split; [reflexivity|].
  apply (@blank_text_cleans_to_nothing Sample.ascii_only); reflexivity.
Defined.

(** *** The cleaning as splitting and joining *)

Lemma words_cons (c : N) (rest : pystr) :
  words (c :: rest)
  = if isspace c then words rest
    else match rest with
         | d :: _ =>
             if isspace d then [c] :: words rest
             else match words rest with
                  | w :: ws => (c :: w) :: ws
                  | [] => [[c]]
                  end
         | [] => [[c]]
         end.
Proof. reflexivity. Qed.

Lemma words_nonempty (s : pystr) : Forall (fun w => w <> []) (words s).
Proof.
  induction s as [|c rest IH]; [constructor|].
  rewrite words_cons. destruct (isspace c); [exact IH|].
  destruct rest as [|d t]; [constructor; [discriminate|constructor]|].
  destruct (isspace d); [constructor; [discriminate|exact IH]|].
  destruct (words (d :: t)) as [|w ws]; [constructor; [discriminate|constructor]|].
  inversion IH; subst. constructor; [discriminate|assumption].
Qed.

Lemma words_head (d : N) (t : pystr) : isspace d = false -> words (d :: t) <> [].
Proof.
  intros Hd. rewrite words_cons, Hd.
  destruct t as [|e t']; [discriminate|].
  destruct (isspace e); [discriminate|]. destruct (words (e :: t')); discriminate.
Qed.

Lemma words_sub_runs (p : N -> bool) (r : N) (s : pystr) :
  (forall c, p c = true -> isspace c = true) -> isspace r = true ->
  forall b, words (sub_runs p r b s) = words s.
Proof.
  intros Hp Hr. induction s as [|c rest IH]; intros b; [reflexivity|].
  simpl sub_runs. destruct (p c) eqn:Hc.
  - rewrite (words_cons c), (Hp c Hc).
    destruct b; [apply IH|]. rewrite words_cons, Hr. apply IH.
  - rewrite !words_cons. destruct (isspace c); [apply IH|].
    destruct rest as [|d t]; [reflexivity|].
    pose proof (IH false) as IHf. simpl sub_runs in *.
    destruct (p d) eqn:Hd.
    + rewrite Hr, (Hp d Hd), IHf. reflexivity.
    + rewrite IHf. reflexivity.
Qed.

Lemma linebreak_is_space (c : N) : islinebreak c = true -> isspace c = true.
Proof.
  unfold islinebreak, isspace. intros Hc.
  repeat (apply orb_true_iff in Hc; destruct Hc as [Hc|Hc]);
    try (apply N.eqb_eq in Hc; subst c; reflexivity);
    apply andb_true_iff in Hc; destruct Hc as [H1 H2]; apply N.leb_le in H1, H2.
  - assert (E : (0x09 <=? c) && (c <=? 0x0D) = true)
      by (apply andb_true_iff; split; apply N.leb_le; lia).
    rewrite E. reflexivity.
  - assert (E : (0x1C <=? c) && (c <=? 0x20) = true)
      by (apply andb_true_iff; split; apply N.leb_le; lia).
    rewrite E, orb_true_r. reflexivity.
Qed.

Lemma first_line_empty (s : pystr) (ls : list pystr) :
  splitlines_from false s = [] :: ls -> exists d t, s = d :: t /\ islinebreak d = true.
Proof.
  destruct s as [|d t]; [discriminate|]. simpl.
  destruct (islinebreak d) eqn:Hd; [intros _; exists d, t; auto|].
  destruct (splitlines_from false t); discriminate.
Qed.

(** Splitting into lines and then into words gives the words of the text. *)
Lemma words_splitlines (s : pystr) :
  forall b, concat (map words (splitlines_from b s)) = words s.
Proof.
  induction s as [|c rest IH]; intros b; [reflexivity|].
  simpl splitlines_from. destruct (b && (c =? 0x0A)) eqn:Hb.
  { apply andb_true_iff in Hb. destruct Hb as [_ Hb]. apply N.eqb_eq in Hb. subst c.
    rewrite words_cons. simpl. apply IH. }
  destruct (islinebreak c) eqn:Hl.
  { rewrite words_cons, (linebreak_is_space c Hl). simpl. apply IH. }
  pose proof (IH false) as IHf.
  destruct (splitlines_from false rest) as [|l ls] eqn:El.
  - cbn [concat map] in IHf |- *. rewrite app_nil_r, !words_cons, <- IHf.
    destruct (isspace c); [reflexivity|].
    destruct rest as [|d t]; [reflexivity|]. destruct (isspace d); reflexivity.
  - cbn [concat map] in IHf |- *. set (X := concat (map words ls)) in *.
    rewrite (words_cons c rest), (words_cons c l).
    destruct (isspace c); [exact IHf|].
    destruct l as [|d l'].
    + destruct (first_line_empty rest ls El) as (d' & t' & -> & Hd').
      rewrite (linebreak_is_space d' Hd'), <- IHf. reflexivity.
    + destruct (first_line_prefix rest _ _ El) as [z Hz]. simpl in Hz.
      rewrite Hz, <- Hz, <- IHf.
      destruct (isspace d) eqn:Hd; [reflexivity|].
      pose proof (words_head d l' Hd) as Hne.
      destruct (words (d :: l')) as [|w ws]; [contradiction|]. reflexivity.
Qed.

Lemma lstrip_snoc (a : pystr) (c : N) :
  lstrip (a ++ [c]) = match lstrip a with
                      | [] => lstrip [c]
                      | r => r ++ [c]
                      end.
Proof.
  induction a as [|x a IH]; [reflexivity|].
  simpl. destruct (isspace x); [exact IH|reflexivity].
Qed.

Lemma rstrip_cons (c : N) (t : pystr) :
  rstrip (c :: t) = match rstrip t with
                    | [] => if isspace c then [] else [c]
                    | r => c :: r
                    end.
Proof.
  unfold rstrip. rewrite reverse_cons, lstrip_snoc.
  destruct (lstrip (reverse t)) as [|x r] eqn:Hl.
  - simpl. destruct (isspace c); reflexivity.
  - rewrite reverse_app. simpl.
    destruct (reverse (x :: r)) as [|y r'] eqn:Hr; [|reflexivity].
    apply (f_equal reverse) in Hr. rewrite reverse_involutive in Hr. discriminate.
Qed.

Lemma join_nil (sep : pystr) (ws : list pystr) :
  Forall (fun w => w <> []) ws -> join sep ws = [] -> ws = [].
Proof.
  intros Hws. destruct Hws as [|w ws Hw Hws]; [reflexivity|].
  destruct w as [|c w]; [contradiction|]. destruct ws; discriminate.
Qed.

Lemma join_cons_cons (sep : pystr) (c : N) (w : pystr) (ws : list pystr) :
  join sep ((c :: w) :: ws) = c :: join sep (w :: ws).
Proof. destruct ws; reflexivity. Qed.

Lemma join_app2 (sep : pystr) (ws1 ws2 : list pystr) :
  ws1 <> [] -> ws2 <> [] ->
  join sep (ws1 ++ ws2) = join sep ws1 ++ sep ++ join sep ws2.
Proof.
  intros H1 H2. induction ws1 as [|w ws1 IH]; [contradiction|].
  destruct ws1 as [|w' ws1'].
  - destruct ws2; [contradiction|reflexivity].
  - change (join sep ((w :: w' :: ws1') ++ ws2))
      with (w ++ sep ++ join sep ((w' :: ws1') ++ ws2)).
    rewrite IH by discriminate.
    change (join sep (w :: w' :: ws1')) with (w ++ sep ++ join sep (w' :: ws1')).
    rewrite <- !app_assoc. reflexivity.
Qed.

Lemma inline_space (c : N) : inline c = true -> isspace c = true -> c = 0x20.
Proof.
  unfold inline. intros Hi Hs. rewrite Hs in Hi. simpl in Hi.
  apply N.eqb_eq. exact Hi.
Qed.

Lemma spaced_after_space (d : N) (t : pystr) :
  inline d = true -> single_spaced true (d :: t) = true -> isspace d = false.
Proof.
  intros Hi Hs. destruct (isspace d) eqn:Hd; [|reflexivity].
  rewrite (inline_space d Hi Hd) in Hs. discriminate.
Qed.

(** A line whose blanks are single spaces, with the whitespace at its end
    taken off, is its words joined by single spaces, after a space if it
    begins with one. *)
Lemma rstrip_words (l : pystr) :
  forallb inline l = true ->
  forall b, single_spaced b l = true ->
  rstrip l = match l with
             | [] => []
             | c :: _ =>
                 if isspace c then
                   match words l with
                   | [] => []
                   | ws => 0x20 :: join [0x20] ws
                   end
                 else join [0x20] (words l)
             end.
Proof.
  induction l as [|c t IH]; intros Hin b Hs; [reflexivity|].
  apply forallb_cons in Hin. destruct Hin as [Hc Ht].
  rewrite rstrip_cons, words_cons. destruct (isspace c) eqn:Hsp.
  - pose proof (inline_space c Hc Hsp) as ->. simpl in Hs.
    apply andb_true_iff in Hs. destruct Hs as [_ Hs].
    rewrite (IH Ht true Hs). destruct t as [|d t']; [reflexivity|].
    apply forallb_cons in Ht. destruct Ht as [Hd _].
    rewrite (spaced_after_space d t' Hd Hs).
    pose proof (words_head d t' (spaced_after_space d t' Hd Hs)) as Hne.
    pose proof (words_nonempty (d :: t')) as Hw.
    destruct (words (d :: t')) as [|w ws] eqn:Ew; [contradiction|].
    destruct (join [32] (w :: ws)) eqn:Ej; [|reflexivity].
    apply join_nil in Ej; [discriminate|exact Hw].
  - assert (Hs' : single_spaced false t = true).
    { simpl in Hs. rewrite (blank_is_space c Hsp) in Hs. exact Hs. }
    rewrite (IH Ht false Hs'). destruct t as [|d t']; [reflexivity|].
    pose proof (words_nonempty (d :: t')) as Hw.
    destruct (isspace d) eqn:Hd.
    + destruct (words (d :: t')) as [|w ws]; reflexivity.
    + pose proof (words_head d t' Hd) as Hne.
      destruct (words (d :: t')) as [|w ws] eqn:Ew; [contradiction|].
      rewrite join_cons_cons.
      destruct (join [32] (w :: ws)) eqn:Ej; [|reflexivity].
      apply join_nil in Ej; [discriminate|exact Hw].
Qed.

Lemma words_lstrip (l : pystr) : words (lstrip l) = words l.
Proof.
  induction l as [|c t IH]; [reflexivity|].
  rewrite words_cons. simpl. destruct (isspace c) eqn:Hc; [exact IH|].
  rewrite words_cons, Hc. reflexivity.
Qed.

Lemma lstrip_spaced (l : pystr) :
  forallb inline l = true ->
  forall b, single_spaced b l = true ->
  forallb inline (lstrip l) = true /\ exists b', single_spaced b' (lstrip l) = true.
Proof.
  induction l as [|c t IH]; intros Hin b Hs; [split; [reflexivity|exists false; reflexivity]|].
  simpl. destruct (isspace c) eqn:Hc; [|split; [exact Hin|exists b; exact Hs]].
  apply forallb_cons in Hin. destruct Hin as [Hi Ht].
  pose proof (inline_space c Hi Hc) as ->. simpl in Hs.
  apply andb_true_iff in Hs. destruct Hs as [_ Hs]. exact (IH Ht true Hs).
Qed.

Lemma strip_words (l : pystr) :
  forallb inline l = true -> single_spaced false l = true ->
  strip l = join [0x20] (words l).
Proof.
  intros Hin Hs. unfold strip.
  destruct (lstrip_spaced l Hin false Hs) as [Hin' [b' Hs']].
  rewrite (rstrip_words _ Hin' b' Hs'), <- (words_lstrip l).
  destruct (lstrip l) as [|c t] eqn:El; [reflexivity|].
  rewrite (lstrip_nonspace l c t El). reflexivity.
Qed.

Lemma lines_join (lines : list pystr) :
  Forall (fun l => strip l = join [0x20] (words l)) lines ->
  join [0x20] (map strip (filter (fun line => strip line <> []) lines))
  = join [0x20] (concat (map words lines)).
Proof.
  induction 1 as [|l ls Hl Hls IH]; [reflexivity|].
  assert (HM : Forall (fun w => w <> [])
                 (map strip (filter (fun line => strip line <> []) ls))).
  { apply Forall_fmap, Forall_forall. intros x Hx.
    apply list_elem_of_filter in Hx. apply Hx. }
  assert (HC : Forall (fun w : pystr => w <> []) (concat (map words ls))).
  { apply Forall_concat, Forall_fmap, Forall_forall. intros x _. apply words_nonempty. }
  remember (map strip (filter (fun line => strip line <> []) ls)) as M eqn:EM.
  remember (concat (map words ls)) as C eqn:EC.
  rewrite filter_cons. cbn [concat map].
  destruct (decide (strip l <> [])) as [Hne|He].
  - assert (Hw : words l <> []) by (intros E; apply Hne; rewrite Hl, E; reflexivity).
    cbn [map]. rewrite <- EM, <- EC.
    destruct C as [|w C'].
    + rewrite (join_nil _ _ HM IH), app_nil_r. exact Hl.
    + rewrite (join_app2 [0x20] (words l) (w :: C') Hw ltac:(discriminate)), <- IH, <- Hl.
      destruct M as [|m M']; [|reflexivity].
      symmetry in IH. apply join_nil in IH; [discriminate|exact HC].
  - assert (Hw : words l = []).
    { apply (join_nil [0x20]); [apply words_nonempty|].
      rewrite <- Hl. destruct (strip l); [reflexivity|]. destruct He. discriminate. }
    rewrite Hw, <- EM, <- EC. exact IH.
Qed.

Lemma blank_space (c : N) : is_blank c = true -> isspace c = true.
Proof.
  unfold is_blank. intros Hc. apply orb_true_iff in Hc.
  destruct Hc as [Hc|Hc]; apply N.eqb_eq in Hc; subst c; reflexivity.
Qed.

(** A test that holds of the 128 ASCII code points holds of each. *)
Lemma ascii_cases (p : N -> bool) (c : N) :
  forallb p (map N.of_nat (seq 0 128)) = true -> c < 0x80 -> p c = true.
Proof.
  intros Hall Hc. rewrite forallb_forall in Hall. apply Hall.
  rewrite <- (N2Nat.id c). apply in_map, in_seq. lia.
Qed.

Lemma ordinary_space (c : N) :
  ordinary c = true -> islinebreak c = false -> is_blank c = false -> isspace c = false.
Proof.
  intros Ho Hl Hb.
  assert (Hc : c < 0x80).
  { unfold ordinary, plain in Ho. apply andb_true_iff in Ho. destruct Ho as [Ho _].
    apply andb_true_iff in Ho. destruct Ho as [Ho _]. apply N.ltb_lt. exact Ho. }
  pose proof (ascii_cases
                (fun c => implb (ordinary c && negb (islinebreak c) && negb (is_blank c))
                                (negb (isspace c)))
                c ltac:(vm_compute; reflexivity) Hc) as Hcase.
  simpl in Hcase. rewrite Ho, Hl, Hb in Hcase. simpl in Hcase.
  apply negb_true_iff. exact Hcase.
Qed.

Lemma spaced_inline (s : pystr) :
  forallb ordinary s = true -> unbroken s = true ->
  forall b, single_spaced b s = true -> forallb inline s = true.
Proof.
  unfold unbroken. induction s as [|c t IH]; intros Ho Hu b Hs; [reflexivity|].
  apply forallb_cons in Ho, Hu. destruct Ho as [Hc Ho], Hu as [Hl Hu].
  simpl in Hs. simpl. destruct (is_blank c) eqn:Hb.
  - apply andb_true_iff in Hs. destruct Hs as [Hs Hs'].
    apply andb_true_iff in Hs. destruct Hs as [_ H20].
    rewrite (IH Ho Hu true Hs'), andb_true_r. unfold inline. rewrite H20. apply orb_true_r.
  - rewrite (IH Ho Hu false Hs), andb_true_r. unfold inline.
    apply negb_true_iff in Hl.
    rewrite (ordinary_space c Hc Hl Hb). reflexivity.
Qed.

Lemma ordinary_plain (s : pystr) : forallb ordinary s = true -> forallb plain s = true.
Proof.
  apply forallb_weaken. intros c Hc. unfold ordinary in Hc.
  apply andb_true_iff in Hc. apply Hc.
Qed.

Lemma tidy_words (s : pystr) :
  forallb ordinary s = true -> tidy s = join [0x20] (words s).
Proof.
  intros Hs. unfold tidy.
  set (u := sub_runs is_blank 0x20 false (sub_runs is_newline 0x0A false s)).
  assert (Hou : forallb ordinary u = true).
  { apply sub_runs_every; [reflexivity|]. apply sub_runs_every; [reflexivity|exact Hs]. }
  assert (Hwu : words u = words s).
  { unfold u. rewrite words_sub_runs; [|exact blank_space|reflexivity].
    apply words_sub_runs; [|reflexivity].
    intros c Hc. apply N.eqb_eq in Hc. subst c. reflexivity. }
  pose proof (ordinary_plain u Hou) as Hpu.
  rewrite (replace_nbsp_id u (plain_nbsp_free u Hpu)).
  assert (Hsu : spaced_plain u) by (split; [apply sub_runs_spaced|exact Hpu]).
  pose proof (splitlines_lines u Hsu false) as Hl1.
  pose proof (splitlines_every ordinary u Hou false) as Hl2.
  unfold splitlines. rewrite lines_join, words_splitlines, Hwu; [reflexivity|].
  apply Forall_forall. intros l Hl.
  rewrite Forall_forall in Hl1, Hl2.
  destruct (Hl1 l Hl) as [Hu [Hsp _]]. destruct (Hl2 l Hl) as [_ Ho].
  apply strip_words; [|exact Hsp]. exact (spaced_inline l Ho Hu false Hsp).
Qed.

(** X20: on a text of ASCII characters other than the backslash and the unit
    separator, [_clean_content] is [' '.join(text.split())]: the words of the
    text, in order, with one space between them, whatever mix of spaces,
    tabs and line breaks separated them. *)
Theorem clean_is_split_and_join `{UnicodeData} (x : pystr) :
  forallb ordinary x = true ->
  _clean_content x = Ok (join [0x20] (words x)).
Proof.
  intros Hx. rewrite (clean_content_plain x (ordinary_plain x Hx)).
  rewrite (tidy_words x Hx). reflexivity.
Qed.

Lemma clean_is_split_and_join_witness :
  forallb ordinary (lit "  Net profit" ++ [0x09; 0x0D; 0x0A; 0x0A; 0x20] ++ lit "rose  12%"
                    ++ [0x0C]) = true
  /\ @_clean_content Sample.ascii_only
       (lit "  Net profit" ++ [0x09; 0x0D; 0x0A; 0x0A; 0x20] ++ lit "rose  12%" ++ [0x0C])
     = Ok (join [0x20]
             (words (lit "  Net profit" ++ [0x09; 0x0D; 0x0A; 0x0A; 0x20] ++ lit "rose  12%"
                     ++ [0x0C]))).
Proof.
  split; [reflexivity|].
  apply (@clean_is_split_and_join Sample.ascii_only). reflexivity.
Defined.

End CleanFacts.

Module RagFacts.
Import Py Record_ FinVecStore Rag.

Lemma characters_joined (text : pystr) :
  length (join [0x0A; 0x0A] (characters text)) = (3 * length text - 2)%nat
  /\ forall i : nat,
       join [0x0A; 0x0A] (characters text) !! (3 * i)%nat = text !! i
       /\ ((i + 1 < length text)%nat ->
           join [0x0A; 0x0A] (characters text) !! (3 * i + 1)%nat = Some 0x0A
           /\ join [0x0A; 0x0A] (characters text) !! (3 * i + 2)%nat = Some 0x0A).
Proof.
  induction text as [|c t IH]; [split; [reflexivity|]; intros i; split; [reflexivity|]; simpl; lia|].
  destruct t as [|d t'].
  { split; [reflexivity|]. intros i. split; [|simpl; lia].
    destruct i as [|i]; [reflexivity|]. reflexivity. }
  destruct IH as [IHlen IHat].
  change (join [0x0A; 0x0A] (characters (c :: d :: t')))
    with (c :: 0x0A :: 0x0A :: join [0x0A; 0x0A] (characters (d :: t'))).
  split.
  - simpl length in *. rewrite IHlen. lia.
  - intros i. destruct i as [|i].
    + split; [reflexivity|]. intros _. split; reflexivity.
    + replace (3 * S i)%nat with (S (S (S (3 * i)))) by lia.
      replace (S (S (S (3 * i))) + 1)%nat with (S (S (S (3 * i + 1)))) by lia.
      replace (S (S (S (3 * i))) + 2)%nat with (S (S (S (3 * i + 2)))) by lia.
      destruct (IHat i) as [H0 H12].
      split; [exact H0|]. intros Hlt. apply H12. simpl length in *. lia.
Qed.

Section Queries.
Context {client : Type} `{Retrieval client}.

(** X21: what [RAG.async_invoke] returns for a query is not the text of the
    retrieved documents but its characters, joined by blank lines: the text
    that [query_existing_vectorstore] made of the ten best hits is joined once
    more, as a sequence of characters.  A text of n characters gives a reply
    of 3n - 2, with the text's character i at position 3i and newlines at
    the two positions after it. *)
Theorem reply_spreads_the_characters (args : dict value) (reply : pystr) :
  truth (query_of args) = true ->
  async_invoke args = Ok reply ->
  exists c docs,
    persistent_client = Ok c
    /\ similarity_search c collection_name (query_of args) 10 = Ok docs
    /\ let text := join [0x0A; 0x0A] (map page_content docs) in
       length reply = (3 * length text - 2)%nat
       /\ forall i : nat,
            reply !! (3 * i)%nat = text !! i
            /\ ((i + 1 < length text)%nat ->
                reply !! (3 * i + 1)%nat = Some 0x0A
                /\ reply !! (3 * i + 2)%nat = Some 0x0A).
Proof.
  intros Hq. unfold async_invoke. rewrite Hq.
  destruct persistent_client as [c|] eqn:Hc; [|discriminate]. simpl.
  unfold query_vectorstore, query_existing_vectorstore.
  destruct (similarity_search c collection_name (query_of args) 10) as [docs|] eqn:Hs;
    [|discriminate].
  simpl. intros [= <-]. exists c, docs. split; [reflexivity|]. split; [exact Hs|].
  apply characters_joined.
Qed.

(** X22: without a query ([args] has no key query, or its value is empty or
    otherwise false) [RAG.async_invoke] makes no search and returns the
    message that no query was provided; but the database is opened before the
    query is looked at, so a failure to open it is raised all the same. *)
Theorem missing_query_is_reported (args : dict value) :
  truth (query_of args) = false ->
  async_invoke args
  = bind persistent_client (fun _ => Ok (lit "Error: No query provided.")).
Proof.
  intros Hq. unfold async_invoke. rewrite Hq. reflexivity.
Qed.

End Queries.

Section SampleQueries.
#[local] Existing Instance two_hits.

Lemma reply_spreads_the_characters_witness :
  truth (query_of [(lit "query", VStr (lit "growth"))]) = true
  /\ async_invoke [(lit "query", VStr (lit "growth"))]
     = Ok [0x55; 0x0A; 0x0A; 0x70; 0x0A; 0x0A; 0x0A; 0x0A; 0x0A; 0x0A; 0x0A; 0x0A;
           0x31; 0x0A; 0x0A; 0x32; 0x0A; 0x0A; 0x25]
  /\ exists c docs,
       persistent_client = Ok c
       /\ similarity_search c collection_name (query_of [(lit "query", VStr (lit "growth"))]) 10
          = Ok docs
       /\ let text := join [0x0A; 0x0A] (map page_content docs) in
          length [0x55; 0x0A; 0x0A; 0x70; 0x0A; 0x0A; 0x0A; 0x0A; 0x0A; 0x0A; 0x0A; 0x0A;
           0x31; 0x0A; 0x0A; 0x32; 0x0A; 0x0A; 0x25]
          = (3 * length text - 2)%nat
          /\ forall i : nat,
               [0x55; 0x0A; 0x0A; 0x70; 0x0A; 0x0A; 0x0A; 0x0A; 0x0A; 0x0A; 0x0A; 0x0A;
           0x31; 0x0A; 0x0A; 0x32; 0x0A; 0x0A; 0x25] !! (3 * i)%nat = text !! i
               /\ ((i + 1 < length text)%nat ->
                   [0x55; 0x0A; 0x0A; 0x70; 0x0A; 0x0A; 0x0A; 0x0A; 0x0A; 0x0A; 0x0A; 0x0A;
           0x31; 0x0A; 0x0A; 0x32; 0x0A; 0x0A; 0x25] !! (3 * i + 1)%nat = Some 0x0A
                   /\ [0x55; 0x0A; 0x0A; 0x70; 0x0A; 0x0A; 0x0A; 0x0A; 0x0A; 0x0A; 0x0A; 0x0A;
           0x31; 0x0A; 0x0A; 0x32; 0x0A; 0x0A; 0x25] !! (3 * i + 2)%nat = Some 0x0A).
Proof.
  assert (Hq : truth (query_of [(lit "query", VStr (lit "growth"))]) = true) by reflexivity.
  assert (Hr : async_invoke [(lit "query", VStr (lit "growth"))]
               = Ok [0x55; 0x0A; 0x0A; 0x70; 0x0A; 0x0A; 0x0A; 0x0A; 0x0A; 0x0A; 0x0A; 0x0A;
           0x31; 0x0A; 0x0A; 0x32; 0x0A; 0x0A; 0x25])
    by (vm_compute; reflexivity).
  split; [exact Hq|]. split; [exact Hr|].
  exact (reply_spreads_the_characters _ _ Hq Hr).
Defined.

Lemma missing_query_is_reported_witness :
  truth (query_of [(lit "question", VStr (lit "growth"))]) = false
  /\ async_invoke [(lit "question", VStr (lit "growth"))]
     = bind persistent_client (fun _ => Ok (lit "Error: No query provided.")).
Proof.
  split; [reflexivity|].
  apply (missing_query_is_reported [(lit "question", VStr (lit "growth"))]). reflexivity.
Defined.

End SampleQueries.
End RagFacts.

Module OrderFacts.
Import Py Record_ Bs4 Web Normalizer FinVecStore Observations RunShapes VecStoreFacts
       CorpusFacts.

Section Run.
Context {tag handle : Type} `{UnicodeData} `{Soup tag} `{Network} `{Libraries tag handle}.

(** *** A chunk that cannot be hashed *)

Lemma utf8_encode_surrogate (s : pystr) :
  existsb is_surrogate s = true -> utf8_encode s = Raise UnicodeEncodeError.
Proof.
  induction s as [|c rest IH]; [discriminate|].
  simpl. destruct (is_surrogate c) eqn:Hc.
  - intros _. unfold utf8_encode_char. unfold is_surrogate in Hc. rewrite Hc.
    apply andb_true_iff in Hc. destruct Hc as [Hlo Hhi]. apply N.leb_le in Hlo, Hhi.
    destruct (N.ltb_spec c 0x80); [lia|]. destruct (N.ltb_spec c 0x800); [lia|].
    destruct (N.ltb_spec c 0x10000); [reflexivity|lia].
  - simpl. intros Hrest. rewrite (IH Hrest).
    unfold utf8_encode_char. unfold is_surrogate in Hc. rewrite Hc.
    destruct (c <? 0x80); [reflexivity|]. destruct (c <? 0x800); [reflexivity|].
    destruct (c <? 0x10000); reflexivity.
Qed.

Lemma dedup_loop_app (before after : list Document) (source_type : pystr) (s : state) :
  dedup_loop (before ++ after) source_type s
  = and_then (dedup_loop before source_type s) (dedup_loop after source_type).
Proof.
  revert s. induction before as [|chunk rest IH]; intros s; [reflexivity|].
  simpl. destruct (too_poor _); [apply IH|].
  destruct (_get_content_hash _); [|reflexivity].
  destruct (_already_exists _ _); apply IH.
Qed.

(** X23: a chunk that passes the length and alphanumeric filter but whose
    stripped text holds a lone surrogate cannot be hashed: the call of
    [_split_and_dedup_docs] ends there with [UnicodeEncodeError].  The chunks
    of the batch before it stay in the corpus, and those after it are never
    looked at. *)
Theorem unhashable_chunk_ends_the_batch (input : docs_or_json) (sp : splitter)
    (before after : list Document) (bad : Document) (source_type : pystr) (s : state) :
  produced sp input = Ok (before ++ bad :: after) ->
  (dedup_loop before source_type s).2 = None ->
  too_poor (strip (page_content bad)) = false ->
  existsb is_surrogate (strip (page_content bad)) = true ->
  _split_and_dedup_docs input sp source_type s
  = ((dedup_loop before source_type s).1, Some UnicodeEncodeError).
Proof.
  intros Hp Hb Hpoor Hsur. unfold _split_and_dedup_docs. fold (produced sp input).
  rewrite Hp, dedup_loop_app.
  destruct (dedup_loop before source_type s) as [s1 o]. simpl in Hb. subst o.
  simpl. rewrite Hpoor. unfold _get_content_hash.
  rewrite (utf8_encode_surrogate _ Hsur). reflexivity.
Qed.

(** *** The order of the corpus *)

Lemma grown_loop (source_type : pystr) (pre chunks : list Document) (s : state) :
  grown source_type pre s -> grown source_type pre (dedup_loop chunks source_type s).1.
Proof.
  intros (cur & Hs & Hcur).
  destruct (dedup_loop_appends source_type chunks s) as (kept & _ & Heq & _).
  exists (cur ++ map (tagged source_type) kept). split.
  - rewrite Heq, Hs, app_assoc. reflexivity.
  - apply Forall_app. split; [exact Hcur|].
    apply Forall_fmap, Forall_true. intros c. unfold has_type. simpl.
    apply ExtractorFacts.dict_get_set_eq.
Qed.

Lemma grown_split (source_type : pystr) (pre : list Document) input sp (s : state) :
  grown source_type pre s ->
  grown source_type pre (_split_and_dedup_docs input sp source_type s).1.
Proof.
  intros Hs. unfold _split_and_dedup_docs.
  destruct sp as [f|f]; destruct (f input); try exact Hs; apply grown_loop; exact Hs.
Qed.

Lemma grown_logged (source_type : pystr) (pre : list Document) (e : event) (s : state) :
  grown source_type pre s -> grown source_type pre (logged e s).
Proof. intros Hs. exact Hs. Qed.

Lemma grown_start (source_type : pystr) (s : state) :
  grown source_type (all_chunks s) s.
Proof. exists []. split; [symmetry; apply app_nil_r|constructor]. Qed.

Lemma web_loop_grown (pre : list Document) docs ending (s : state) :
  grown (lit "web") pre s -> grown (lit "web") pre (web_loop docs ending s).1.
Proof.
  revert s. induction docs as [|doc rest IH]; intros s Hs; [exact Hs|].
  simpl. destruct (cleaned doc); [|exact Hs].
  apply and_then_invariant; [|exact IH]. apply grown_split. exact Hs.
Qed.

Lemma pdf_loop_grown (pre : list Document) files (s : state) :
  grown (lit "pdf") pre s -> grown (lit "pdf") pre (pdf_loop files s).1.
Proof.
  revert s. induction files as [|file rest IH]; intros s Hs; [exact Hs|].
  simpl. destruct (bind _ _); [|exact Hs].
  apply and_then_invariant; [|exact IH]. apply grown_split. exact Hs.
Qed.

Lemma excel_loop_grown (pre : list Document) files (s : state) :
  grown (lit "excel") pre s -> grown (lit "excel") pre (excel_loop files s).1.
Proof.
  revert s. induction files as [|file rest IH]; intros s Hs; [exact Hs|].
  simpl. destruct (excel_load file); [|exact Hs].
  apply and_then_invariant; [|exact IH]. apply grown_split. exact Hs.
Qed.

Lemma screener_loop_grown (pre : list Document) urls (s : state) :
  grown (lit "screener") pre s -> grown (lit "screener") pre (screener_loop urls s).
Proof.
  revert s. induction urls as [|u rest IH]; intros s Hs; [exact Hs|].
  simpl.
  assert (Ht : grown (lit "screener") pre (screener_try u s).1).
  { unfold screener_try. destruct (bind _ _); [|exact Hs]. apply grown_split. exact Hs. }
  destruct (screener_try u s) as [s' [e|]]; simpl in Ht; apply IH; exact Ht.
Qed.

(** X24: the corpus is in the order of the four loops: the chunks from web
    pages, then those from PDFs, then those from spreadsheets, then those
    from Screener pages, each tagged with its source type; this also holds of
    the corpus a run leaves when it raises. *)
Theorem corpus_is_in_source_order (src : Sources) :
  exists web pdf excel screener,
    all_chunks (generate_vectorstore src).1 = web ++ pdf ++ excel ++ screener
    /\ Forall (has_type (lit "web")) web
    /\ Forall (has_type (lit "pdf")) pdf
    /\ Forall (has_type (lit "excel")) excel
    /\ Forall (has_type (lit "screener")) screener.
Proof.
  rewrite all_chunks_generate. unfold gather, load_documents.
  destruct (web_lazy_load (web_urls src)) as [docs ending].
  set (s0 := logged (LogInfo "Loading documents from web..." []) initial).
  pose proof (web_loop_grown [] docs ending s0 (grown_start _ s0)) as (w & Hw & Hwt).
  simpl in Hw.
  destruct (web_loop docs ending s0) as [s1 [e|]]; simpl in Hw |- *.
  { exists w, [], [], []. rewrite !app_nil_r. repeat split; try constructor; assumption. }
  set (s1' := logged (LogInfo "Loading PDF documents..." []) s1).
  pose proof (pdf_loop_grown _ (pdf_paths src) s1' (grown_start _ s1')) as (p & Hp & Hpt).
  simpl in Hp. rewrite Hw in Hp.
  destruct (pdf_loop (pdf_paths src) s1') as [s2 [e|]]; simpl in Hp |- *.
  { exists w, p, [], []. rewrite !app_nil_r. repeat split; try constructor; assumption. }
  set (s2' := logged (LogInfo "Loading excel spreadsheets..." []) s2).
  pose proof (excel_loop_grown _ (excel_paths src) s2' (grown_start _ s2')) as (x & Hx & Hxt).
  simpl in Hx. rewrite Hp in Hx.
  destruct (excel_loop (excel_paths src) s2') as [s3 [e|]]; simpl in Hx |- *.
  { exists w, p, x, []. rewrite !app_nil_r, <- app_assoc in *.
    repeat split; try constructor; assumption. }
  set (s3' := logged (LogInfo "Extracting Screener data dynamically..." []) s3).
  pose proof (screener_loop_grown _ (screener_urls src) s3' (grown_start _ s3'))
    as (c & Hc & Hct).
  simpl in Hc. rewrite Hx in Hc.
  exists w, p, x, c. rewrite Hc, <- !app_assoc.
  repeat split; assumption.
Qed.

End Run.

Section SampleRun.
Import Sample.
#[local] Existing Instance ascii_only.
#[local] Existing Instance one_page.
#[local] Existing Instance one_site.
#[local] Existing Instance stand_ins.

Lemma unhashable_chunk_ends_the_batch_witness :
  produced whole_documents (inl ([first_chunk] ++ unencodable_chunk :: [second_chunk]))
  = Ok ([first_chunk] ++ unencodable_chunk :: [second_chunk])
  /\ (dedup_loop [first_chunk] (lit "pdf") initial).2 = None
  /\ too_poor (strip (page_content unencodable_chunk)) = false
  /\ existsb is_surrogate (strip (page_content unencodable_chunk)) = true
  /\ _split_and_dedup_docs (inl ([first_chunk] ++ unencodable_chunk :: [second_chunk]))
       whole_documents (lit "pdf") initial
     = ((dedup_loop [first_chunk] (lit "pdf") initial).1, Some UnicodeEncodeError).
Proof.
  split; [reflexivity|]. split; [reflexivity|]. split; [reflexivity|]. split; [reflexivity|].
  apply (unhashable_chunk_ends_the_batch
           (inl ([first_chunk] ++ unencodable_chunk :: [second_chunk]))
           whole_documents [first_chunk] [second_chunk] unencodable_chunk (lit "pdf") initial);
    reflexivity.
Defined.

End SampleRun.
End OrderFacts.

Module SchemaFacts.
Import Py Record_ Bs4 Web Shapes Schema ExtractorFacts PageFacts.

Section Page.
Context {tag : Type} `{Soup tag}.
Import Fintastic.

(** *** Where a key of the record comes from *)

Lemma dict_get_set_inv {V} (k k' : pystr) (v x : V) (d : dict V) :
  dict_get k (dict_set k' v d) = Some x -> k = k' \/ dict_get k d = Some x.
Proof.
  intros Hg. destruct (decide (k' = k)) as [->|Hne]; [left; reflexivity|].
  right. rewrite dict_get_set_ne in Hg by exact Hne. exact Hg.
Qed.

Lemma extract_tables_inv (tables : list tag) (k : pystr) (x : value) (data : dict value) :
  dict_get k (foldl extract_table data tables) = Some x ->
  (exists t, t ∈ tables /\ table_key t = Some k) \/ dict_get k data = Some x.
Proof.
  revert data. induction tables as [|t rest IH]; intros data Hg; [right; exact Hg|].
  simpl in Hg. destruct (IH _ Hg) as [(t' & Hin & Hk)|Hd].
  { left. exists t'. split; [right; exact Hin|exact Hk]. }
  unfold extract_table in Hd. unfold table_key at 1.
  destruct (find_previous t _) as [header|] eqn:Hp; [|right; exact Hd].
  destruct (dict_get_set_inv _ _ _ _ _ Hd) as [->|Hd']; [|right; exact Hd'].
  left. exists t. split; [left|]. unfold table_key. rewrite Hp. reflexivity.
Qed.

(** X25: a record that the extractor of [fintastic.py] returns has no keys
    but the six its steps assign by name (company_name, company_info, pros,
    cons, Shareholding Pattern, documents) and the stripped texts of the
    headings that data tables stand under; there is, in particular, no
    peer_info unless a table heading reads so. *)
Theorem record_keys_are_known (soup : tag) (data : dict value) (k : pystr) (x : value) :
  extract_from soup = Ok data ->
  dict_get k data = Some x ->
  k ∈ FIXED_KEYS \/ exists t, t ∈ data_tables soup /\ table_key t = Some k.
Proof.
  intros Hdata Hk. unfold extract_from, extract_documents_links in Hdata.
  destruct (annual_reports_of soup); [|discriminate]. simpl in Hdata.
  injection Hdata as <-. unfold FIXED_KEYS.
  apply dict_get_set_inv in Hk. destruct Hk as [->|Hk]; [left; set_solver|].
  unfold extract_shareholding_pattern in Hk.
  assert (Ht : k = lit "Shareholding Pattern"
               \/ dict_get k (extract_tables soup
                                (extract_pros_cons soup
                                   (extract_company_info soup
                                      (extract_company_name soup [])))) = Some x).
  { destruct (find soup _) as [header|]; [|right; exact Hk].
    destruct (find_next_sibling header _); [|right; exact Hk].
    apply dict_get_set_inv in Hk. exact Hk. }
  destruct Ht as [->|Ht]; [left; set_solver|].
  unfold extract_tables in Ht. apply extract_tables_inv in Ht.
  destruct Ht as [Ht|Hp]; [right; exact Ht|]. left.
  unfold extract_pros_cons in Hp.
  apply dict_get_set_inv in Hp. destruct Hp as [->|Hp]; [set_solver|].
  apply dict_get_set_inv in Hp. destruct Hp as [->|Hp]; [set_solver|].
  assert (Hi : k = lit "company_info"
               \/ dict_get k (extract_company_name soup []) = Some x).
  { unfold extract_company_info in Hp.
    destruct (select_one soup (Sel (cls "company-info")));
      apply dict_get_set_inv in Hp; exact Hp. }
  destruct Hi as [->|Hn]; [set_solver|].
  unfold extract_company_name in Hn.
  destruct (select_one soup _); [|discriminate].
  apply dict_get_set_inv in Hn. destruct Hn as [->|Hn]; [set_solver|discriminate].
Qed.

(** *** The sections of the static extractor's record *)

Lemma static_tables_some (tables : list tag) (k : pystr) (data : dict value) :
  is_Some (dict_get k data) ->
  is_Some (dict_get k (foldl FinDataExtractorStatic.extract_table data tables)).
Proof.
  revert data. induction tables as [|t rest IH]; intros data Hd; [exact Hd|].
  simpl. apply IH. unfold FinDataExtractorStatic.extract_table.
  destruct (find_previous t _); [|exact Hd]. apply dict_get_set_some, Hd.
Qed.

Lemma static_tables_list (tables : list tag) (k : pystr) (data : dict value) :
  holds_list k data ->
  holds_list k (foldl FinDataExtractorStatic.extract_table data tables).
Proof.
  revert data. induction tables as [|t rest IH]; intros data Hd; [exact Hd|].
  simpl. apply IH. unfold FinDataExtractorStatic.extract_table.
  destruct (find_previous t _); [|exact Hd]. apply holds_list_set_list, Hd.
Qed.

Lemma shareholding_some (soup : tag) (k : pystr) (data : dict value) :
  is_Some (dict_get k data) ->
  is_Some (dict_get k (extract_shareholding_pattern soup data)).
Proof.
  intros Hd. unfold extract_shareholding_pattern.
  destruct (find soup _) as [header|]; [|exact Hd].
  destruct (find_next_sibling header _); [|exact Hd]. apply dict_get_set_some, Hd.
Qed.

Lemma peer_info_some (soup : tag) (k : pystr) (data : dict value) :
  is_Some (dict_get k data) ->
  is_Some (dict_get k (FinDataExtractorStatic.extract_peer_info soup data)).
Proof.
  intros Hd. unfold FinDataExtractorStatic.extract_peer_info.
  destruct (find soup _); [|exact Hd]. apply dict_get_set_some, Hd.
Qed.

Lemma peer_info_list (soup : tag) (k : pystr) (data : dict value) :
  k <> lit "peer_info" ->
  holds_list k data -> holds_list k (FinDataExtractorStatic.extract_peer_info soup data).
Proof.
  intros Hk [l Hl]. unfold FinDataExtractorStatic.extract_peer_info.
  destruct (find soup _); [|exists l; exact Hl].
  exists l. rewrite dict_get_set_ne by congruence. exact Hl.
Qed.

(** X26: a record that the extractor of [fin_data_extractor.py] returns
    always has the keys company_name, company_info, pros, cons and documents
    (pros, cons and documents as lists), and it has peer_info whenever the
    page has a section with the id peers. *)
Theorem static_record_has_its_sections (soup : tag) (data : dict value) :
  FinDataExtractorStatic.extract_from soup = Ok data ->
  is_Some (dict_get (lit "company_name") data)
  /\ is_Some (dict_get (lit "company_info") data)
  /\ holds_list (lit "pros") data
  /\ holds_list (lit "cons") data
  /\ (exists links, dict_get (lit "documents") data = Some (VList links))
  /\ (is_Some (find soup (by_id (lit "section") (lit "peers"))) ->
      is_Some (dict_get (lit "peer_info") data)).
Proof.
  unfold FinDataExtractorStatic.extract_from, FinDataExtractorStatic.extract_company_name.
  destruct (select_one soup _) as [title|]; [|discriminate]. simpl.
  set (d0 := dict_set (lit "company_name") (VStr (strip (text title))) []).
  set (d1 := FinDataExtractorStatic.extract_info_box soup d0).
  set (d2 := FinDataExtractorStatic.extract_pros_cons soup d1).
  set (d3 := FinDataExtractorStatic.extract_peer_info soup d2).
  intros [= <-].
  unfold FinDataExtractorStatic.extract_documents_links,
         FinDataExtractorStatic.extract_shareholding_pattern,
         FinDataExtractorStatic.extract_tables.
  assert (Hn : is_Some (dict_get (lit "company_name") d2)).
  { unfold d2, d1, FinDataExtractorStatic.extract_pros_cons,
           FinDataExtractorStatic.extract_info_box.
    do 3 apply dict_get_set_some. unfold d0. rewrite dict_get_set_eq. eexists; reflexivity. }
  assert (Hi : is_Some (dict_get (lit "company_info") d2)).
  { unfold d2, d1, FinDataExtractorStatic.extract_pros_cons,
           FinDataExtractorStatic.extract_info_box.
    do 2 apply dict_get_set_some. rewrite dict_get_set_eq. eexists; reflexivity. }
  assert (Hp : holds_list (lit "pros") d2).
  { unfold d2, FinDataExtractorStatic.extract_pros_cons. apply holds_list_set_list.
    eexists. apply dict_get_set_eq. }
  assert (Hc : holds_list (lit "cons") d2).
  { unfold d2, FinDataExtractorStatic.extract_pros_cons. eexists. apply dict_get_set_eq. }
  split; [|split; [|split; [|split; [|split]]]].
  - apply dict_get_set_some, shareholding_some, static_tables_some, peer_info_some, Hn.
  - apply dict_get_set_some, shareholding_some, static_tables_some, peer_info_some, Hi.
  - apply holds_list_set_list, holds_list_shareholding, static_tables_list,
      peer_info_list; [discriminate|exact Hp].
  - apply holds_list_set_list, holds_list_shareholding, static_tables_list,
      peer_info_list; [discriminate|exact Hc].
  - eexists. apply dict_get_set_eq.
  - intros Hpeers. apply dict_get_set_some, shareholding_some, static_tables_some.
    unfold d3, FinDataExtractorStatic.extract_peer_info.
    destruct (find soup _); [|destruct Hpeers; discriminate].
    rewrite dict_get_set_eq. eexists; reflexivity.
Qed.

End Page.

Section SamplePages.
Import Sample Fintastic.
#[local] Existing Instance one_page.

Lemma record_keys_are_known_witness :
  exists data,
    extract_from (Html.document company_page) = Ok data
    /\ dict_get (lit "Profit & Loss") data
       = Some (VList (table_rows (at_ company_page [2%nat])))
    /\ (lit "Profit & Loss" ∈ FIXED_KEYS
        \/ exists t, t ∈ data_tables (Html.document company_page)
                     /\ table_key t = Some (lit "Profit & Loss")).
Proof.
  eexists. split; [vm_compute; reflexivity|].
  split; [vm_compute; reflexivity|].
  eapply (record_keys_are_known (Html.document company_page));
    vm_compute; reflexivity.
Defined.

Lemma static_record_has_its_sections_witness :
  exists data,
    FinDataExtractorStatic.extract_from (Html.document company_page) = Ok data
    /\ is_Some (dict_get (lit "company_name") data)
    /\ is_Some (dict_get (lit "company_info") data)
    /\ holds_list (lit "pros") data
    /\ holds_list (lit "cons") data
    /\ (exists links, dict_get (lit "documents") data = Some (VList links))
    /\ (is_Some (find (Html.document company_page) (by_id (lit "section") (lit "peers"))) ->
        is_Some (dict_get (lit "peer_info") data)).
Proof.
  eexists. split; [vm_compute; reflexivity|].
  apply (static_record_has_its_sections (Html.document company_page)).
  vm_compute. reflexivity.
Defined.

End SamplePages.
End SchemaFacts.
